(** * chartwise: candlestick patterns, divergences, correlation and treemap

  A shallow embedding of the analysis core of the dashboard:
  - [src/utils/candlePatterns.ts]        (module [CandlePatterns]),
  - the divergence detector component    (module [Divergence]),
  - the correlation matrix component     (module [Correlation]),
  - [src/components/MarketHeatmap.tsx]   (module [Treemap]).

  In the pattern, divergence and treemap modules JavaScript numbers are
  idealised: a number is NaN, an infinity or an exact rational; rounding,
  overflow and the sign of zero are not modelled there.  The correlation is
  computed on IEEE 754 binary64 numbers, as the code computes it: additions,
  products, quotients and the square root round to nearest, ties to even. *)

From Stdlib Require Import ZArith QArith Qabs Floats List Bool Lia Psatz String.
From Stdlib Require Uint63.
From Stdlib Require Import Sorting.Permutation Sorting.Sorted.
Import ListNotations.

Close Scope Q_scope.
Local Open Scope Z_scope.

Set Warnings "-inexact-float".

(* ================================================================== *)
(** ** JavaScript numbers *)
(* ================================================================== *)

Module JsNum.

Inductive num : Type :=
| NaN
| NInf
| Fin (q : Q)
| PInf.

Definition isNaN (a : num) : bool :=
  match a with NaN => true | _ => false end.

(** Sign of a rational, as a comparison with zero. *)
Definition Qsign (q : Q) : comparison := (q ?= 0)%Q.

Definition neg (a : num) : num :=
  match a with
  | NaN => NaN
  | NInf => PInf
  | Fin q => Fin (- q)%Q
  | PInf => NInf
  end.

Definition add (a b : num) : num :=
  match a, b with
  | NaN, _ | _, NaN => NaN
  | PInf, NInf | NInf, PInf => NaN
  | PInf, _ | _, PInf => PInf
  | NInf, _ | _, NInf => NInf
  | Fin x, Fin y => Fin (x + y)%Q
  end.

Definition sub (a b : num) : num := add a (neg b).

(** An infinity times a finite number: the sign decides, zero gives NaN. *)
Definition inf_times (positive : bool) (s : comparison) : num :=
  match s with
  | Eq => NaN
  | Gt => if positive then PInf else NInf
  | Lt => if positive then NInf else PInf
  end.

Definition mul (a b : num) : num :=
  match a, b with
  | NaN, _ | _, NaN => NaN
  | Fin x, Fin y => Fin (x * y)%Q
  | PInf, Fin y => inf_times true (Qsign y)
  | NInf, Fin y => inf_times false (Qsign y)
  | Fin x, PInf => inf_times true (Qsign x)
  | Fin x, NInf => inf_times false (Qsign x)
  | PInf, PInf | NInf, NInf => PInf
  | PInf, NInf | NInf, PInf => NInf
  end.

Definition div (a b : num) : num :=
  match a, b with
  | NaN, _ | _, NaN => NaN
  | Fin x, Fin y =>
      match Qsign y with
      | Eq => inf_times true (Qsign x)
      | _ => Fin (x / y)%Q
      end
  | Fin _, (PInf | NInf) => Fin 0
  | (PInf | NInf), (PInf | NInf) => NaN
  | PInf, Fin y => match Qsign y with Lt => NInf | _ => PInf end
  | NInf, Fin y => match Qsign y with Lt => PInf | _ => NInf end
  end.

(** [Math.abs] *)
Definition abs (a : num) : num :=
  match a with
  | NaN => NaN
  | NInf | PInf => PInf
  | Fin q => Fin (Qabs q)
  end.

(** The IEEE comparison: unordered as soon as one side is NaN. *)
Definition cmp (a b : num) : option comparison :=
  match a, b with
  | NaN, _ | _, NaN => None
  | NInf, NInf => Some Eq
  | NInf, _ => Some Lt
  | Fin _, NInf => Some Gt
  | Fin x, Fin y => Some (x ?= y)%Q
  | Fin _, PInf => Some Lt
  | PInf, PInf => Some Eq
  | PInf, _ => Some Gt
  end.

Definition ltb (a b : num) : bool :=
  match cmp a b with Some Lt => true | _ => false end.
Definition leb (a b : num) : bool :=
  match cmp a b with Some Lt | Some Eq => true | _ => false end.
Definition gtb (a b : num) : bool :=
  match cmp a b with Some Gt => true | _ => false end.
Definition geb (a b : num) : bool :=
  match cmp a b with Some Gt | Some Eq => true | _ => false end.
(** [===] on numbers *)
Definition eqb (a b : num) : bool :=
  match cmp a b with Some Eq => true | _ => false end.

(** [Math.max] and [Math.min]: NaN as soon as one argument is NaN. *)
Definition max (a b : num) : num :=
  match cmp a b with
  | None => NaN
  | Some Lt => b
  | Some _ => a
  end.
Definition min (a b : num) : num :=
  match cmp a b with
  | None => NaN
  | Some Gt => b
  | Some _ => a
  end.

(** [a || b] on numbers: zero and NaN are falsy. *)
Definition truthy (a : num) : bool :=
  match a with
  | NaN => false
  | Fin q => match Qsign q with Eq => false | _ => true end
  | _ => true
  end.
Definition or_else (a b : num) : num := if truthy a then a else b.

(** Equality of numbers up to the representation of the rational. *)
Definition num_eq (a b : num) : Prop :=
  match a, b with
  | NaN, NaN | NInf, NInf | PInf, PInf => True
  | Fin x, Fin y => (x == y)%Q
  | _, _ => False
  end.

Definition of_Z (z : Z) : num := Fin (inject_Z z).
Definition of_nat (n : nat) : num := of_Z (Z.of_nat n).

Declare Scope num_scope.
Delimit Scope num_scope with num.
Bind Scope num_scope with num.
Infix "+" := add : num_scope.
Infix "-" := sub : num_scope.
Infix "*" := mul : num_scope.
Infix "/" := div : num_scope.
Infix "<?" := ltb (at level 70, no associativity) : num_scope.
Infix "<=?" := leb (at level 70, no associativity) : num_scope.
Infix ">?" := gtb (at level 70, no associativity) : num_scope.
Infix ">=?" := geb (at level 70, no associativity) : num_scope.
Infix "=~=" := num_eq (at level 70, no associativity) : num_scope.

End JsNum.
Import JsNum.

(** Array helpers shared by the components. *)
Module JsArray.

(** A relative index of [Array.prototype.slice], clamped to [0, len]. *)
Definition relIndex (len z : Z) : Z :=
  if z <? 0 then Z.max (len + z) 0 else Z.min z len.

(** [l.slice(start)] and [l.slice(start, end)] *)
Definition slice {A : Type} (start : Z) (finish : option Z) (l : list A) : list A :=
  let len := Z.of_nat (List.length l) in
  let k := relIndex len start in
  let final := match finish with None => len | Some e => relIndex len e end in
  firstn (Z.to_nat (final - k)) (skipn (Z.to_nat k) l).

(** Code that reads a field of [undefined] raises a TypeError. *)
Inductive result (A : Type) : Type :=
| Ok (a : A)
| TypeError.
Arguments Ok {A} a.
Arguments TypeError {A}.

Definition bind {A B : Type} (r : result A) (k : A -> result B) : result B :=
  match r with
  | Ok a => k a
  | TypeError => TypeError
  end.

(** [l[i]] is [undefined] outside the array; reading a field of it raises. *)
Definition field {A B : Type} (f : A -> B) (o : option A) : result B :=
  match o with
  | Some a => Ok (f a)
  | None => TypeError
  end.

(** [a && b]: the right operand is evaluated only when the left one holds. *)
Definition andR (a b : result bool) : result bool :=
  match a with
  | Ok true => b
  | Ok false => Ok false
  | TypeError => TypeError
  end.

Notation "x <- r ;; k" := (bind r (fun x => k))
  (at level 61, r at next level, right associativity).
Infix "&&&" := andR (at level 40, left associativity).

End JsArray.
Import JsArray.


(* ================================================================== *)
(** ** Candlestick pattern detector ([src/utils/candlePatterns.ts]) *)
(* ================================================================== *)

Module CandlePatterns.

Local Open Scope num_scope.

(** [OHLCV], declared in [utils/indicators]. *)
Record OHLCV : Type := mkOHLCV {
  time : Z;
  open : num;
  high : num;
  low : num;
  close : num;
  volume : num
}.

Inductive PatternType : Type := bullish | bearish | neutral.
Inductive Reliability : Type := rel_high | rel_medium | rel_low.

Record CandlePattern : Type := mkPattern {
  name : string;
  type : PatternType;
  description : string;
  index : Z;
  reliability : Reliability
}.

(** Decimal literals of the source. *)
Definition d0_05 : num := Fin (5 # 100).
Definition d0_1 : num := Fin (1 # 10).
Definition d0_3 : num := Fin (3 # 10).
Definition d0_5 : num := Fin (5 # 10).
Definition d0_7 : num := Fin (7 # 10).
Definition d1_2 : num := Fin (12 # 10).
Definition d1_5 : num := Fin (15 # 10).
Definition d2 : num := Fin 2.

(** Helper functions *)
Definition bodySize (candle : OHLCV) : num := abs (close candle - open candle).
Definition upperWick (candle : OHLCV) : num :=
  high candle - max (open candle) (close candle).
Definition lowerWick (candle : OHLCV) : num :=
  min (open candle) (close candle) - low candle.
Definition isBullish (candle : OHLCV) : bool := close candle >? open candle.
Definition isBearish (candle : OHLCV) : bool := close candle <? open candle.
Definition totalRange (candle : OHLCV) : num := high candle - low candle.

(** Single candle patterns *)
Definition detectDoji (candle : OHLCV) (avgBody : num) : option CandlePattern :=
  let body := bodySize candle in
  if (body <? avgBody * d0_1) && (totalRange candle >? avgBody * d0_5) then
    Some (mkPattern "Doji" neutral "Indecision - potential reversal" 0 rel_medium)
  else None.

Definition detectHammer (candle : OHLCV) (avgBody : num) : option CandlePattern :=
  let body := bodySize candle in
  let lower := lowerWick candle in
  let upper := upperWick candle in
  if (lower >? body * d2) && (upper <? body * d0_5) && (body >? avgBody * d0_3) then
    Some (mkPattern
            (if isBullish candle then "Hammer" else "Hanging Man")
            (if isBullish candle then bullish else bearish)
            (if isBullish candle then "Bullish reversal signal"
             else "Bearish reversal signal")
            0 rel_high)
  else None.

Definition detectShootingStar (candle : OHLCV) (avgBody : num) : option CandlePattern :=
  let body := bodySize candle in
  let lower := lowerWick candle in
  let upper := upperWick candle in
  if (upper >? body * d2) && (lower <? body * d0_5) && (body >? avgBody * d0_3) then
    Some (mkPattern
            (if isBearish candle then "Shooting Star" else "Inverted Hammer")
            (if isBearish candle then bearish else bullish)
            (if isBearish candle then "Bearish reversal signal"
             else "Potential bullish reversal")
            0 rel_high)
  else None.

Definition detectMarubozu (candle : OHLCV) (avgBody : num) : option CandlePattern :=
  let body := bodySize candle in
  let upper := upperWick candle in
  let lower := lowerWick candle in
  if (body >? avgBody * d1_5) && (upper <? body * d0_05) && (lower <? body * d0_05) then
    Some (mkPattern
            (if isBullish candle then "Bullish Marubozu" else "Bearish Marubozu")
            (if isBullish candle then bullish else bearish)
            "Strong momentum continuation"
            0 rel_high)
  else None.

(** Two candle patterns *)
Definition detectEngulfing (prev curr : OHLCV) (avgBody : num) : option CandlePattern :=
  let prevBody := bodySize prev in
  let currBody := bodySize curr in
  if isBearish prev && isBullish curr
     && (currBody >? prevBody * d1_2)
     && (open curr <? close prev) && (close curr >? open prev) then
    Some (mkPattern "Bullish Engulfing" bullish
            "Strong bullish reversal pattern" 0 rel_high)
  else if isBullish prev && isBearish curr
     && (currBody >? prevBody * d1_2)
     && (open curr >? close prev) && (close curr <? open prev) then
    Some (mkPattern "Bearish Engulfing" bearish
            "Strong bearish reversal pattern" 0 rel_high)
  else None.

Definition detectPiercing (prev curr : OHLCV) : option CandlePattern :=
  if isBearish prev && isBullish curr
     && (open curr <? low prev)
     && (close curr >? (open prev + close prev) / d2)
     && (close curr <? open prev) then
    Some (mkPattern "Piercing Line" bullish
            "Bullish reversal - closes above midpoint" 0 rel_medium)
  else None.

Definition detectDarkCloud (prev curr : OHLCV) : option CandlePattern :=
  if isBullish prev && isBearish curr
     && (open curr >? high prev)
     && (close curr <? (open prev + close prev) / d2)
     && (close curr >? open prev) then
    Some (mkPattern "Dark Cloud Cover" bearish
            "Bearish reversal - closes below midpoint" 0 rel_medium)
  else None.

(** Three candle patterns.  [data[idx - 2]], [data[idx - 1]] and [data[idx]]
    may be [undefined]; the conjunction reads their fields from left to right
    and stops at the first conjunct that fails. *)
Definition detectMorningStar (data : list OHLCV) (idx : nat) (avgBody : num)
  : result (option CandlePattern) :=
  if (idx <? 2)%nat then Ok None else
  let first := nth_error data (idx - 2) in
  let second := nth_error data (idx - 1) in
  let third := nth_error data idx in
  c <- field isBearish first
       &&& field (fun f => bodySize f >? avgBody) first
       &&& field (fun s => bodySize s <? avgBody * d0_3) second
       &&& field isBullish third
       &&& field (fun t => bodySize t >? avgBody) third
       &&& bind (field close third) (fun tc =>
             field (fun f => tc >? (open f + close f) / d2) first) ;;
  if c then
    Ok (Some (mkPattern "Morning Star" bullish
                "Strong bullish reversal (3-candle)" 0 rel_high))
  else Ok None.

Definition detectEveningStar (data : list OHLCV) (idx : nat) (avgBody : num)
  : result (option CandlePattern) :=
  if (idx <? 2)%nat then Ok None else
  let first := nth_error data (idx - 2) in
  let second := nth_error data (idx - 1) in
  let third := nth_error data idx in
  c <- field isBullish first
       &&& field (fun f => bodySize f >? avgBody) first
       &&& field (fun s => bodySize s <? avgBody * d0_3) second
       &&& field isBearish third
       &&& field (fun t => bodySize t >? avgBody) third
       &&& bind (field close third) (fun tc =>
             field (fun f => tc <? (open f + close f) / d2) first) ;;
  if c then
    Ok (Some (mkPattern "Evening Star" bearish
                "Strong bearish reversal (3-candle)" 0 rel_high))
  else Ok None.

(** [candles.every(p)]: stops at the first candle that fails [p]. *)
Fixpoint every (p : OHLCV -> bool) (candles : list (option OHLCV)) : result bool :=
  match candles with
  | [] => Ok true
  | c :: rest => field p c &&& every p rest
  end.

(** [x.f > y.f], the object on the left read first *)
Definition fieldGt (f : OHLCV -> num) (x y : option OHLCV) : result bool :=
  bind (field f x) (fun a => field (fun c => a >? f c) y).
Definition fieldLt (f : OHLCV -> num) (x y : option OHLCV) : result bool :=
  bind (field f x) (fun a => field (fun c => a <? f c) y).

Definition detectThreeWhiteSoldiers (data : list OHLCV) (idx : nat) (avgBody : num)
  : result (option CandlePattern) :=
  if (idx <? 2)%nat then Ok None else
  let c0 := nth_error data (idx - 2) in
  let c1 := nth_error data (idx - 1) in
  let c2 := nth_error data idx in
  c <- every (fun c => isBullish c && (bodySize c >? avgBody * d0_7)) [c0; c1; c2]
       &&& fieldGt close c1 c0
       &&& fieldGt close c2 c1
       &&& fieldGt open c1 c0
       &&& fieldGt open c2 c1 ;;
  if c then
    Ok (Some (mkPattern "Three White Soldiers" bullish
                "Strong bullish continuation" 0 rel_high))
  else Ok None.

Definition detectThreeBlackCrows (data : list OHLCV) (idx : nat) (avgBody : num)
  : result (option CandlePattern) :=
  if (idx <? 2)%nat then Ok None else
  let c0 := nth_error data (idx - 2) in
  let c1 := nth_error data (idx - 1) in
  let c2 := nth_error data idx in
  c <- every (fun c => isBearish c && (bodySize c >? avgBody * d0_7)) [c0; c1; c2]
       &&& fieldLt close c1 c0
       &&& fieldLt close c2 c1
       &&& fieldLt open c1 c0
       &&& fieldLt open c2 c1 ;;
  if c then
    Ok (Some (mkPattern "Three Black Crows" bearish
                "Strong bearish continuation" 0 rel_high))
  else Ok None.

(** [if (p) { p.index = globalIdx; patterns.push(p); }] *)
Definition setIndex (globalIdx : Z) (p : CandlePattern) : CandlePattern :=
  mkPattern (name p) (type p) (description p) globalIdx (reliability p).

Definition push (globalIdx : Z) (found : option CandlePattern)
  (patterns : list CandlePattern) : list CandlePattern :=
  match found with
  | Some p => patterns ++ [setIndex globalIdx p]
  | None => patterns
  end.

(** One iteration of the scan over [recentData]. *)
Definition scanStep (length lookback : Z) (recentData : list OHLCV) (avgBody : num)
  (i : nat) (patterns : list CandlePattern) : result (list CandlePattern) :=
  let globalIdx := (length - lookback + Z.of_nat i)%Z in
  let candle := nth_error recentData i in
  (* Single candle patterns *)
  doji <- field (fun c => detectDoji c avgBody) candle ;;
  let patterns := push globalIdx doji patterns in
  hammer <- field (fun c => detectHammer c avgBody) candle ;;
  let patterns := push globalIdx hammer patterns in
  shooting <- field (fun c => detectShootingStar c avgBody) candle ;;
  let patterns := push globalIdx shooting patterns in
  marubozu <- field (fun c => detectMarubozu c avgBody) candle ;;
  let patterns := push globalIdx marubozu patterns in
  (* Two candle patterns *)
  patterns <-
    (if (0 <? i)%nat then
       let prev := nth_error recentData (i - 1) in
       engulfing <- bind (field (fun p => p) prev) (fun p =>
                      field (fun c => detectEngulfing p c avgBody) candle) ;;
       let patterns := push globalIdx engulfing patterns in
       piercing <- bind (field (fun p => p) prev) (fun p =>
                      field (fun c => detectPiercing p c) candle) ;;
       let patterns := push globalIdx piercing patterns in
       darkCloud <- bind (field (fun p => p) prev) (fun p =>
                      field (fun c => detectDarkCloud p c) candle) ;;
       Ok (push globalIdx darkCloud patterns)
     else Ok patterns) ;;
  (* Three candle patterns *)
  if (2 <=? i)%nat then
    morning <- detectMorningStar recentData i avgBody ;;
    let patterns := push globalIdx morning patterns in
    evening <- detectEveningStar recentData i avgBody ;;
    let patterns := push globalIdx evening patterns in
    soldiers <- detectThreeWhiteSoldiers recentData i avgBody ;;
    let patterns := push globalIdx soldiers patterns in
    crows <- detectThreeBlackCrows recentData i avgBody ;;
    Ok (push globalIdx crows patterns)
  else Ok patterns.

(** [for (let i = i0; i < recentData.length; i++)], with [n] iterations left. *)
Fixpoint scanLoop (length lookback : Z) (recentData : list OHLCV) (avgBody : num)
  (n i : nat) (patterns : list CandlePattern) : result (list CandlePattern) :=
  match n with
  | O => Ok patterns
  | S n' =>
      patterns' <- scanStep length lookback recentData avgBody i patterns ;;
      scanLoop length lookback recentData avgBody n' (S i) patterns'
  end.

(** [recentData.reduce((sum, c) => sum + bodySize(c), 0) / recentData.length] *)
Definition averageBody (recentData : list OHLCV) : num :=
  fold_left (fun sum c => sum + bodySize c) recentData (Fin 0)
  / of_nat (List.length recentData).

(** The list [patterns] at the end of the scan, before the final [slice]. *)
Definition scanAll (data : list OHLCV) (lookback : Z) : result (list CandlePattern) :=
  let recentData := slice (- lookback) None data in
  let avgBody := averageBody recentData in
  scanLoop (Z.of_nat (List.length data)) lookback recentData avgBody
    (List.length recentData) 0 [].

(** Main detection function *)
Definition detectCandlePatterns (data : list OHLCV) (lookback : Z)
  : result (list CandlePattern) :=
  if (List.length data <? 3)%nat then Ok [] else
  patterns <- scanAll data lookback ;;
  (* Return only the most recent patterns (last 10) *)
  Ok (slice (-10) None patterns).

(** The default value of the parameter [lookback]. *)
Definition default_lookback : Z := 50.

End CandlePatterns.


(* ================================================================== *)
(** ** Divergence detector *)
(* ================================================================== *)

Module Divergence.

Local Open Scope num_scope.

Inductive PeakType : Type := high | low.

Record Peak : Type := mkPeak {
  index : nat;
  value : num;
  type : PeakType
}.

Inductive DivergenceType : Type := bullish | bearish.
Inductive Indicator : Type := RSI_name | MACD_name.
Inductive Strength : Type := weak | moderate | strong.

(** The interface [Divergence].  Its [description], a message that formats the
    four values with [toFixed], is left out. *)
Record Divergence : Type := mkDivergence {
  dtype : DivergenceType;
  indicator : Indicator;
  startIndex : nat;
  endIndex : nat;
  priceStart : num;
  priceEnd : num;
  indicatorStart : num;
  indicatorEnd : num;
  strength : Strength
}.

(** [data[j]]: outside the array the read gives [undefined], which [isNaN]
    treats as NaN; every read below is guarded by [isNaN] or in range. *)
Definition at_ (data : list num) (j : nat) : num := nth j data NaN.

(** [for (let j = j0; j <= i + lookback; j++)], with [n] iterations left. *)
Fixpoint windowLoop (data : list num) (i n j : nat) (isHigh isLow : bool)
  : bool * bool :=
  match n with
  | O => (isHigh, isLow)
  | S n' =>
      if (j =? i)%nat || isNaN (at_ data j) then
        windowLoop data i n' (S j) isHigh isLow
      else
        let isHigh := if at_ data j >=? at_ data i then false else isHigh in
        let isLow := if at_ data j <=? at_ data i then false else isLow in
        windowLoop data i n' (S j) isHigh isLow
  end.

(** [for (let i = i0; i < data.length - lookback; i++)], with [n] iterations
    left. *)
Fixpoint peakLoop (data : list num) (lookback n i : nat) (peaks : list Peak)
  : list Peak :=
  match n with
  | O => peaks
  | S n' =>
      if isNaN (at_ data i) then peakLoop data lookback n' (S i) peaks
      else
        let '(isHigh, isLow) :=
          windowLoop data i (2 * lookback + 1) (i - lookback) true true in
        let peaks :=
          if isHigh then peaks ++ [mkPeak i (at_ data i) high] else peaks in
        let peaks :=
          if isLow then peaks ++ [mkPeak i (at_ data i) low] else peaks in
        peakLoop data lookback n' (S i) peaks
  end.

(** Find local minima and maxima in a data series *)
Definition findPeaks (data : list num) (lookback : nat) : list Peak :=
  peakLoop data lookback (List.length data - lookback - lookback) lookback [].

Definition default_lookback : nat := 5.
Definition default_maxDistance : Z := 30.

Definition isType (t : PeakType) (p : Peak) : bool :=
  match type p, t with
  | high, high | low, low => true
  | _, _ => false
  end.

(** [ih => Math.abs(ih.index - center) <= lookback + 2] *)
Definition near (lookback center : nat) (ih : Peak) : bool :=
  (Z.abs (Z.of_nat (index ih) - Z.of_nat center) <=? Z.of_nat lookback + 2)%Z.

Definition d0_15 : num := Fin (15 # 100).
Definition d0_08 : num := Fin (8 # 100).

Definition classify (combinedStrength : num) : Strength :=
  if combinedStrength >? d0_15 then strong
  else if combinedStrength >? d0_08 then moderate
  else weak.

(** The body of the first loop, for the pair [ph1 = priceHighs[i]],
    [ph2 = priceHighs[i + 1]]. *)
Definition bearishStep (indicatorName : Indicator) (lookback : nat)
  (maxDistance : Z) (indHighs : list Peak) (ph1 ph2 : Peak)
  (divergences : list Divergence) : list Divergence :=
  if (Z.of_nat (index ph2) - Z.of_nat (index ph1) >? maxDistance)%Z then divergences
  else if value ph2 <=? value ph1 then divergences
  else
    match find (near lookback (index ph1)) indHighs,
          find (near lookback (index ph2)) indHighs with
    | Some ih1, Some ih2 =>
        if value ih2 >=? value ih1 then divergences
        else
          let priceDiff := (value ph2 - value ph1) / value ph1 in
          let indDiff :=
            (value ih1 - value ih2) / abs (or_else (value ih1) (Fin 1)) in
          let combinedStrength := priceDiff + indDiff in
          divergences ++
            [mkDivergence bearish indicatorName (index ph1) (index ph2)
               (value ph1) (value ph2) (value ih1) (value ih2)
               (classify combinedStrength)]
    | _, _ => divergences
    end.

(** The body of the second loop, for the pair [pl1 = priceLows[i]],
    [pl2 = priceLows[i + 1]]. *)
Definition bullishStep (indicatorName : Indicator) (lookback : nat)
  (maxDistance : Z) (indLows : list Peak) (pl1 pl2 : Peak)
  (divergences : list Divergence) : list Divergence :=
  if (Z.of_nat (index pl2) - Z.of_nat (index pl1) >? maxDistance)%Z then divergences
  else if value pl2 >=? value pl1 then divergences
  else
    match find (near lookback (index pl1)) indLows,
          find (near lookback (index pl2)) indLows with
    | Some il1, Some il2 =>
        if value il2 <=? value il1 then divergences
        else
          let priceDiff := (value pl1 - value pl2) / value pl1 in
          let indDiff :=
            (value il2 - value il1) / abs (or_else (value il1) (Fin 1)) in
          let combinedStrength := priceDiff + indDiff in
          divergences ++
            [mkDivergence bullish indicatorName (index pl1) (index pl2)
               (value pl1) (value pl2) (value il1) (value il2)
               (classify combinedStrength)]
    | _, _ => divergences
    end.

(** [for (let i = 0; i < peaks.length - 1; i++)] over the pairs
    [(peaks[i], peaks[i + 1])]. *)
Fixpoint pairLoop (step : Peak -> Peak -> list Divergence -> list Divergence)
  (peaks : list Peak) (divergences : list Divergence) : list Divergence :=
  match peaks with
  | p1 :: ((p2 :: _) as rest) => pairLoop step rest (step p1 p2 divergences)
  | _ => divergences
  end.

Definition detectDivergences (prices indicatorValues : list num)
  (indicatorName : Indicator) (lookback : nat) (maxDistance : Z)
  : list Divergence :=
  let pricePeaks := findPeaks prices lookback in
  let indicatorPeaks := findPeaks indicatorValues lookback in
  let priceHighs := filter (isType high) pricePeaks in
  let priceLows := filter (isType low) pricePeaks in
  let indHighs := filter (isType high) indicatorPeaks in
  let indLows := filter (isType low) indicatorPeaks in
  (* Bearish divergence: price makes higher high, indicator makes lower high *)
  let divergences :=
    pairLoop (bearishStep indicatorName lookback maxDistance indHighs)
      priceHighs [] in
  (* Bullish divergence: price makes lower low, indicator makes higher low *)
  pairLoop (bullishStep indicatorName lookback maxDistance indLows)
    priceLows divergences.

(** [Array.prototype.sort(compare)]: a stable sort; [x] stays in front of the
    elements it does not compare greater than. *)
Fixpoint insertBy {A : Type} (compare : A -> A -> Z) (x : A) (l : list A) : list A :=
  match l with
  | [] => [x]
  | y :: ys =>
      if (compare x y <=? 0)%Z then x :: y :: ys
      else y :: insertBy compare x ys
  end.

Definition sort {A : Type} (compare : A -> A -> Z) (l : list A) : list A :=
  fold_right (insertBy compare) [] l.

(** [(a, b) => b.endIndex - a.endIndex] *)
Definition byRecency (a b : Divergence) : Z :=
  (Z.of_nat (endIndex b) - Z.of_nat (endIndex a))%Z.

(** The result of [MACD]; the detector reads its [histogram] only. *)
Record MACDResult : Type := mkMACD {
  histogram : list num
}.

Section Detector.

(** [RSI] and [MACD] are imported from [utils/indicators]. *)
Variable RSI : list num -> nat -> list num.
Variable MACD : list num -> MACDResult.

(** The memoised value [divergences] of the component [DivergenceDetector]. *)
Definition DivergenceDetector (data : list CandlePatterns.OHLCV) : list Divergence :=
  if (List.length data <? 30)%nat then [] else
  let closes := map CandlePatterns.close data in
  let rsiValues := RSI closes 14 in
  let macdResult := MACD closes in
  let rsiDivergences := detectDivergences closes rsiValues RSI_name 5 25 in
  let macdDivergences :=
    detectDivergences closes (histogram macdResult) MACD_name 5 25 in
  (* Combine and sort by recency (most recent first) *)
  slice 0 (Some 10) (sort byRecency (rsiDivergences ++ macdDivergences)).

End Detector.

End Divergence.


(* ================================================================== *)
(** ** Treemap layout ([src/components/MarketHeatmap.tsx]) *)
(* ================================================================== *)

Module Treemap.

Local Open Scope num_scope.

Record Item : Type := mkItem {
  symbol : string;
  weight : num;
  change : num;
  name : string;
  price : num;
  marketCap : num
}.

Record Rect : Type := mkRect {
  x : num;
  y : num;
  w : num;
  h : num;
  rsymbol : string;
  rchange : num;
  rname : string;
  rprice : num;
  rmarketCap : num
}.

(** The local variables of the layout loop. *)
Record Cursor : Type := mkCursor {
  cx : num;
  cy : num;
  remainingWidth : num;
  remainingHeight : num;
  remainingWeight : num;
  horizontal : bool
}.

(** [for (let i = i0; i < items.length; i++)] over the items left. *)
Fixpoint layoutLoop (items : list Item) (i : nat) (c : Cursor) (result : list Rect)
  : list Rect :=
  match items with
  | [] => result
  | item :: rest =>
      let ratio := weight item / remainingWeight c in
      let '(rect, c') :=
        if horizontal c then
          let w := remainingWidth c * ratio in
          let h := remainingHeight c in
          (mkRect (cx c) (cy c) w h (symbol item) (change item) (name item)
             (price item) (marketCap item),
           mkCursor (cx c + w) (cy c) (remainingWidth c - w) (remainingHeight c)
             (remainingWeight c) (horizontal c))
        else
          let w := remainingWidth c in
          let h := remainingHeight c * ratio in
          (mkRect (cx c) (cy c) w h (symbol item) (change item) (name item)
             (price item) (marketCap item),
           mkCursor (cx c) (cy c + h) (remainingWidth c) (remainingHeight c - h)
             (remainingWeight c) (horizontal c)) in
      let remainingWeight' := remainingWeight c' - weight item in
      (* Alternate direction every few items for better aspect ratios *)
      let horizontal' :=
        if (i mod 3 =? 2)%nat then negb (horizontal c') else horizontal c' in
      layoutLoop rest (S i)
        (mkCursor (cx c') (cy c') (remainingWidth c') (remainingHeight c')
           remainingWeight' horizontal')
        (result ++ [rect])
  end.

(** Squarified treemap layout algorithm *)
Definition squarify (items : list Item) (containerWidth containerHeight : num)
  : list Rect :=
  if (List.length items =? 0)%nat || (containerWidth <=? Fin 0)
     || (containerHeight <=? Fin 0) then []
  else
    let totalWeight := fold_left (fun sum item => sum + weight item) items (Fin 0) in
    if totalWeight <=? Fin 0 then []
    else
      (* Simple slice-and-dice layout *)
      layoutLoop items 0
        (mkCursor (Fin 0) (Fin 0) containerWidth containerHeight totalWeight
           (containerWidth >=? containerHeight))
        [].

(** The area covered by a layout. *)
Definition area (r : Rect) : num := w r * h r.
Definition totalArea (rects : list Rect) : num :=
  fold_right (fun r acc => area r + acc) (Fin 0) rects.

End Treemap.


(* ================================================================== *)
(** ** Correlation engine *)
(* ================================================================== *)

Module Correlation.

Local Open Scope float_scope.

(** The length [n] as a JavaScript number.  An array has fewer than [2^32]
    elements, and the conversion is exact up to [2^53]. *)
Definition ofLength (n : nat) : float := of_uint63 (Uint63.of_Z (Z.of_nat n)).

(** The loop [for (let i = i0; i < n; i++)], with [k] iterations left, over
    the accumulators [(numerator, denomA, denomB)].  Both slices have [n]
    elements, so [aSlice[i]] and [bSlice[i]] are always in range; outside,
    [undefined - mean] would be NaN. *)
Fixpoint sumLoop (aSlice bSlice : list float) (meanA meanB : float) (k i : nat)
  (acc : float * float * float) : float * float * float :=
  match k with
  | O => acc
  | S k' =>
      let '(numerator, denomA, denomB) := acc in
      let da := nth i aSlice nan - meanA in
      let db := nth i bSlice nan - meanB in
      sumLoop aSlice bSlice meanA meanB k' (S i)
        (numerator + da * db, denomA + da * da, denomB + db * db)
  end.

Definition calculateCorrelation (a b : list float) : float :=
  let n := Nat.min (List.length a) (List.length b) in
  if (n <? 5)%nat then 0 else
  let aSlice := slice (- Z.of_nat n) None a in
  let bSlice := slice (- Z.of_nat n) None b in
  let meanA := fold_left (fun s v => s + v) aSlice 0 / ofLength n in
  let meanB := fold_left (fun s v => s + v) bSlice 0 / ofLength n in
  let '(numerator, denomA, denomB) :=
    sumLoop aSlice bSlice meanA meanB n 0 (0, 0, 0) in
  let denominator := PrimFloat.sqrt (denomA * denomB) in
  if denominator =? 0 then 0 else numerator / denominator.

(** A series is constant when all its values are equal. *)
Definition constant (l : list float) : Prop :=
  forall x y, In x l -> In y l -> x = y.

End Correlation.


(* ================================================================== *)
(** ** Specification-side definitions and sample inputs *)
(* ================================================================== *)

Module CandleSpec.

Import CandlePatterns.

Definition opt_list {A : Type} (o : option A) : list A :=
  match o with Some a => [a] | None => [] end.

Definition ok_list {A : Type} (r : result (option A)) : list A :=
  match r with Ok (Some a) => [a] | _ => [] end.

(** The shapes that end at position [i] of the scanned window, in the order in
    which the scan tests them, before their index is set. *)
Definition shapesAt (recentData : list OHLCV) (avgBody : num) (i : nat)
  : list CandlePattern :=
  match nth_error recentData i with
  | None => []
  | Some candle =>
      (opt_list (detectDoji candle avgBody)
       ++ opt_list (detectHammer candle avgBody)
       ++ opt_list (detectShootingStar candle avgBody)
       ++ opt_list (detectMarubozu candle avgBody))
      ++ match i with
         | O => []
         | S j =>
             match nth_error recentData j with
             | Some prev =>
                 opt_list (detectEngulfing prev candle avgBody)
                 ++ opt_list (detectPiercing prev candle)
                 ++ opt_list (detectDarkCloud prev candle)
             | None => []
             end
         end
      ++ (if (2 <=? i)%nat then
            ok_list (detectMorningStar recentData i avgBody)
            ++ ok_list (detectEveningStar recentData i avgBody)
            ++ ok_list (detectThreeWhiteSoldiers recentData i avgBody)
            ++ ok_list (detectThreeBlackCrows recentData i avgBody)
          else [])
  end.

(** The scanned window and the position in [data] of its first candle. *)
Definition window (data : list OHLCV) (lookback : Z) : list OHLCV :=
  slice (- lookback) None data.
Definition windowStart (data : list OHLCV) (lookback : Z) : nat :=
  (List.length data - List.length (window data lookback))%nat.

(** All matches of a scan, in scan order, each with the index the scan gives
    it. *)
Definition matchesAt (data : list OHLCV) (lookback : Z) (i : nat)
  : list CandlePattern :=
  let recentData := window data lookback in
  map (setIndex (Z.of_nat (List.length data) - lookback + Z.of_nat i))
    (shapesAt recentData (averageBody recentData) i).

Definition allMatches (data : list OHLCV) (lookback : Z) : list CandlePattern :=
  if (List.length data <? 3)%nat then []
  else flat_map (matchesAt data lookback)
         (seq 0 (List.length (window data lookback))).

(** A pattern [p] is a match that ends at position [pos] of [data]: it is one
    of the shapes found at the candle of the window that is candle [pos] of
    [data]. *)
Definition matchEndsAt (data : list OHLCV) (lookback : Z) (p : CandlePattern)
  (pos : Z) : Prop :=
  exists i : nat,
    (i < List.length (window data lookback))%nat /\
    pos = Z.of_nat (windowStart data lookback + i) /\
    nth_error (window data lookback) i = nth_error data (Z.to_nat pos) /\
    In (setIndex 0 p)
       (shapesAt (window data lookback) (averageBody (window data lookback)) i).

(** A sample series: a long bearish candle, a flat one, a long bullish one. *)
Definition candle (o h l c : Z) : OHLCV :=
  mkOHLCV 0 (of_Z o) (of_Z h) (of_Z l) (of_Z c) (of_Z 1).
Definition morningStar3 : list OHLCV :=
  [candle 110 111 99 100; candle 99 100 98 99; candle 100 112 99 111].

Definition morningStarAt (globalIdx : Z) : CandlePattern :=
  mkPattern "Morning Star" bullish "Strong bullish reversal (3-candle)"
    globalIdx rel_high.

End CandleSpec.


Module DivergenceSpec.

Import Divergence.
Local Open Scope num_scope.

(** The tests of the window loop at position [i]: no other defined value of
    the window is [>=] (for a high), respectively [<=] (for a low). *)
Definition isHighAt (data : list num) (lookback i : nat) : bool :=
  forallb (fun j => (j =? i)%nat || isNaN (at_ data j)
                    || negb (at_ data j >=? at_ data i))
    (seq (i - lookback) (2 * lookback + 1)).

Definition isLowAt (data : list num) (lookback i : nat) : bool :=
  forallb (fun j => (j =? i)%nat || isNaN (at_ data j)
                    || negb (at_ data j <=? at_ data i))
    (seq (i - lookback) (2 * lookback + 1)).

(** The peaks pushed by the iteration for index [i]. *)
Definition peaksAt (data : list num) (lookback i : nat) : list Peak :=
  if isNaN (at_ data i) then []
  else (if isHighAt data lookback i then [mkPeak i (at_ data i) high] else [])
       ++ (if isLowAt data lookback i then [mkPeak i (at_ data i) low] else []).

(** [findPeaks] reports index [i] as a peak of type [t]. *)
Definition reports (data : list num) (lookback i : nat) (t : PeakType) : Prop :=
  In (mkPeak i (at_ data i) t) (findPeaks data lookback).

(** Every other defined value of the window around [i] is strictly smaller,
    respectively strictly greater. *)
Definition strictHigh (data : list num) (lookback i : nat) : Prop :=
  forall j, (i - lookback <= j <= i + lookback)%nat -> j <> i ->
            isNaN (at_ data j) = false -> (at_ data j <? at_ data i) = true.

Definition strictLow (data : list num) (lookback i : nat) : Prop :=
  forall j, (i - lookback <= j <= i + lookback)%nat -> j <> i ->
            isNaN (at_ data j) = false -> (at_ data j >? at_ data i) = true.

(** A fractional change normalised by the magnitude of the first point. *)
Definition relativeMove (start finish : num) : num :=
  abs (finish - start) / abs start.

(** The same, with 1 in place of a first point that is zero. *)
Definition guardedMove (start finish : num) : num :=
  abs (finish - start) / abs (or_else start (Fin 1)).

(** The strength as the claim words it, and as the code computes it. *)
Definition claimedStrength (d : Divergence) : Strength :=
  classify (relativeMove (priceStart d) (priceEnd d)
            + relativeMove (indicatorStart d) (indicatorEnd d)).

Definition guardedStrength (d : Divergence) : Strength :=
  classify (relativeMove (priceStart d) (priceEnd d)
            + guardedMove (indicatorStart d) (indicatorEnd d)).

(** A sample: two price highs, at 5 and 14, the second higher; the histogram
    has a high of 0 at 5 and a lower high at 14. *)
Definition samplePrices : list num :=
  map of_Z [96; 97; 98; 99; 100; 101; 100; 99; 98; 97;
            98; 99; 100; 101; 102; 101; 100; 99; 98; 97].

Definition sampleHistogram : list num :=
  map Fin [-5; -4; -3; -2; -1; 0; -1; -2; -3; -4;
           -3; -2; -1; -(1 # 2); -(1 # 100); -1; -2; -3; -4; -5]%Q.

Definition sampleDivergence : Divergence :=
  mkDivergence bearish MACD_name 5 14 (of_Z 101) (of_Z 102)
    (Fin 0) (Fin (-(1 # 100))) weak.

(** The order of the aggregated list: most recent [endIndex] first. *)
Definition mostRecentFirst (a b : Divergence) : Prop :=
  (endIndex b <= endIndex a)%nat.

(** A sample of 40 candles that close at the sample prices, twice over, with
    an indicator library whose RSI is still undefined everywhere and whose
    histogram is the sample histogram, twice over. *)
Definition sampleCandles : list CandlePatterns.OHLCV :=
  map (fun p => CandlePatterns.mkOHLCV 0 p p p p (Fin 0))
    (samplePrices ++ samplePrices).
Definition sampleRSI (closes : list num) (period : nat) : list num :=
  map (fun _ => NaN) closes.
Definition sampleMACD (closes : list num) : MACDResult :=
  mkMACD (sampleHistogram ++ sampleHistogram).

End DivergenceSpec.


Module TreemapSpec.

Import Treemap.
Local Open Scope num_scope.

(** A finite, strictly positive number. *)
Definition finitePos (a : num) : Prop :=
  match a with
  | Fin q => (0 < q)%Q
  | _ => False
  end.

(** A finite, non-negative number. *)
Definition finiteNonNeg (a : num) : Prop :=
  match a with
  | Fin q => (0 <= q)%Q
  | _ => False
  end.

(** The rational value of a finite number. *)
Definition toQ (a : num) : Q :=
  match a with
  | Fin q => q
  | _ => 0%Q
  end.

(** A rectangle with finite, non-negative sides. *)
Definition nonNegative (r : Rect) : Prop :=
  finiteNonNeg (w r) /\ finiteNonNeg (h r).

Definition weightSum (items : list Item) : Q :=
  fold_right (fun item acc => (toQ (weight item) + acc)%Q) 0%Q items.

(** A sample: four assets in a 600 by 400 container. *)
Definition sampleItem (s : string) (wt : Q) : Item :=
  mkItem s (Fin wt) (Fin 0) s (Fin 1) (Fin 1).
Definition sampleItems : list Item :=
  [sampleItem "BTC" 12; sampleItem "ETH" (23 # 2);
   sampleItem "SOL" (21 # 2); sampleItem "XRP" 10]%Q.

End TreemapSpec.


Module CandleCatalogue.

Import CandlePatterns.
Local Open Scope string_scope.

(** The type and reliability that go with each pattern name. *)
Definition kindOf (n : string) : option (PatternType * Reliability) :=
  if n =? "Doji" then Some (neutral, rel_medium)
  else if n =? "Hammer" then Some (bullish, rel_high)
  else if n =? "Hanging Man" then Some (bearish, rel_high)
  else if n =? "Shooting Star" then Some (bearish, rel_high)
  else if n =? "Inverted Hammer" then Some (bullish, rel_high)
  else if n =? "Bullish Marubozu" then Some (bullish, rel_high)
  else if n =? "Bearish Marubozu" then Some (bearish, rel_high)
  else if n =? "Bullish Engulfing" then Some (bullish, rel_high)
  else if n =? "Bearish Engulfing" then Some (bearish, rel_high)
  else if n =? "Piercing Line" then Some (bullish, rel_medium)
  else if n =? "Dark Cloud Cover" then Some (bearish, rel_medium)
  else if n =? "Morning Star" then Some (bullish, rel_high)
  else if n =? "Evening Star" then Some (bearish, rel_high)
  else if n =? "Three White Soldiers" then Some (bullish, rel_high)
  else if n =? "Three Black Crows" then Some (bearish, rel_high)
  else None.

(** The rank, in the order of the scan, of the detector that gives a name. *)
Definition slotOf (n : string) : nat :=
  if n =? "Doji" then 0
  else if (n =? "Hammer") || (n =? "Hanging Man") then 1
  else if (n =? "Shooting Star") || (n =? "Inverted Hammer") then 2
  else if (n =? "Bullish Marubozu") || (n =? "Bearish Marubozu") then 3
  else if (n =? "Bullish Engulfing") || (n =? "Bearish Engulfing") then 4
  else if n =? "Piercing Line" then 5
  else if n =? "Dark Cloud Cover" then 6
  else if n =? "Morning Star" then 7
  else if n =? "Evening Star" then 8
  else if n =? "Three White Soldiers" then 9
  else 10.

(** Matches are ordered by index, then by the rank of their detector. *)
Definition scanKey (p : CandlePattern) : Z * nat := (index p, slotOf (name p)).
Definition keyLt (a b : Z * nat) : Prop :=
  (fst a < fst b)%Z \/ (fst a = fst b /\ (snd a < snd b)%nat).

(** A shape is well formed when its name has the type and reliability of the
    catalogue, and its index is still 0. *)
Definition wellFormed (slot : nat) (p : CandlePattern) : Prop :=
  kindOf (name p) = Some (type p, reliability p)
  /\ slotOf (name p) = slot
  /\ index p = 0%Z.

(** A list of shapes whose slots lie in [[lo, hi)], in ascending order. *)
Definition ranked (lo hi : nat) (l : list CandlePattern) : Prop :=
  StronglySorted (fun p q => (slotOf (name p) < slotOf (name q))%nat) l
  /\ Forall (fun p => (lo <= slotOf (name p) < hi)%nat
                      /\ kindOf (name p) = Some (type p, reliability p)) l.

End CandleCatalogue.


Module DivergencePanel.

Import Divergence.

(** The rest of the component [DivergenceDetector]: the divergences that end
    within the last 20 candles, and their counts by type. *)
Definition recentDivergences (dataLength : nat) (divergences : list Divergence)
  : list Divergence :=
  let threshold := (Z.of_nat dataLength - 20)%Z in
  filter (fun d => (Z.of_nat (endIndex d) >=? threshold)%Z) divergences.

Definition bullishCount (recent : list Divergence) : nat :=
  List.length
    (filter (fun d => match dtype d with bullish => true | bearish => false end)
       recent).

Definition bearishCount (recent : list Divergence) : nat :=
  List.length
    (filter (fun d => match dtype d with bearish => true | bullish => false end)
       recent).

(** [data.length - 1 - div.endIndex] *)
Definition candlesAgo (dataLength : nat) (d : Divergence) : Z :=
  (Z.of_nat dataLength - 1 - Z.of_nat (endIndex d))%Z.

(** The two price peaks and the two matched indicator peaks of a divergence
    are peaks of the given type [t] of their series. *)
Definition madeOf (prices indicatorValues : list num) (lookback : nat)
  (t : PeakType) (d : Divergence) : Prop :=
  exists i1 i2 : nat,
    DivergenceSpec.reports prices lookback (startIndex d) t
    /\ DivergenceSpec.reports prices lookback (endIndex d) t
    /\ DivergenceSpec.reports indicatorValues lookback i1 t
    /\ DivergenceSpec.reports indicatorValues lookback i2 t
    /\ (Z.abs (Z.of_nat i1 - Z.of_nat (startIndex d)) <= Z.of_nat lookback + 2)%Z
    /\ (Z.abs (Z.of_nat i2 - Z.of_nat (endIndex d)) <= Z.of_nat lookback + 2)%Z
    /\ priceStart d = at_ prices (startIndex d)
    /\ priceEnd d = at_ prices (endIndex d)
    /\ indicatorStart d = at_ indicatorValues i1
    /\ indicatorEnd d = at_ indicatorValues i2.

End DivergencePanel.


Module CorrelationSpec.

Import Correlation.
Local Open Scope float_scope.

(** The accumulators [(numerator, denomA, denomB)] of [calculateCorrelation]
    when its loop ends. *)
Definition accumulators (a b : list float) : float * float * float :=
  let n := Nat.min (List.length a) (List.length b) in
  let aSlice := slice (- Z.of_nat n) None a in
  let bSlice := slice (- Z.of_nat n) None b in
  let meanA := fold_left (fun s v => s + v) aSlice 0 / ofLength n in
  let meanB := fold_left (fun s v => s + v) bSlice 0 / ofLength n in
  sumLoop aSlice bSlice meanA meanB n 0 (0, 0, 0).

Definition sumSquaresA (a b : list float) : float := snd (fst (accumulators a b)).
Definition sumSquaresB (a b : list float) : float := snd (accumulators a b).


(** The mean of a series, as the code computes it. *)
Definition mean (l : list float) : float :=
  fold_left (fun s v => s + v) l 0 / ofLength (List.length l).


(** A series all of whose values are the finite double [c], and whose computed
    mean is [c] again. *)
Definition constantAtMean (l : list float) : Prop :=
  exists c, is_finite c = true
            /\ (forall x, In x l -> x = c)
            /\ (mean l =? c) = true.

Definition tenths : list float := [0.1; 0.1; 0.1; 0.1; 0.1; 0.1].
Definition ones : list float := [1; 1; 1; 1; 1].
Definition spread : list float := [1e200; -1e200; 0; 0; 0].

End CorrelationSpec.


Module CorrelationMatrix.

Import Correlation.
Local Open Scope float_scope.

Definition CRYPTO_SYMBOLS : list string :=
  ["BTC"; "ETH"; "SOL"; "XRP"; "SUI"]%string.

Record Cell : Type := mkCell { symbol : string; corr : float }.
Record Row : Type := mkRow { row : string; cols : list Cell }.

(** [l.map(f)] where [f] may raise *)
Fixpoint mapR {A B : Type} (f : A -> result B) (l : list A) : result (list B) :=
  match l with
  | [] => Ok []
  | a :: rest =>
      b <- f a ;;
      bs <- mapR f rest ;;
      Ok (b :: bs)
  end.

(** [rowSymbol === colSymbol ? 1 : calculateCorrelation(returns[rowSymbol],
    returns[colSymbol])]; the function reads [a.length] first, then
    [b.length], and raises on a missing series. *)
Definition cellCorr (returns : string -> option (list float))
  (rowSymbol colSymbol : string) : result float :=
  if (rowSymbol =? colSymbol)%string then Ok 1
  else
    a <- field (fun a => a) (returns rowSymbol) ;;
    b <- field (fun b => b) (returns colSymbol) ;;
    Ok (calculateCorrelation a b).

(** The memoised value [matrix] of the component [CorrelationMatrix]; the
    object [returns] maps a symbol to its series of daily returns. *)
Definition matrix (returns : string -> option (list float)) : result (list Row) :=
  let symbols :=
    filter (fun s => match returns s with Some _ => true | None => false end)
      CRYPTO_SYMBOLS in
  mapR (fun rowSymbol =>
          cols <- mapR (fun colSymbol =>
                          c <- cellCorr returns rowSymbol colSymbol ;;
                          Ok (mkCell colSymbol c))
                    symbols ;;
          Ok (mkRow rowSymbol cols))
       symbols.

(** The symbols that have a series, and the entry of the matrix for two of
    them. *)
Definition loaded (returns : string -> option (list float)) : list string :=
  filter (fun s => match returns s with Some _ => true | None => false end)
    CRYPTO_SYMBOLS.

Definition seriesOf (returns : string -> option (list float)) (s : string) : list float :=
  match returns s with Some a => a | None => [] end.

Definition entry (returns : string -> option (list float)) (r c : string) : float :=
  if (r =? c)%string then 1
  else calculateCorrelation (seriesOf returns r) (seriesOf returns c).

(** Two return series for the samples. *)
Definition sampleReturns (s : string) : option (list float) :=
  if (s =? "BTC")%string then Some [1; 2; 3; 4; 5; 7]
  else if (s =? "SOL")%string then Some [2; 1; 4; 3; 6; 5]
  else None.

End CorrelationMatrix.


Module TreemapGeometry.

Import Treemap TreemapSpec.
Local Open Scope num_scope.

(** The fields that a rectangle copies from its item. *)
Definition itemLabels (item : Item) : string * num * string * num * num :=
  (symbol item, change item, name item, price item, marketCap item).
Definition rectLabels (r : Rect) : string * num * string * num * num :=
  (rsymbol r, rchange r, rname r, rprice r, rmarketCap r).

(** The guards of [squarify] that give an empty layout. *)
Definition degenerate (items : list Item) (containerWidth containerHeight : num)
  : bool :=
  (List.length items =? 0)%nat || (containerWidth <=? Fin 0)
  || (containerHeight <=? Fin 0)
  || (fold_left (fun sum item => sum + weight item) items (Fin 0) <=? Fin 0).

(** A rectangle with finite coordinates that lies in the region from
    [(x0, y0)] to [(x1, y1)]. *)
Definition within (x0 y0 x1 y1 : Q) (r : Rect) : Prop :=
  exists rx ry rw rh : Q,
    x r = Fin rx /\ y r = Fin ry /\ w r = Fin rw /\ h r = Fin rh
    /\ (x0 <= rx)%Q /\ (y0 <= ry)%Q /\ (0 <= rw)%Q /\ (0 <= rh)%Q
    /\ (rx + rw <= x1)%Q /\ (ry + rh <= y1)%Q.

(** The first rectangle ends where the second begins, along one axis: their
    interiors do not meet. *)
Definition leftOrAbove (r1 r2 : Rect) : Prop :=
  (toQ (x r1) + toQ (w r1) <= toQ (x r2))%Q
  \/ (toQ (y r1) + toQ (h r1) <= toQ (y r2))%Q.

End TreemapGeometry.


Module Colours.

Local Open Scope num_scope.
Local Open Scope string_scope.

(** [getCorrelationColor] and [getCorrelationTextColor], of the correlation
    matrix component. *)
Definition getCorrelationColor (corr : num) : string :=
  if corr >=? Fin (8 # 10) then "bg-green-500"
  else if corr >=? Fin (5 # 10) then "bg-green-500/60"
  else if corr >=? Fin (2 # 10) then "bg-green-500/30"
  else if corr >=? Fin (- (2 # 10)) then "bg-gray-500/30"
  else if corr >=? Fin (- (5 # 10)) then "bg-red-500/30"
  else if corr >=? Fin (- (8 # 10)) then "bg-red-500/60"
  else "bg-red-500".

Definition getCorrelationTextColor (corr : num) : string :=
  if abs corr >=? Fin (5 # 10) then "text-white"
  else "text-[var(--text-primary)]".

(** [getHeatColor] and [getTextColor], of [MarketHeatmap.tsx]. *)
Definition getHeatColor (change : num) : string :=
  if change >=? Fin 10 then "bg-green-600"
  else if change >=? Fin 5 then "bg-green-500"
  else if change >=? Fin 2 then "bg-green-500/80"
  else if change >=? Fin (5 # 10) then "bg-green-500/60"
  else if change >=? Fin 0 then "bg-green-500/30"
  else if change >=? Fin (- (5 # 10)) then "bg-red-500/30"
  else if change >=? Fin (- 2) then "bg-red-500/60"
  else if change >=? Fin (- 5) then "bg-red-500/80"
  else if change >=? Fin (- 10) then "bg-red-500"
  else "bg-red-600".

Definition getTextColor (change : num) : string :=
  if abs change >=? Fin 2 then "text-white" else "text-gray-200".

(** The saturated backgrounds of the two scales, and the green ones. *)
Definition strongCorrelation (bg : string) : bool :=
  (bg =? "bg-green-500") || (bg =? "bg-green-500/60")
  || (bg =? "bg-red-500/60") || (bg =? "bg-red-500").

Definition strongHeat (bg : string) : bool :=
  (bg =? "bg-green-600") || (bg =? "bg-green-500") || (bg =? "bg-green-500/80")
  || (bg =? "bg-red-500/80") || (bg =? "bg-red-500") || (bg =? "bg-red-600").

Definition greenHeat (bg : string) : bool :=
  (bg =? "bg-green-600") || (bg =? "bg-green-500") || (bg =? "bg-green-500/80")
  || (bg =? "bg-green-500/60") || (bg =? "bg-green-500/30").

End Colours.


(* ================================================================== *)
(** * Proofs *)
(* ================================================================== *)

Import CandlePatterns.
Import CandleSpec.

(** ** Arrays *)

Section SliceFacts.

Context {A : Type}.
Implicit Types l : list A.

Lemma relIndex_range len z : 0 <= len -> 0 <= relIndex len z <= len.
Proof. unfold relIndex; destruct (z <? 0) eqn:E; lia. Qed.

Lemma slice_from l (start : Z) :
  slice start None l
  = skipn (Z.to_nat (relIndex (Z.of_nat (List.length l)) start)) l.
Proof.
  unfold slice.
  pose proof (relIndex_range (Z.of_nat (List.length l)) start ltac:(lia)) as Hr.
  set (k := relIndex _ _) in *.
  apply firstn_all2. rewrite length_skipn. lia.
Qed.

Lemma slice_last l (n : nat) :
  (0 < n)%nat ->
  slice (- Z.of_nat n) None l = skipn (List.length l - n) l.
Proof.
  intros Hn. rewrite slice_from. f_equal.
  unfold relIndex. destruct (- Z.of_nat n <? 0) eqn:E; lia.
Qed.

Lemma slice_first l (n : nat) :
  slice 0 (Some (Z.of_nat n)) l = firstn n l.
Proof.
  unfold slice, relIndex.
  replace (0 <? 0) with false by reflexivity.
  replace (Z.of_nat n <? 0) with false by (symmetry; apply Z.ltb_ge; lia).
  rewrite (Z.min_l 0) by lia. simpl skipn. rewrite Z.sub_0_r.
  destruct (Nat.le_gt_cases n (List.length l)).
  - rewrite Z.min_l by lia. now rewrite Nat2Z.id.
  - rewrite Z.min_r by lia. rewrite Nat2Z.id.
    rewrite !firstn_all2; auto; lia.
Qed.

Lemma slice_length_le l (n : nat) :
  (0 < n)%nat -> (List.length (slice (- Z.of_nat n) None l) <= n)%nat.
Proof. intros Hn. rewrite slice_last by assumption. rewrite length_skipn. lia. Qed.

Lemma slice_last_split l (n : nat) :
  (0 < n)%nat ->
  l = firstn (List.length l - n) l ++ slice (- Z.of_nat n) None l.
Proof. intros Hn. rewrite slice_last by assumption. now rewrite firstn_skipn. Qed.

Lemma In_skipn_tail l1 l2 (x : A) (n : nat) :
  (List.length l2 < n)%nat ->
  In x (skipn (List.length (l1 ++ x :: l2) - n) (l1 ++ x :: l2)).
Proof.
  intros Hlen. rewrite length_app. cbn [List.length].
  destruct (Nat.le_gt_cases (List.length l1 + S (List.length l2) - n) (List.length l1))
    as [Hle|Hgt]; [|lia].
  rewrite skipn_app.
  apply in_or_app. right.
  replace (List.length l1 + S (List.length l2) - n - List.length l1)%nat with 0%nat by lia.
  simpl. now left.
Qed.

Lemma nth_error_skipn l (k i : nat) :
  nth_error (skipn k l) i = nth_error l (k + i).
Proof.
  revert l; induction k as [|k IH]; intros l; [reflexivity|].
  destruct l as [|a l]; simpl.
  - now destruct i.
  - apply IH.
Qed.

End SliceFacts.

(** ** Candlestick patterns: the scan *)

Lemma push_app g o ps : push g o ps = ps ++ map (setIndex g) (opt_list o).
Proof. destruct o; simpl; [reflexivity | now rewrite app_nil_r]. Qed.

Lemma andR_Ok a b : Ok a &&& Ok b = Ok (a && b).
Proof. now destruct a. Qed.

Lemma nth_error_in_range {A : Type} (l : list A) (i : nat) :
  (i < List.length l)%nat -> exists a, nth_error l i = Some a.
Proof.
  intros H. destruct (nth_error l i) eqn:E; [eauto|].
  apply nth_error_None in E. lia.
Qed.

(** Within the array the three-candle detectors cannot raise. *)
Ltac three_in_range data i H :=
  let H0 := fresh "H0" in let H1 := fresh "H1" in let H2 := fresh "H2" in
  destruct (nth_error_in_range data (i - 2) ltac:(lia)) as [? H0];
  destruct (nth_error_in_range data (i - 1) ltac:(lia)) as [? H1];
  destruct (nth_error_in_range data i H) as [? H2];
  rewrite H0, H1, H2; cbn [field bind every fieldGt fieldLt];
  rewrite ?andR_Ok; cbn [bind].

Lemma detectMorningStar_total data i avgBody :
  (i < List.length data)%nat ->
  exists o, detectMorningStar data i avgBody = Ok o.
Proof.
  intros H. unfold detectMorningStar.
  destruct (i <? 2)%nat; [eauto|]. three_in_range data i H.
  match goal with |- context [if ?c then _ else _] => destruct c end; eauto.
Qed.

Lemma detectEveningStar_total data i avgBody :
  (i < List.length data)%nat ->
  exists o, detectEveningStar data i avgBody = Ok o.
Proof.
  intros H. unfold detectEveningStar.
  destruct (i <? 2)%nat; [eauto|]. three_in_range data i H.
  match goal with |- context [if ?c then _ else _] => destruct c end; eauto.
Qed.

Lemma detectThreeWhiteSoldiers_total data i avgBody :
  (i < List.length data)%nat ->
  exists o, detectThreeWhiteSoldiers data i avgBody = Ok o.
Proof.
  intros H. unfold detectThreeWhiteSoldiers.
  destruct (i <? 2)%nat; [eauto|]. three_in_range data i H.
  match goal with |- context [if ?c then _ else _] => destruct c end; eauto.
Qed.

Lemma detectThreeBlackCrows_total data i avgBody :
  (i < List.length data)%nat ->
  exists o, detectThreeBlackCrows data i avgBody = Ok o.
Proof.
  intros H. unfold detectThreeBlackCrows.
  destruct (i <? 2)%nat; [eauto|]. three_in_range data i H.
  match goal with |- context [if ?c then _ else _] => destruct c end; eauto.
Qed.

(** One iteration appends the shapes found at [i], tagged with [globalIdx]. *)
Lemma scanStep_spec length lookback recentData avgBody i patterns :
  (i < List.length recentData)%nat ->
  scanStep length lookback recentData avgBody i patterns
  = Ok (patterns
        ++ map (setIndex (length - lookback + Z.of_nat i))
             (shapesAt recentData avgBody i)).
Proof.
  intros Hi. unfold scanStep, shapesAt.
  destruct (nth_error_in_range recentData i Hi) as [candle Hc]. rewrite Hc.
  cbn [field bind]. rewrite !push_app.
  destruct (detectMorningStar_total recentData i avgBody Hi) as [m Hm].
  destruct (detectEveningStar_total recentData i avgBody Hi) as [e He].
  destruct (detectThreeWhiteSoldiers_total recentData i avgBody Hi) as [s Hs].
  destruct (detectThreeBlackCrows_total recentData i avgBody Hi) as [c Hcr].
  rewrite Hm, He, Hs, Hcr.
  destruct i as [|j].
  - cbn. rewrite ?map_app, ?app_nil_r, <- ?app_assoc. reflexivity.
  - replace (0 <? S j)%nat with true by reflexivity.
    replace (S j - 1)%nat with j by lia.
    destruct (nth_error_in_range recentData j ltac:(lia)) as [prev Hp]. rewrite Hp.
    cbn [field bind]. rewrite !push_app.
    destruct (2 <=? S j)%nat; cbn [bind ok_list]; rewrite ?push_app;
      rewrite ?map_app, ?app_nil_r, <- ?app_assoc; reflexivity.
Qed.

Lemma scanLoop_spec length lookback recentData avgBody n :
  forall i patterns,
    (i + n <= List.length recentData)%nat ->
    scanLoop length lookback recentData avgBody n i patterns
    = Ok (patterns
          ++ flat_map
               (fun k => map (setIndex (length - lookback + Z.of_nat k))
                           (shapesAt recentData avgBody k))
               (seq i n)).
Proof.
  induction n as [|n IH]; intros i patterns Hle.
  - simpl. now rewrite app_nil_r.
  - cbn [scanLoop]. rewrite scanStep_spec by lia. cbn [bind].
    rewrite IH by lia. cbn [seq flat_map]. now rewrite <- app_assoc.
Qed.

(** The scan never raises, and collects the matches in scan order. *)
Lemma scanAll_spec data lookback :
  scanAll data lookback
  = Ok (flat_map (matchesAt data lookback)
          (seq 0 (List.length (window data lookback)))).
Proof.
  unfold scanAll. rewrite scanLoop_spec by (simpl; lia). reflexivity.
Qed.

Lemma detectCandlePatterns_spec data lookback :
  detectCandlePatterns data lookback
  = Ok (slice (-10) None (allMatches data lookback)).
Proof.
  unfold detectCandlePatterns, allMatches.
  destruct (List.length data <? 3)%nat; [reflexivity|].
  now rewrite scanAll_spec.
Qed.

(** Every detector leaves the index at 0; the scan sets it afterwards. *)
Ltac detector_index :=
  match goal with
  | H : context [if ?c then _ else _] |- _ => destruct c
  end.

Ltac solve_detector_index d :=
  intros H; unfold d in H;
  repeat detector_index; inversion H; subst; reflexivity.

Lemma detectDoji_index c a p : detectDoji c a = Some p -> index p = 0.
Proof. solve_detector_index detectDoji. Qed.
Lemma detectHammer_index c a p : detectHammer c a = Some p -> index p = 0.
Proof.
  intros H; unfold detectHammer in H.
  destruct (_ && _ && _) in H; inversion H; subst; reflexivity.
Qed.
Lemma detectShootingStar_index c a p : detectShootingStar c a = Some p -> index p = 0.
Proof.
  intros H; unfold detectShootingStar in H.
  destruct (_ && _ && _) in H; inversion H; subst; reflexivity.
Qed.
Lemma detectMarubozu_index c a p : detectMarubozu c a = Some p -> index p = 0.
Proof.
  intros H; unfold detectMarubozu in H.
  destruct (_ && _ && _) in H; inversion H; subst; reflexivity.
Qed.
Lemma detectEngulfing_index q c a p : detectEngulfing q c a = Some p -> index p = 0.
Proof. solve_detector_index detectEngulfing. Qed.
Lemma detectPiercing_index q c p : detectPiercing q c = Some p -> index p = 0.
Proof. solve_detector_index detectPiercing. Qed.
Lemma detectDarkCloud_index q c p : detectDarkCloud q c = Some p -> index p = 0.
Proof. solve_detector_index detectDarkCloud. Qed.

Ltac solve_detector3_index d :=
  intros H; unfold d in H;
  destruct (_ <? 2)%nat in H; [inversion H|];
  match type of H with
  | bind ?r _ = _ => destruct r as [[|]|]; cbn [bind] in H; inversion H; subst; reflexivity
  end.

Lemma detectMorningStar_index data i a p :
  detectMorningStar data i a = Ok (Some p) -> index p = 0.
Proof. solve_detector3_index detectMorningStar. Qed.
Lemma detectEveningStar_index data i a p :
  detectEveningStar data i a = Ok (Some p) -> index p = 0.
Proof. solve_detector3_index detectEveningStar. Qed.
Lemma detectThreeWhiteSoldiers_index data i a p :
  detectThreeWhiteSoldiers data i a = Ok (Some p) -> index p = 0.
Proof. solve_detector3_index detectThreeWhiteSoldiers. Qed.
Lemma detectThreeBlackCrows_index data i a p :
  detectThreeBlackCrows data i a = Ok (Some p) -> index p = 0.
Proof. solve_detector3_index detectThreeBlackCrows. Qed.

Lemma In_opt_list {A : Type} (o : option A) (a : A) : In a (opt_list o) -> o = Some a.
Proof. destruct o; simpl; intros H; [destruct H as [H|H]; [congruence | tauto] | tauto]. Qed.

Lemma In_ok_list {A : Type} (r : result (option A)) (a : A) :
  In a (ok_list r) -> r = Ok (Some a).
Proof.
  destruct r as [[|]|]; simpl; intros H; try tauto.
  destruct H as [H|H]; [congruence | tauto].
Qed.

Lemma shapesAt_index recentData avgBody i s :
  In s (shapesAt recentData avgBody i) -> index s = 0.
Proof.
  unfold shapesAt. destruct (nth_error recentData i) as [candle|]; [|simpl; tauto].
  rewrite !in_app_iff. intros H.
  repeat match goal with
         | H : _ \/ _ |- _ => destruct H as [H|H]
         end;
    try (apply In_opt_list in H;
         eauto using detectDoji_index, detectHammer_index,
           detectShootingStar_index, detectMarubozu_index).
  - destruct i as [|j]; [destruct H|].
    destruct (nth_error recentData j) as [prev|]; [|destruct H].
    rewrite !in_app_iff in H.
    destruct H as [H|[H|H]]; apply In_opt_list in H;
      eauto using detectEngulfing_index, detectPiercing_index, detectDarkCloud_index.
  - destruct (2 <=? i)%nat; [|destruct H].
    rewrite !in_app_iff in H.
    destruct H as [H|[H|[H|H]]]; apply In_ok_list in H;
      eauto using detectMorningStar_index, detectEveningStar_index,
        detectThreeWhiteSoldiers_index, detectThreeBlackCrows_index.
Qed.

Lemma setIndex_shape g s : index s = 0 -> setIndex 0 (setIndex g s) = s.
Proof. destruct s; simpl; intros ->; reflexivity. Qed.

Lemma matchesAt_inv data lookback i p :
  In p (matchesAt data lookback i) ->
  index p = Z.of_nat (List.length data) - lookback + Z.of_nat i /\
  In (setIndex 0 p)
     (shapesAt (window data lookback) (averageBody (window data lookback)) i).
Proof.
  unfold matchesAt. rewrite in_map_iff. intros [s [<- Hs]].
  split; [reflexivity|].
  rewrite setIndex_shape; eauto using shapesAt_index.
Qed.

Lemma window_skipn data lookback :
  window data lookback = skipn (windowStart data lookback) data.
Proof.
  unfold windowStart, window. rewrite slice_from.
  pose proof (relIndex_range (Z.of_nat (List.length data)) (- lookback) ltac:(lia)).
  rewrite length_skipn. f_equal. lia.
Qed.

Lemma window_length_le data lookback :
  (List.length (window data lookback) <= List.length data)%nat.
Proof. unfold window. rewrite slice_from, length_skipn. lia. Qed.

Lemma window_length_in_range data lookback :
  1 <= lookback <= Z.of_nat (List.length data) ->
  Z.of_nat (List.length (window data lookback)) = lookback.
Proof.
  intros H. unfold window. rewrite slice_from, length_skipn.
  unfold relIndex. replace (- lookback <? 0) with true by (symmetry; apply Z.ltb_lt; lia).
  lia.
Qed.

Lemma window_whole data lookback :
  Z.of_nat (List.length data) <= lookback -> window data lookback = data.
Proof.
  intros H. unfold window. rewrite slice_from. unfold relIndex.
  destruct (- lookback <? 0) eqn:E.
  - now replace (Z.to_nat _) with 0%nat by lia.
  - apply Z.ltb_ge in E.
    replace (Z.to_nat _) with 0%nat by lia. reflexivity.
Qed.

Lemma allMatches_inv data lookback p :
  In p (allMatches data lookback) ->
  exists i, (i < List.length (window data lookback))%nat /\
            In p (matchesAt data lookback i).
Proof.
  unfold allMatches. destruct (List.length data <? 3)%nat; [simpl; tauto|].
  rewrite in_flat_map. intros [i [Hi Hp]]. apply in_seq in Hi.
  exists i. split; [lia | assumption].
Qed.

Lemma In_slice_last {A : Type} (l : list A) (n : nat) (x : A) :
  (0 < n)%nat -> In x (slice (- Z.of_nat n) None l) -> In x l.
Proof.
  intros Hn H. rewrite (slice_last_split l n Hn). apply in_or_app. now right.
Qed.

(** ** Candlestick patterns: the index of a match *)

(** Every pattern that [detectCandlePatterns] returns is a match that ends at
    the candle at position [index + (lookback - length of the scanned window)]
    of the full series. *)
Lemma index_offset data lookback ps p :
  detectCandlePatterns data lookback = Ok ps ->
  In p ps ->
  matchEndsAt data lookback p
    (index p + (lookback - Z.of_nat (List.length (window data lookback)))).
Proof.
  intros Hrun Hin. rewrite detectCandlePatterns_spec in Hrun.
  injection Hrun as <-.
  apply (In_slice_last _ 10%nat) in Hin; [|lia].
  apply allMatches_inv in Hin. destruct Hin as [i [Hi Hp]].
  apply matchesAt_inv in Hp. destruct Hp as [Hidx Hshape].
  pose proof (window_length_le data lookback) as Hle.
  exists i. repeat split; try assumption.
  - unfold windowStart. lia.
  - rewrite window_skipn at 1. rewrite nth_error_skipn. f_equal.
    unfold windowStart. lia.
Qed.

(** On the sample series, scanned with the default lookback, the only match
    ends at candle 2 and is returned with index -45. *)
Lemma morningStar3_default_lookback :
  detectCandlePatterns morningStar3 default_lookback = Ok [morningStarAt (-45)]
  /\ matchEndsAt morningStar3 default_lookback (morningStarAt (-45)) 2.
Proof.
  split; [vm_compute; reflexivity|].
  exists 2%nat. repeat split.
  - vm_compute. lia.
  - vm_compute. left. reflexivity.
Qed.

(** Scanned with a lookback of 3, the same series gives index 2. *)
Example morningStar3_lookback_3 :
  detectCandlePatterns morningStar3 3 = Ok [morningStarAt 2].
Proof. vm_compute. reflexivity. Qed.

(** When the lookback is a count between 1 and the length of the series, the
    index is the absolute position of the candle at which the match ends. *)
Lemma detectCandlePatterns_index_in_range data lookback ps p :
  1 <= lookback <= Z.of_nat (List.length data) ->
  detectCandlePatterns data lookback = Ok ps ->
  In p ps ->
  matchEndsAt data lookback p (index p)
  /\ 0 <= index p < Z.of_nat (List.length data).
Proof.
  intros Hlb Hrun Hin.
  pose proof (index_offset data lookback ps p Hrun Hin) as H.
  rewrite window_length_in_range in H by assumption.
  replace (index p + (lookback - lookback)) with (index p) in H by lia.
  split; [assumption|].
  destruct H as [i [Hi [Hpos _]]].
  pose proof (window_length_le data lookback).
  unfold windowStart in Hpos. lia.
Qed.

(** C1 (the behaviour of the code where the claim fails).  When the series
    has fewer candles than the lookback, every pattern returned by
    [detectCandlePatterns] is a match that ends at the candle at position
    [index + (lookback - data.length)], a position of the series: the [index]
    field is [lookback - data.length] below the absolute position. *)
Theorem detectCandlePatterns_index_short data lookback ps p :
  Z.of_nat (List.length data) < lookback ->
  detectCandlePatterns data lookback = Ok ps ->
  In p ps ->
  matchEndsAt data lookback p
    (index p + (lookback - Z.of_nat (List.length data)))
  /\ 0 <= index p + (lookback - Z.of_nat (List.length data))
       < Z.of_nat (List.length data).
Proof.
  intros Hlb Hrun Hin.
  pose proof (index_offset data lookback ps p Hrun Hin) as H.
  rewrite window_whole in H by lia.
  split; [assumption|].
  destruct H as [i [Hi [Hpos _]]].
  unfold windowStart in Hpos.
  rewrite window_whole in Hi, Hpos by lia. lia.
Qed.

Lemma detectCandlePatterns_index_short_witness :
  matchEndsAt morningStar3 50 (morningStarAt (-45))
    (index (morningStarAt (-45)) + (50 - Z.of_nat (List.length morningStar3)))
  /\ 0 <= index (morningStarAt (-45)) + (50 - Z.of_nat (List.length morningStar3))
       < Z.of_nat (List.length morningStar3).
Proof.
  apply (detectCandlePatterns_index_short morningStar3 50 [morningStarAt (-45)]).
  - simpl. lia.
  - vm_compute. reflexivity.
  - simpl. left. reflexivity.
Defined.

(** ** Candlestick patterns: the Morning Star on three candles *)

Lemma ok_list_length {A : Type} (r : result (option A)) :
  (List.length (ok_list r) <= 1)%nat.
Proof. destruct r as [[|]|]; simpl; lia. Qed.

Lemma shapesAt_morning data avgBody i m :
  (2 <= i)%nat -> (i < List.length data)%nat ->
  detectMorningStar data i avgBody = Ok (Some m) ->
  exists l1 l2,
    shapesAt data avgBody i = l1 ++ m :: l2 /\ (List.length l2 <= 3)%nat.
Proof.
  intros H2 Hi Hm. unfold shapesAt.
  destruct (nth_error_in_range data i Hi) as [candle ->].
  replace (2 <=? i)%nat with true by (symmetry; apply Nat.leb_le; lia).
  rewrite Hm. cbn [ok_list].
  match goal with
  | |- exists l1 l2, ?s ++ ?t ++ [m] ++ ?e ++ ?w ++ ?c = _ /\ _ =>
      exists (s ++ t), (e ++ w ++ c); split;
      [exact (app_assoc s t (m :: e ++ w ++ c))|]
  end.
  rewrite !length_app.
  pose proof (ok_list_length (detectEveningStar data i avgBody)).
  pose proof (ok_list_length (detectThreeWhiteSoldiers data i avgBody)).
  pose proof (ok_list_length (detectThreeBlackCrows data i avgBody)).
  lia.
Qed.

(** C2 (what the code does).  On fewer than 3 candles [detectCandlePatterns]
    returns the empty list.  On three candles that form a Morning Star (first
    candle bearish with a body above the average body, middle candle with a
    body below 30% of the average, third candle bullish with a body above the
    average and closing above the midpoint of the first), scanned with a
    lookback of at least 3, it returns a list that contains a Morning Star
    entry, bullish and of high reliability, whose index is [5 - lookback]:
    2 for a lookback of 3 and -45 for the default lookback of 50. *)
Theorem detectCandlePatterns_morning_star :
  (forall data lookback,
      (List.length data < 3)%nat -> detectCandlePatterns data lookback = Ok [])
  /\
  (forall c1 c2 c3 lookback,
      3 <= lookback ->
      isBearish c1 = true ->
      (bodySize c1 >? averageBody [c1; c2; c3])%num = true ->
      (bodySize c2 <? averageBody [c1; c2; c3] * d0_3)%num = true ->
      isBullish c3 = true ->
      (bodySize c3 >? averageBody [c1; c2; c3])%num = true ->
      (close c3 >? (open c1 + close c1) / d2)%num = true ->
      exists ps,
        detectCandlePatterns [c1; c2; c3] lookback = Ok ps
        /\ In (morningStarAt (5 - lookback)) ps).
Proof.
  split.
  - intros data lookback Hlen. unfold detectCandlePatterns.
    now replace (List.length data <? 3)%nat with true
      by (symmetry; apply Nat.ltb_lt; exact Hlen).
  - intros c1 c2 c3 lookback Hlb Hb1 Hs1 Hs2 Hb3 Hs3 Hmid.
    rewrite detectCandlePatterns_spec. eexists. split; [reflexivity|].
    change (-10) with (- Z.of_nat 10). rewrite slice_last by lia.
    set (data := [c1; c2; c3]) in *.
    assert (Hm : detectMorningStar data 2 (averageBody data)
                 = Ok (Some (morningStarAt 0))).
    { unfold detectMorningStar, data. cbn [Nat.ltb Nat.leb Nat.sub nth_error field bind].
      fold data. rewrite Hb1, Hs1, Hs2, Hb3, Hs3, Hmid. reflexivity. }
    destruct (shapesAt_morning data (averageBody data) 2 _ ltac:(lia) ltac:(simpl; lia) Hm)
      as [l1 [l2 [Hshape Hl2]]].
    assert (Hall : allMatches data lookback
                   = (matchesAt data lookback 0 ++ matchesAt data lookback 1
                      ++ map (setIndex (5 - lookback)) l1)
                     ++ morningStarAt (5 - lookback)
                        :: map (setIndex (5 - lookback)) l2).
    { unfold allMatches. replace (List.length data <? 3)%nat with false by reflexivity.
      rewrite window_whole by (simpl; lia).
      change (seq 0 (List.length data)) with [0%nat; 1%nat; 2%nat].
      cbn [flat_map]. rewrite app_nil_r.
      unfold matchesAt at 3. rewrite window_whole by (simpl; lia).
      rewrite Hshape, map_app. cbn [map].
      change (List.length data) with 3%nat.
      replace (Z.of_nat 3 - lookback + Z.of_nat 2) with (5 - lookback) by lia.
      rewrite <- !app_assoc. reflexivity. }
    rewrite Hall. apply In_skipn_tail. rewrite length_map. lia.
Qed.

Lemma detectCandlePatterns_morning_star_witness :
  detectCandlePatterns [] default_lookback = Ok []
  /\ exists ps,
       detectCandlePatterns morningStar3 default_lookback = Ok ps
       /\ In (morningStarAt (-45)) ps.
Proof.
  split.
  - apply (proj1 detectCandlePatterns_morning_star). simpl. lia.
  - apply (proj2 detectCandlePatterns_morning_star
             (candle 110 111 99 100) (candle 99 100 98 99) (candle 100 112 99 111)
             default_lookback);
      solve [ reflexivity | unfold default_lookback; lia ].
Defined.

(** ** Candlestick patterns: the last ten matches *)

Lemma StronglySorted_app_intro {A : Type} (R : A -> A -> Prop) (l1 l2 : list A) :
  StronglySorted R l1 -> StronglySorted R l2 ->
  (forall x y, In x l1 -> In y l2 -> R x y) ->
  StronglySorted R (l1 ++ l2).
Proof.
  induction l1 as [|a l1 IH]; intros H1 H2 Hcross; [exact H2|].
  simpl. inversion H1 as [|? ? Hs Hf]; subst. constructor.
  - apply IH; auto. intros x y Hx Hy. apply Hcross; simpl; auto.
  - apply Forall_app. split; [assumption|].
    apply Forall_forall. intros y Hy. apply Hcross; simpl; auto.
Qed.

Lemma StronglySorted_app_cross {A : Type} (R : A -> A -> Prop) (l1 l2 : list A) :
  StronglySorted R (l1 ++ l2) ->
  Forall (fun x => Forall (fun y => R x y) l2) l1.
Proof.
  induction l1 as [|a l1 IH]; intros H; [constructor|].
  simpl in H. inversion H as [|? ? Hs Hf]; subst. constructor.
  - apply Forall_app in Hf. tauto.
  - apply IH. assumption.
Qed.

Lemma StronglySorted_constant (l : list Z) (z : Z) :
  Forall (fun x => x = z) l -> StronglySorted Z.le l.
Proof.
  induction 1 as [|x l Hx Hl IH]; constructor; [assumption|].
  subst. eapply Forall_impl; [|exact Hl]. simpl. intros; lia.
Qed.

Lemma matchesAt_index data lookback i :
  Forall (fun x => x = Z.of_nat (List.length data) - lookback + Z.of_nat i)
    (map index (matchesAt data lookback i)).
Proof.
  unfold matchesAt. rewrite map_map. apply Forall_forall.
  intros x Hx. apply in_map_iff in Hx. destruct Hx as [s [<- _]]. reflexivity.
Qed.

(** The scan visits the window in ascending order of index. *)
Lemma scan_sorted data lookback n :
  forall i,
    StronglySorted Z.le
      (map index (flat_map (matchesAt data lookback) (seq i n)))
    /\ Forall (fun x => Z.of_nat (List.length data) - lookback + Z.of_nat i <= x)
         (map index (flat_map (matchesAt data lookback) (seq i n))).
Proof.
  induction n as [|n IH]; intros i; [split; constructor|].
  cbn [seq flat_map]. rewrite map_app.
  destruct (IH (S i)) as [Hs Hlow].
  pose proof (matchesAt_index data lookback i) as Hi.
  split.
  - apply StronglySorted_app_intro; [eapply StronglySorted_constant; eauto|assumption|].
    intros x y Hx Hy.
    rewrite Forall_forall in Hi, Hlow. specialize (Hi x Hx). specialize (Hlow y Hy). lia.
  - apply Forall_app. split.
    + eapply Forall_impl; [|exact Hi]. simpl. intros; lia.
    + eapply Forall_impl; [|exact Hlow]. simpl. intros; lia.
Qed.

Lemma allMatches_sorted data lookback :
  StronglySorted Z.le (map index (allMatches data lookback)).
Proof.
  unfold allMatches. destruct (List.length data <? 3)%nat; [constructor|].
  apply scan_sorted.
Qed.

Lemma allMatches_is_scan data lookback :
  ((List.length data < 3)%nat /\ allMatches data lookback = [])
  \/ scanAll data lookback = Ok (allMatches data lookback).
Proof.
  unfold allMatches. destruct (List.length data <? 3)%nat eqn:E.
  - left. apply Nat.ltb_lt in E. auto.
  - right. apply scanAll_spec.
Qed.

(** C6.  [detectCandlePatterns] returns at most 10 patterns: the last 10 of
    the matches in scan order ([all], the list built by the whole scan, is
    [dropped ++ kept]).  The scan is in ascending order of index, so no
    dropped match has a higher index than a kept one. *)
Theorem detectCandlePatterns_keeps_last_10 data lookback :
  let all := allMatches data lookback in
  let dropped := firstn (List.length all - 10) all in
  exists kept,
    detectCandlePatterns data lookback = Ok kept
    /\ (List.length kept <= 10)%nat
    /\ all = dropped ++ kept
    /\ List.length kept = Nat.min 10 (List.length all)
    /\ (((List.length data < 3)%nat /\ all = [])
        \/ scanAll data lookback = Ok all)
    /\ StronglySorted Z.le (map index all)
    /\ Forall (fun d => Forall (fun k => index d <= index k) kept) dropped.
Proof.
  intros all dropped.
  exists (slice (- Z.of_nat 10) None all).
  pose proof (slice_last_split all 10 ltac:(lia)) as Hsplit.
  pose proof (allMatches_sorted data lookback) as Hsorted. fold all in Hsorted.
  repeat split.
  - apply detectCandlePatterns_spec.
  - apply slice_length_le. lia.
  - exact Hsplit.
  - rewrite slice_last by lia. rewrite length_skipn. lia.
  - apply allMatches_is_scan.
  - exact Hsorted.
  - rewrite Hsplit, map_app in Hsorted.
    apply StronglySorted_app_cross in Hsorted.
    fold dropped in Hsorted.
    rewrite Forall_forall in Hsorted. apply Forall_forall. intros d Hd.
    specialize (Hsorted (index d) (in_map index _ _ Hd)).
    rewrite Forall_forall in Hsorted. apply Forall_forall. intros k Hk.
    apply Hsorted. now apply in_map.
Qed.

(** ** Numbers: the order *)

Section NumOrder.

Local Open Scope num_scope.

Lemma cmp_antisym a b : cmp b a = option_map CompOpp (cmp a b).
Proof.
  destruct a, b; simpl; try reflexivity. now rewrite <- Qcompare_antisym.
Qed.

Lemma cmp_defined a b :
  isNaN a = false -> isNaN b = false -> exists c, cmp a b = Some c.
Proof. destruct a, b; simpl; intros; try discriminate; eauto. Qed.

Lemma gtb_ltb a b : (a >? b) = (b <? a).
Proof.
  unfold gtb, ltb. rewrite (cmp_antisym a b).
  destruct (cmp a b) as [[| |]|]; reflexivity.
Qed.

Lemma geb_leb a b : (a >=? b) = (b <=? a).
Proof.
  unfold geb, leb. rewrite (cmp_antisym a b).
  destruct (cmp a b) as [[| |]|]; reflexivity.
Qed.

Lemma not_geb_ltb a b :
  isNaN a = false -> isNaN b = false -> (a >=? b) = false -> (a <? b) = true.
Proof.
  intros Ha Hb. destruct (cmp_defined a b Ha Hb) as [c Hc].
  unfold geb, ltb. rewrite Hc. destruct c; congruence.
Qed.

Lemma not_leb_gtb a b :
  isNaN a = false -> isNaN b = false -> (a <=? b) = false -> (a >? b) = true.
Proof.
  intros Ha Hb. destruct (cmp_defined a b Ha Hb) as [c Hc].
  unfold leb, gtb. rewrite Hc. destruct c; congruence.
Qed.

Lemma ltb_not_geb a b : (a <? b) = true -> (a >=? b) = false.
Proof. unfold ltb, geb. destruct (cmp a b) as [[| |]|]; congruence. Qed.

Lemma gtb_not_leb a b : (a >? b) = true -> (a <=? b) = false.
Proof. unfold gtb, leb. destruct (cmp a b) as [[| |]|]; congruence. Qed.

End NumOrder.

(** ** Divergences: peak finding *)

Import Divergence DivergenceSpec.

Section Peaks.

Local Open Scope num_scope.
Local Open Scope nat_scope.

Variable data : list num.
Variable lookback : nat.

Lemma windowLoop_spec i n :
  forall j isHigh isLow,
    windowLoop data i n j isHigh isLow
    = (isHigh && forallb (fun j => (j =? i) || isNaN (at_ data j)
                                   || negb (at_ data j >=? at_ data i)%num)
                   (seq j n),
       isLow && forallb (fun j => (j =? i) || isNaN (at_ data j)
                                  || negb (at_ data j <=? at_ data i)%num)
                  (seq j n)).
Proof.
  induction n as [|n IH]; intros j isHigh isLow.
  - simpl. now rewrite !andb_true_r.
  - cbn [windowLoop seq forallb].
    destruct ((j =? i) || isNaN (at_ data j)) eqn:Hskip.
    + rewrite IH. reflexivity.
    + rewrite IH. cbn [orb].
      destruct (at_ data j >=? at_ data i)%num, (at_ data j <=? at_ data i)%num;
        cbn [negb andb]; rewrite ?andb_false_r; reflexivity.
Qed.

Lemma peakLoop_spec n :
  forall i peaks,
    peakLoop data lookback n i peaks
    = peaks ++ flat_map (peaksAt data lookback) (seq i n).
Proof.
  induction n as [|n IH]; intros i peaks.
  - simpl. now rewrite app_nil_r.
  - cbn [peakLoop seq flat_map]. unfold peaksAt at 1.
    destruct (isNaN (at_ data i)) eqn:Hnan; [apply IH|].
    rewrite windowLoop_spec. cbn [andb]. fold (isHighAt data lookback i).
    fold (isLowAt data lookback i).
    rewrite IH.
    destruct (isHighAt data lookback i), (isLowAt data lookback i);
      rewrite <- ?app_assoc; reflexivity.
Qed.

Lemma findPeaks_spec :
  findPeaks data lookback
  = flat_map (peaksAt data lookback)
      (seq lookback (List.length data - lookback - lookback)).
Proof. unfold findPeaks. now rewrite peakLoop_spec. Qed.

Lemma peaksAt_inv i p :
  In p (peaksAt data lookback i) ->
  index p = i /\ value p = at_ data i /\ isNaN (value p) = false
  /\ (type p = high -> isHighAt data lookback i = true)
  /\ (type p = low -> isLowAt data lookback i = true).
Proof.
  unfold peaksAt. destruct (isNaN (at_ data i)) eqn:Hnan; [simpl; tauto|].
  rewrite in_app_iff.
  destruct (isHighAt data lookback i), (isLowAt data lookback i); simpl;
    intros H; repeat (destruct H as [H|H]); subst; simpl; try tauto;
    repeat split; auto; discriminate.
Qed.

Lemma findPeaks_inv p :
  In p (findPeaks data lookback) ->
  lookback <= index p < List.length data - lookback
  /\ In p (peaksAt data lookback (index p)).
Proof.
  rewrite findPeaks_spec, in_flat_map. intros [i [Hi Hp]].
  apply in_seq in Hi.
  destruct (peaksAt_inv i p Hp) as [Hidx _]. subst i.
  split; [lia | assumption].
Qed.

Lemma isHighAt_strict i :
  lookback <= i -> isNaN (at_ data i) = false ->
  isHighAt data lookback i = true <-> strictHigh data lookback i.
Proof.
  intros Hi Hnan. unfold isHighAt, strictHigh. rewrite forallb_forall. split.
  - intros H j Hj Hne Hd. specialize (H j ltac:(apply in_seq; lia)).
    apply Nat.eqb_neq in Hne. rewrite Hne, Hd in H. cbn [orb] in H.
    apply negb_true_iff in H. now apply not_geb_ltb.
  - intros H j Hj. apply in_seq in Hj.
    destruct (j =? i) eqn:Hji; [reflexivity|].
    destruct (isNaN (at_ data j)) eqn:Hd; [reflexivity|]. cbn [orb].
    apply negb_true_iff. apply ltb_not_geb. apply H; [lia| |assumption].
    now apply Nat.eqb_neq.
Qed.

Lemma isLowAt_strict i :
  lookback <= i -> isNaN (at_ data i) = false ->
  isLowAt data lookback i = true <-> strictLow data lookback i.
Proof.
  intros Hi Hnan. unfold isLowAt, strictLow. rewrite forallb_forall. split.
  - intros H j Hj Hne Hd. specialize (H j ltac:(apply in_seq; lia)).
    apply Nat.eqb_neq in Hne. rewrite Hne, Hd in H. cbn [orb] in H.
    apply negb_true_iff in H. now apply not_leb_gtb.
  - intros H j Hj. apply in_seq in Hj.
    destruct (j =? i) eqn:Hji; [reflexivity|].
    destruct (isNaN (at_ data j)) eqn:Hd; [reflexivity|]. cbn [orb].
    apply negb_true_iff. apply gtb_not_leb. apply H; [lia| |assumption].
    now apply Nat.eqb_neq.
Qed.

Lemma reports_iff i t :
  lookback <= i < List.length data - lookback ->
  reports data lookback i t
  <-> isNaN (at_ data i) = false
      /\ (match t with
          | high => isHighAt data lookback i
          | low => isLowAt data lookback i
          end) = true.
Proof.
  intros Hi. unfold reports. rewrite findPeaks_spec, in_flat_map. split.
  - intros [k [Hk Hp]]. destruct (peaksAt_inv k _ Hp) as [Hidx [_ [Hn [Hh Hl]]]].
    simpl in *. subst k. split; [assumption|]. destruct t; auto.
  - intros [Hnan Ht]. exists i. split; [apply in_seq; lia|].
    unfold peaksAt. rewrite Hnan. apply in_or_app.
    destruct t; rewrite Ht; [left | right]; simpl; auto.
Qed.

End Peaks.

Example findPeaks_samplePrices :
  findPeaks samplePrices 5
  = [mkPeak 5 (of_Z 101) high; mkPeak 9 (of_Z 97) low; mkPeak 14 (of_Z 102) high].
Proof. vm_compute. reflexivity. Qed.

(** A window whose other values are all undefined makes its centre both a
    high and a low. *)
Example findPeaks_among_NaN :
  findPeaks [NaN; of_Z 7; NaN] 1 = [mkPeak 1 (of_Z 7) high; mkPeak 1 (of_Z 7) low].
Proof. vm_compute. reflexivity. Qed.

(** C8.  For [w <= i < length - w], [findPeaks] with half-window [w] reports
    [i] as a local high exactly when [data[i]] is defined and every other
    index of [[i - w, i + w]] with a defined value has a strictly smaller
    value, and as a local low exactly when [data[i]] is defined and every
    other such index has a strictly greater value; indices whose value is NaN
    are skipped, as candidates and as neighbours. *)
Theorem findPeaks_local_extrema (data : list num) (w i : nat) :
  (w <= i < List.length data - w)%nat ->
  (reports data w i high
   <-> isNaN (at_ data i) = false /\ strictHigh data w i)
  /\ (reports data w i low
      <-> isNaN (at_ data i) = false /\ strictLow data w i).
Proof.
  intros Hi. split.
  - rewrite reports_iff by assumption. split; intros [Hn H]; split; auto.
    + apply isHighAt_strict; auto; lia.
    + apply isHighAt_strict; auto; lia.
  - rewrite reports_iff by assumption. split; intros [Hn H]; split; auto.
    + apply isLowAt_strict; auto; lia.
    + apply isLowAt_strict; auto; lia.
Qed.

Lemma findPeaks_local_extrema_witness :
  (reports samplePrices 5 5 high
   <-> isNaN (at_ samplePrices 5) = false /\ strictHigh samplePrices 5 5)
  /\ (reports samplePrices 5 5 low
      <-> isNaN (at_ samplePrices 5) = false /\ strictLow samplePrices 5 5).
Proof.
  apply (findPeaks_local_extrema samplePrices 5 5). simpl. lia.
Defined.

(** ** Numbers: equality up to representation *)

Section NumEq.

Local Open Scope num_scope.

Lemma num_eq_refl a : a =~= a.
Proof. destruct a; simpl; auto. reflexivity. Qed.

Lemma num_eq_sym a b : a =~= b -> b =~= a.
Proof. destruct a, b; simpl; auto. intros H. now symmetry. Qed.

Lemma num_eq_trans a b c : a =~= b -> b =~= c -> a =~= c.
Proof.
  destruct a, b, c; simpl; auto; try tauto. intros H1 H2. now rewrite H1.
Qed.

Lemma Qsign_eq x y : (x == y)%Q -> Qsign x = Qsign y.
Proof. intros H. unfold Qsign. now rewrite H. Qed.

Lemma add_num_eq a a' b b' : a =~= a' -> b =~= b' -> a + b =~= a' + b'.
Proof.
  destruct a, a', b, b'; simpl; auto; try tauto.
  intros H1 H2. now rewrite H1, H2.
Qed.

Lemma div_num_eq a a' b b' : a =~= a' -> b =~= b' -> a / b =~= a' / b'.
Proof.
  destruct a as [| |x|], a' as [| |x'|], b as [| |y|], b' as [| |y'|];
    simpl; auto; try tauto; try reflexivity.
  - intros _ H. rewrite (Qsign_eq _ _ H). destruct (Qsign y'); simpl; auto.
  - intros H1 H2. rewrite (Qsign_eq _ _ H1), (Qsign_eq _ _ H2).
    destruct (Qsign y'); simpl; try (now rewrite H1, H2).
    destruct (Qsign x'); simpl; auto.
  - intros _ H. rewrite (Qsign_eq _ _ H). destruct (Qsign y'); simpl; auto.
Qed.

Lemma gtb_num_eq a a' c : a =~= a' -> (a >? c) = (a' >? c).
Proof.
  destruct a, a', c; simpl; auto; try tauto.
  intros H. unfold gtb. simpl. now rewrite H.
Qed.

Lemma classify_num_eq a a' : a =~= a' -> classify a = classify a'.
Proof.
  intros H. unfold classify.
  now rewrite (gtb_num_eq a a' d0_15 H), (gtb_num_eq a a' d0_08 H).
Qed.

(** The magnitude of a difference, once the order of its terms is known. *)
Lemma abs_sub_lt a b :
  (a <? b) = true -> abs (b - a) =~= b - a /\ abs (a - b) =~= b - a.
Proof.
  destruct a as [| |x|], b as [| |y|]; unfold ltb, sub;
    cbn [cmp neg add abs num_eq]; try discriminate; auto.
  destruct (x ?= y)%Q eqn:E; try discriminate. intros _.
  apply Qlt_alt in E. split.
  - apply Qabs_pos. lra.
  - rewrite Qabs_neg by lra. ring.
Qed.

Lemma abs_positive a : (Fin 0 <? a) = true -> abs a =~= a.
Proof.
  destruct a as [| |x|]; unfold ltb; cbn [cmp abs num_eq]; try discriminate; auto.
  destruct (0 ?= x)%Q eqn:E; try discriminate. intros _.
  apply Qlt_alt in E. apply Qabs_pos. lra.
Qed.

End NumEq.

(** ** Divergences: matching the peaks *)

Section Matching.

Local Open Scope num_scope.

Lemma filter_peaksAt data lookback i t :
  filter (isType t) (peaksAt data lookback i) = []
  \/ exists p, filter (isType t) (peaksAt data lookback i) = [p] /\ index p = i.
Proof.
  unfold peaksAt. destruct (isNaN (at_ data i)); [now left|].
  destruct (isHighAt data lookback i), (isLowAt data lookback i), t;
    cbn; eauto.
Qed.

Lemma peaks_sorted_from data lookback t n :
  forall i,
    StronglySorted (fun p q => (index p < index q)%nat)
      (filter (isType t) (flat_map (peaksAt data lookback) (seq i n)))
    /\ Forall (fun p => (i <= index p)%nat)
         (filter (isType t) (flat_map (peaksAt data lookback) (seq i n))).
Proof.
  induction n as [|n IH]; intros i; [split; constructor|].
  cbn [seq flat_map]. rewrite filter_app.
  destruct (IH (S i)) as [Hs Hlow].
  destruct (filter_peaksAt data lookback i t) as [-> | [p [-> Hp]]].
  - split; [exact Hs|]. simpl.
    eapply Forall_impl; [|exact Hlow]. simpl. intros; lia.
  - cbn [app]. split; constructor; try assumption.
    + eapply Forall_impl; [|exact Hlow]. simpl. intros; lia.
    + lia.
    + eapply Forall_impl; [|exact Hlow]. simpl. intros; lia.
Qed.

(** The peaks of one type are in strictly ascending order of index. *)
Lemma peaks_of_type_sorted data lookback t :
  StronglySorted (fun p q => (index p < index q)%nat)
    (filter (isType t) (findPeaks data lookback)).
Proof. rewrite findPeaks_spec. apply peaks_sorted_from. Qed.

Lemma consecutive_ascending (peaks l1 l2 : list Peak) (p1 p2 : Peak) :
  StronglySorted (fun p q => (index p < index q)%nat) peaks ->
  peaks = l1 ++ p1 :: p2 :: l2 ->
  (index p1 < index p2)%nat.
Proof.
  intros Hs ->. induction l1 as [|a l1 IH]; simpl in Hs.
  - inversion Hs as [|? ? _ Hf]; subst. now inversion Hf.
  - inversion Hs; subst. auto.
Qed.

Lemma pairLoop_inv step :
  (forall p1 p2 acc, step p1 p2 acc = acc ++ step p1 p2 []) ->
  forall peaks acc d,
    In d (pairLoop step peaks acc) ->
    In d acc
    \/ exists l1 p1 p2 l2,
         peaks = l1 ++ p1 :: p2 :: l2 /\ In d (step p1 p2 []).
Proof.
  intros Hstep. induction peaks as [|p1 peaks IH]; intros acc d Hd; [now left|].
  destruct peaks as [|p2 rest]; [now left|].
  cbn [pairLoop] in Hd. apply IH in Hd. destruct Hd as [Hd | Hd].
  - rewrite Hstep in Hd. apply in_app_or in Hd. destruct Hd as [Hd|Hd]; [now left|].
    right. exists [], p1, p2, rest. auto.
  - right. destruct Hd as [l1 [q1 [q2 [l2 [Heq Hd]]]]].
    exists (p1 :: l1), q1, q2, l2. split; [|assumption].
    simpl. now rewrite Heq.
Qed.

Lemma bearishStep_app name lookback maxDistance indHighs ph1 ph2 acc :
  bearishStep name lookback maxDistance indHighs ph1 ph2 acc
  = acc ++ bearishStep name lookback maxDistance indHighs ph1 ph2 [].
Proof.
  unfold bearishStep.
  repeat match goal with
         | |- context [if ?c then _ else _] => destruct c
         | |- context [match find ?f ?l with _ => _ end] => destruct (find f l)
         end; rewrite ?app_nil_r; reflexivity.
Qed.

Lemma bullishStep_app name lookback maxDistance indLows pl1 pl2 acc :
  bullishStep name lookback maxDistance indLows pl1 pl2 acc
  = acc ++ bullishStep name lookback maxDistance indLows pl1 pl2 [].
Proof.
  unfold bullishStep.
  repeat match goal with
         | |- context [if ?c then _ else _] => destruct c
         | |- context [match find ?f ?l with _ => _ end] => destruct (find f l)
         end; rewrite ?app_nil_r; reflexivity.
Qed.

Lemma bearishStep_inv name lookback maxDistance indHighs ph1 ph2 d :
  In d (bearishStep name lookback maxDistance indHighs ph1 ph2 []) ->
  exists ih1 ih2,
    In ih1 indHighs /\ In ih2 indHighs
    /\ (value ph2 <=? value ph1) = false
    /\ (value ih2 >=? value ih1) = false
    /\ d = mkDivergence bearish name (index ph1) (index ph2)
             (value ph1) (value ph2) (value ih1) (value ih2)
             (classify ((value ph2 - value ph1) / value ph1
                        + (value ih1 - value ih2)
                          / abs (or_else (value ih1) (Fin 1)))).
Proof.
  unfold bearishStep.
  destruct (_ >? _)%Z; [simpl; tauto|].
  destruct (value ph2 <=? value ph1) eqn:Hp; [simpl; tauto|].
  destruct (find _ indHighs) as [ih1|] eqn:F1; [|simpl; tauto].
  destruct (find (near lookback (index ph2)) indHighs) as [ih2|] eqn:F2;
    [|simpl; tauto].
  destruct (value ih2 >=? value ih1) eqn:Hi; [simpl; tauto|].
  simpl. intros [<-|[]].
  apply find_some in F1, F2. exists ih1, ih2. tauto.
Qed.

Lemma bullishStep_inv name lookback maxDistance indLows pl1 pl2 d :
  In d (bullishStep name lookback maxDistance indLows pl1 pl2 []) ->
  exists il1 il2,
    In il1 indLows /\ In il2 indLows
    /\ (value pl2 >=? value pl1) = false
    /\ (value il2 <=? value il1) = false
    /\ d = mkDivergence bullish name (index pl1) (index pl2)
             (value pl1) (value pl2) (value il1) (value il2)
             (classify ((value pl1 - value pl2) / value pl1
                        + (value il2 - value il1)
                          / abs (or_else (value il1) (Fin 1)))).
Proof.
  unfold bullishStep.
  destruct (_ >? _)%Z; [simpl; tauto|].
  destruct (value pl2 >=? value pl1) eqn:Hp; [simpl; tauto|].
  destruct (find _ indLows) as [il1|] eqn:F1; [|simpl; tauto].
  destruct (find (near lookback (index pl2)) indLows) as [il2|] eqn:F2;
    [|simpl; tauto].
  destruct (value il2 <=? value il1) eqn:Hi; [simpl; tauto|].
  simpl. intros [<-|[]].
  apply find_some in F1, F2. exists il1, il2. tauto.
Qed.

Lemma peak_defined data lookback t p :
  In p (filter (isType t) (findPeaks data lookback)) -> isNaN (value p) = false.
Proof.
  intros H. apply filter_In in H. destruct H as [H _].
  apply findPeaks_inv in H. destruct H as [_ H].
  apply peaksAt_inv in H. tauto.
Qed.

(** What a returned divergence is made of: two consecutive price peaks of one
    type and the two indicator peaks matched to them. *)
Lemma detectDivergences_inv prices indicatorValues name lookback maxDistance d :
  In d (detectDivergences prices indicatorValues name lookback maxDistance) ->
  exists p1 p2 i1 i2,
    (index p1 < index p2)%nat
    /\ isNaN (value p1) = false /\ isNaN (value p2) = false
    /\ isNaN (value i1) = false /\ isNaN (value i2) = false
    /\ ((d = mkDivergence bearish name (index p1) (index p2)
               (value p1) (value p2) (value i1) (value i2)
               (classify ((value p2 - value p1) / value p1
                          + (value i1 - value i2)
                            / abs (or_else (value i1) (Fin 1))))
         /\ (value p2 <=? value p1) = false
         /\ (value i2 >=? value i1) = false)
        \/ (d = mkDivergence bullish name (index p1) (index p2)
                  (value p1) (value p2) (value i1) (value i2)
                  (classify ((value p1 - value p2) / value p1
                             + (value i2 - value i1)
                               / abs (or_else (value i1) (Fin 1))))
            /\ (value p2 >=? value p1) = false
            /\ (value i2 <=? value i1) = false)).
Proof.
  unfold detectDivergences. intros Hd.
  apply pairLoop_inv in Hd; [|intros; apply bullishStep_app].
  destruct Hd as [Hd | [l1 [p1 [p2 [l2 [Heq Hd]]]]]].
  - apply pairLoop_inv in Hd; [|intros; apply bearishStep_app].
    destruct Hd as [[] | [l1 [p1 [p2 [l2 [Heq Hd]]]]]].
    apply bearishStep_inv in Hd.
    destruct Hd as [i1 [i2 [Hi1 [Hi2 [Hp [Hi Hdef]]]]]].
    exists p1, p2, i1, i2.
    pose proof (peaks_of_type_sorted prices lookback high) as Hs.
    assert (In p1 (filter (isType high) (findPeaks prices lookback)))
      by (rewrite Heq; apply in_or_app; right; simpl; auto).
    assert (In p2 (filter (isType high) (findPeaks prices lookback)))
      by (rewrite Heq; apply in_or_app; right; simpl; auto).
    repeat split; eauto using consecutive_ascending, peak_defined.
  - apply bullishStep_inv in Hd.
    destruct Hd as [i1 [i2 [Hi1 [Hi2 [Hp [Hi Hdef]]]]]].
    exists p1, p2, i1, i2.
    pose proof (peaks_of_type_sorted prices lookback low) as Hs.
    assert (In p1 (filter (isType low) (findPeaks prices lookback)))
      by (rewrite Heq; apply in_or_app; right; simpl; auto).
    assert (In p2 (filter (isType low) (findPeaks prices lookback)))
      by (rewrite Heq; apply in_or_app; right; simpl; auto).
    repeat split; eauto using consecutive_ascending, peak_defined.
Qed.

End Matching.

(** ** Divergences: direction and strength *)

(** C10.  Every divergence returned by [detectDivergences] has
    [startIndex < endIndex]; a bearish one has [priceEnd > priceStart] and
    [indicatorEnd < indicatorStart], a bullish one has [priceEnd < priceStart]
    and [indicatorEnd > indicatorStart]. *)
Theorem detectDivergences_direction prices indicatorValues name lookback maxDistance d :
  In d (detectDivergences prices indicatorValues name lookback maxDistance) ->
  (startIndex d < endIndex d)%nat
  /\ match dtype d with
     | bearish =>
         (priceEnd d >? priceStart d)%num = true
         /\ (indicatorEnd d <? indicatorStart d)%num = true
     | bullish =>
         (priceEnd d <? priceStart d)%num = true
         /\ (indicatorEnd d >? indicatorStart d)%num = true
     end.
Proof.
  intros Hd. apply detectDivergences_inv in Hd.
  destruct Hd as [p1 [p2 [i1 [i2 [Hidx [Hp1 [Hp2 [Hi1 [Hi2 Hcase]]]]]]]]].
  destruct Hcase as [[-> [Hp Hi]] | [-> [Hp Hi]]]; cbn.
  - auto using not_leb_gtb, not_geb_ltb.
  - auto using not_leb_gtb, not_geb_ltb.
Qed.

Lemma detectDivergences_direction_witness :
  (startIndex sampleDivergence < endIndex sampleDivergence)%nat
  /\ match dtype sampleDivergence with
     | bearish =>
         (priceEnd sampleDivergence >? priceStart sampleDivergence)%num = true
         /\ (indicatorEnd sampleDivergence <? indicatorStart sampleDivergence)%num
            = true
     | bullish =>
         (priceEnd sampleDivergence <? priceStart sampleDivergence)%num = true
         /\ (indicatorEnd sampleDivergence >? indicatorStart sampleDivergence)%num
            = true
     end.
Proof.
  apply (detectDivergences_direction samplePrices sampleHistogram MACD_name 5 25).
  vm_compute. left. reflexivity.
Defined.

(** The strength of a returned divergence whose first price is positive. *)
Lemma strength_guarded prices indicatorValues name lookback maxDistance d :
  In d (detectDivergences prices indicatorValues name lookback maxDistance) ->
  (Fin 0 <? priceStart d)%num = true ->
  strength d = guardedStrength d.
Proof.
  intros Hd Hpos. apply detectDivergences_inv in Hd.
  destruct Hd as [p1 [p2 [i1 [i2 [Hidx [Hp1 [Hp2 [Hi1 [Hi2 Hcase]]]]]]]]].
  unfold guardedStrength, relativeMove, guardedMove.
  destruct Hcase as [[-> [Hp Hi]] | [-> [Hp Hi]]]; cbn in *.
  - apply not_leb_gtb in Hp; auto. rewrite gtb_ltb in Hp.
    apply not_geb_ltb in Hi; auto.
    apply classify_num_eq. apply add_num_eq; apply div_num_eq;
      apply num_eq_sym; try apply num_eq_refl.
    + apply (abs_sub_lt _ _ Hp).
    + now apply abs_positive.
    + apply (abs_sub_lt _ _ Hi).
  - apply not_geb_ltb in Hp; auto.
    apply not_leb_gtb in Hi; auto. rewrite gtb_ltb in Hi.
    apply classify_num_eq. apply add_num_eq; apply div_num_eq;
      apply num_eq_sym; try apply num_eq_refl.
    + apply (abs_sub_lt _ _ Hp).
    + now apply abs_positive.
    + apply (abs_sub_lt _ _ Hi).
Qed.

Lemma classify_thresholds c :
  (classify c = strong <-> (c >? d0_15)%num = true)
  /\ (classify c = moderate
      <-> (c >? d0_08)%num = true /\ (c <=? d0_15)%num = true)
  /\ (classify c = weak
      <-> (c >? d0_15)%num = false /\ (c >? d0_08)%num = false).
Proof.
  unfold classify, gtb, leb, d0_15, d0_08.
  destruct c as [| |x|]; cbn [cmp]; try (repeat split; intros; intuition congruence).
  destruct (x ?= 15 # 100)%Q, (x ?= 8 # 100)%Q;
    repeat split; intros; intuition congruence.
Qed.

(** C7, as amended.  For every divergence returned by [detectDivergences]
    whose first price is positive, the strength is the class of
    [relative price move + relative indicator move], each the magnitude of the
    change divided by the magnitude of the first point, where a first
    indicator value of 0 is replaced by 1 as the divisor; the class is
    [strong] exactly when the sum is above 0.15, [moderate] exactly when it is
    above 0.08 and at most 0.15, and [weak] otherwise; 0.20 is [strong]. *)
Theorem detectDivergences_strength prices indicatorValues name lookback maxDistance d :
  In d (detectDivergences prices indicatorValues name lookback maxDistance) ->
  (Fin 0 <? priceStart d)%num = true ->
  let combinedStrength :=
    (relativeMove (priceStart d) (priceEnd d)
     + guardedMove (indicatorStart d) (indicatorEnd d))%num in
  (strength d = strong <-> (combinedStrength >? d0_15)%num = true)
  /\ (strength d = moderate
      <-> (combinedStrength >? d0_08)%num = true
          /\ (combinedStrength <=? d0_15)%num = true)
  /\ (strength d = weak
      <-> (combinedStrength >? d0_15)%num = false
          /\ (combinedStrength >? d0_08)%num = false)
  /\ classify (Fin (20 # 100)) = strong.
Proof.
  intros Hd Hpos combinedStrength.
  rewrite (strength_guarded _ _ _ _ _ _ Hd Hpos).
  unfold guardedStrength. fold combinedStrength.
  pose proof (classify_thresholds combinedStrength) as [H1 [H2 H3]].
  repeat split; try apply H1; try apply H2; try apply H3; auto.
Qed.

Lemma detectDivergences_strength_witness :
  let d := sampleDivergence in
  let combinedStrength :=
    (relativeMove (priceStart d) (priceEnd d)
     + guardedMove (indicatorStart d) (indicatorEnd d))%num in
  (strength d = strong <-> (combinedStrength >? d0_15)%num = true)
  /\ (strength d = moderate
      <-> (combinedStrength >? d0_08)%num = true
          /\ (combinedStrength <=? d0_15)%num = true)
  /\ (strength d = weak
      <-> (combinedStrength >? d0_15)%num = false
          /\ (combinedStrength >? d0_08)%num = false)
  /\ classify (Fin (20 # 100)) = strong.
Proof.
  apply (detectDivergences_strength samplePrices sampleHistogram MACD_name 5 25).
  - vm_compute. left. reflexivity.
  - reflexivity.
Defined.

(** C7, as stated, fails.  On the sample the first indicator peak is 0: the
    code divides the indicator move by 1 and finds the divergence weak, while
    a move normalised by the magnitude of the first point is infinite, hence
    strong. *)
Lemma detectDivergences_strength_counterexample :
  detectDivergences samplePrices sampleHistogram MACD_name 5 25
  = [sampleDivergence]
  /\ strength sampleDivergence = weak
  /\ claimedStrength sampleDivergence = strong.
Proof. repeat split; vm_compute; reflexivity. Qed.

(** ** Divergences: the aggregated list *)

Section Sorting.

Context {A : Type}.
Variable compare : A -> A -> Z.

Lemma insertBy_perm x l : Permutation (insertBy compare x l) (x :: l).
Proof.
  induction l as [|y ys IH]; simpl; [reflexivity|].
  destruct (compare x y <=? 0)%Z; [reflexivity|].
  rewrite IH. apply perm_swap.
Qed.

Lemma sort_perm l : Permutation (sort compare l) l.
Proof.
  induction l as [|x l IH]; simpl; [reflexivity|].
  fold (sort compare l). rewrite insertBy_perm. now constructor.
Qed.

End Sorting.

Lemma insertBy_recency_sorted x l :
  StronglySorted mostRecentFirst l ->
  StronglySorted mostRecentFirst (insertBy byRecency x l).
Proof.
  induction 1 as [|y ys Hs IH Hf]; simpl; [repeat constructor|].
  destruct (byRecency x y <=? 0)%Z eqn:E.
  - apply Z.leb_le in E. unfold byRecency in E.
    constructor; [now constructor|].
    constructor; [unfold mostRecentFirst; lia|].
    eapply Forall_impl; [|exact Hf]. unfold mostRecentFirst. intros; lia.
  - apply Z.leb_gt in E. unfold byRecency in E.
    constructor; [assumption|].
    rewrite (insertBy_perm byRecency x ys).
    constructor; [unfold mostRecentFirst; lia | assumption].
Qed.

Lemma sort_recency_sorted l :
  StronglySorted mostRecentFirst (sort byRecency l).
Proof.
  induction l as [|x l IH]; simpl; [constructor|].
  now apply insertBy_recency_sorted.
Qed.

(** C5.  For fewer than 30 candles the aggregated list is empty.  Otherwise
    it is made of the divergences detected for the RSI and of those detected
    for the MACD histogram, each run on its own, merged, sorted by descending
    [endIndex], and cut to the first 10. *)
Theorem DivergenceDetector_aggregation
  (RSI : list num -> nat -> list num) (MACD : list num -> MACDResult)
  (data : list OHLCV) :
  ((List.length data < 30)%nat -> DivergenceDetector RSI MACD data = [])
  /\ ((30 <= List.length data)%nat ->
      let closes := map close data in
      let merged :=
        detectDivergences closes (RSI closes 14%nat) RSI_name 5 25
        ++ detectDivergences closes (histogram (MACD closes)) MACD_name 5 25 in
      exists sorted,
        Permutation sorted merged
        /\ StronglySorted mostRecentFirst sorted
        /\ DivergenceDetector RSI MACD data = firstn 10 sorted
        /\ (List.length (DivergenceDetector RSI MACD data) <= 10)%nat).
Proof.
  split; [intros Hlen | intros Hlen closes merged]; unfold DivergenceDetector.
  - now replace (List.length data <? 30)%nat with true
      by (symmetry; apply Nat.ltb_lt; exact Hlen).
  - replace (List.length data <? 30)%nat with false
      by (symmetry; apply Nat.ltb_ge; exact Hlen).
    fold closes. fold merged. exists (sort byRecency merged).
    change 10 with (Z.of_nat 10). rewrite slice_first.
    repeat split.
    + apply sort_perm.
    + apply sort_recency_sorted.
    + rewrite length_firstn. lia.
Qed.

Lemma DivergenceDetector_aggregation_witness :
  DivergenceDetector sampleRSI sampleMACD [] = []
  /\ exists sorted,
       Permutation sorted
         (detectDivergences (map close sampleCandles)
            (sampleRSI (map close sampleCandles) 14%nat) RSI_name 5 25
          ++ detectDivergences (map close sampleCandles)
               (histogram (sampleMACD (map close sampleCandles))) MACD_name 5 25)
       /\ StronglySorted mostRecentFirst sorted
       /\ DivergenceDetector sampleRSI sampleMACD sampleCandles = firstn 10 sorted
       /\ (List.length (DivergenceDetector sampleRSI sampleMACD sampleCandles)
           <= 10)%nat.
Proof.
  split.
  - apply (proj1 (DivergenceDetector_aggregation sampleRSI sampleMACD [])).
    simpl. lia.
  - apply (proj2 (DivergenceDetector_aggregation sampleRSI sampleMACD sampleCandles)).
    simpl. lia.
Defined.

(** ** Treemap: the layout tiles the container *)

Import Treemap TreemapSpec.

Section Tiling.

Local Open Scope num_scope.

Lemma finitePos_inv a : finitePos a -> exists q, a = Fin q /\ (0 < q)%Q.
Proof. destruct a; simpl; try tauto. eauto. Qed.

Lemma Qsign_pos q : (0 < q)%Q -> Qsign q = Gt.
Proof. intros H. unfold Qsign. now apply Qgt_alt. Qed.

Lemma div_Fin_pos x y : (0 < y)%Q -> Fin x / Fin y = Fin (x / y)%Q.
Proof. intros H. unfold div. now rewrite (Qsign_pos y H). Qed.

Lemma leb_Fin x y : (Fin x <=? Fin y) = true <-> (x <= y)%Q.
Proof.
  unfold leb. cbn [cmp]. rewrite Qle_alt.
  destruct (x ?= y)%Q; split; intros; congruence.
Qed.

Lemma leb_Fin_false x y : (y < x)%Q -> (Fin x <=? Fin y) = false.
Proof.
  intros H. destruct (Fin x <=? Fin y) eqn:E; [|reflexivity].
  apply leb_Fin in E. lra.
Qed.

Lemma weightSum_nonneg items :
  Forall (fun item => finitePos (weight item)) items -> (0 <= weightSum items)%Q.
Proof.
  induction 1 as [|item items Hw _ IH]; simpl; [lra|].
  destruct (finitePos_inv _ Hw) as [q [-> Hq]]. simpl. lra.
Qed.

Lemma totalWeight_finite items :
  Forall (fun item => finitePos (weight item)) items ->
  forall a,
    exists q,
      fold_left (fun sum item => sum + weight item) items (Fin a) = Fin q
      /\ (q == a + weightSum items)%Q.
Proof.
  induction 1 as [|item items Hw _ IH]; intros a; simpl.
  - exists a. split; [reflexivity | ring].
  - destruct (finitePos_inv _ Hw) as [wq [-> Hq]]. cbn [add toQ].
    destruct (IH (a + wq)%Q) as [q [-> Hsum]].
    exists q. split; [reflexivity|]. rewrite Hsum. ring.
Qed.

Lemma share_bounds (rem wq rest : Q) :
  (0 <= rem)%Q -> (0 < wq)%Q -> (0 <= rest)%Q ->
  (0 <= rem * (wq / (wq + rest)) <= rem)%Q.
Proof.
  intros Hrem Hwq Hrest.
  assert (Hr : (0 <= wq / (wq + rest) <= 1)%Q).
  { split.
    - apply Qle_shift_div_l; lra.
    - apply Qle_shift_div_r; lra. }
  split; nra.
Qed.

Lemma layoutLoop_tiles items :
  items <> [] ->
  Forall (fun item => finitePos (weight item)) items ->
  forall i c result rw rh rwt,
    remainingWidth c = Fin rw -> remainingHeight c = Fin rh ->
    remainingWeight c = Fin rwt ->
    (0 <= rw)%Q -> (0 <= rh)%Q -> (rwt == weightSum items)%Q ->
    exists new,
      layoutLoop items i c result = result ++ new
      /\ List.length new = List.length items
      /\ Forall nonNegative new
      /\ totalArea new =~= Fin (rw * rh).
Proof.
  induction items as [|item rest IH]; intros Hne Hall; [congruence|].
  inversion Hall as [|? ? Hw Hrest]; subst.
  destruct (finitePos_inv _ Hw) as [wq [Hweight Hwq]].
  pose proof (weightSum_nonneg rest Hrest) as Hsum.
  intros i [x0 y0 rW rH rWt hz] result rw rh rwt; cbn [remainingWidth
    remainingHeight remainingWeight]; intros -> -> -> Hrw Hrh Hrwt.
  cbn [weightSum fold_right] in Hrwt. fold (weightSum rest) in Hrwt.
  rewrite Hweight in Hrwt. cbn [toQ] in Hrwt.
  assert (Hpos : (0 < rwt)%Q) by lra.
  assert (Hshare : forall rem, (0 <= rem)%Q ->
                     (0 <= rem * (wq / rwt) <= rem)%Q).
  { intros rem Hrem. rewrite Hrwt. now apply share_bounds. }
  cbn [layoutLoop remainingWeight horizontal remainingWidth remainingHeight cx cy].
  rewrite Hweight, (div_Fin_pos wq rwt Hpos).
  destruct rest as [|item2 rest'].
  - (* the last item takes what is left *)
    assert (Hone : (wq / rwt == 1)%Q).
    { cbn [weightSum fold_right] in Hrwt. rewrite Hrwt. field. lra. }
    destruct hz;
      cbn [layoutLoop cx cy remainingWidth remainingHeight remainingWeight
           horizontal mul sub add neg];
      eexists; (split; [reflexivity|]); (split; [reflexivity|]);
      (split; [repeat constructor; cbn; try apply Hshare; assumption|]);
      cbn [totalArea fold_right area w h mul add num_eq];
      rewrite Hone; ring.
  - destruct hz;
      cbn [cx cy remainingWidth remainingHeight remainingWeight horizontal
           mul sub add neg].
    + destruct (IH ltac:(discriminate) Hrest (S i)
                  (mkCursor (x0 + Fin (rw * (wq / rwt))) y0
                     (Fin (rw + - (rw * (wq / rwt)))) (Fin rh)
                     (Fin (rwt + - wq))
                     (if (i mod 3 =? 2)%nat then negb true else true))
                  (result ++ [mkRect x0 y0 (Fin (rw * (wq / rwt))) (Fin rh)
                                (symbol item) (change item) (name item)
                                (price item) (marketCap item)])
                  (rw + - (rw * (wq / rwt)))%Q rh (rwt + - wq)%Q
                  eq_refl eq_refl eq_refl)
        as [new [Hrun [Hlen [Hnn Harea]]]];
        [specialize (Hshare rw Hrw); lra | assumption | rewrite Hrwt; ring |].
      cbn [cx cy remainingWidth remainingHeight remainingWeight horizontal] in Hrun |- *.
      rewrite Hrun, <- app_assoc. eexists. split; [reflexivity|].
      split; [simpl; now rewrite Hlen|].
      split; [constructor; [split; cbn; try apply Hshare; assumption | assumption]|].
      cbn [app totalArea fold_right area w h mul]. fold (totalArea new).
      destruct (totalArea new) as [| |ta|]; cbn [num_eq] in Harea; try tauto.
      cbn [add num_eq]. rewrite Harea. ring.
    + destruct (IH ltac:(discriminate) Hrest (S i)
                  (mkCursor x0 (y0 + Fin (rh * (wq / rwt)))
                     (Fin rw) (Fin (rh + - (rh * (wq / rwt))))
                     (Fin (rwt + - wq))
                     (if (i mod 3 =? 2)%nat then negb false else false))
                  (result ++ [mkRect x0 y0 (Fin rw) (Fin (rh * (wq / rwt)))
                                (symbol item) (change item) (name item)
                                (price item) (marketCap item)])
                  rw (rh + - (rh * (wq / rwt)))%Q (rwt + - wq)%Q
                  eq_refl eq_refl eq_refl)
        as [new [Hrun [Hlen [Hnn Harea]]]];
        [assumption | specialize (Hshare rh Hrh); lra | rewrite Hrwt; ring |].
      cbn [cx cy remainingWidth remainingHeight remainingWeight horizontal] in Hrun |- *.
      rewrite Hrun, <- app_assoc. eexists. split; [reflexivity|].
      split; [simpl; now rewrite Hlen|].
      split; [constructor; [split; cbn; try apply Hshare; assumption | assumption]|].
      cbn [app totalArea fold_right area w h mul]. fold (totalArea new).
      destruct (totalArea new) as [| |ta|]; cbn [num_eq] in Harea; try tauto.
      cbn [add num_eq]. rewrite Harea. ring.
Qed.

End Tiling.

(** C3.  For a non-empty list of items whose weights are all positive and a
    container of positive width and height, [squarify] returns one rectangle
    per item, each of non-negative width and height, and in exact arithmetic
    the areas of the rectangles add up to the width times the height of the
    container. *)
Theorem squarify_tiles (items : list Item) (containerWidth containerHeight : num) :
  items <> [] ->
  Forall (fun item => finitePos (weight item)) items ->
  finitePos containerWidth ->
  finitePos containerHeight ->
  let rects := squarify items containerWidth containerHeight in
  List.length rects = List.length items
  /\ Forall nonNegative rects
  /\ (totalArea rects =~= containerWidth * containerHeight)%num.
Proof.
  intros Hne Hall HW HH.
  destruct (finitePos_inv _ HW) as [cw [-> Hcw]].
  destruct (finitePos_inv _ HH) as [ch [-> Hch]].
  unfold squarify.
  replace (List.length items =? 0)%nat with false
    by (destruct items; [congruence | reflexivity]).
  rewrite (leb_Fin_false cw 0 Hcw), (leb_Fin_false ch 0 Hch). cbn [orb].
  destruct (totalWeight_finite items Hall 0%Q) as [tw [-> Htw]].
  assert (Hpos : (0 < tw)%Q).
  { rewrite Htw. destruct items as [|item rest]; [congruence|].
    inversion Hall as [|? ? Hw Hrest]; subst.
    destruct (finitePos_inv _ Hw) as [wq [Hweight Hwq]].
    pose proof (weightSum_nonneg rest Hrest).
    cbn [weightSum fold_right]. fold (weightSum rest). rewrite Hweight. cbn [toQ]. lra. }
  rewrite (leb_Fin_false tw 0 Hpos).
  destruct (layoutLoop_tiles items Hne Hall 0%nat
              (mkCursor (Fin 0) (Fin 0) (Fin cw) (Fin ch) (Fin tw)
                 (Fin cw >=? Fin ch)%num)
              [] cw ch tw eq_refl eq_refl eq_refl)
    as [new [Hrun [Hlen [Hnn Harea]]]]; try lra.
  cbv zeta. rewrite Hrun. cbn [app mul]. auto.
Qed.

Lemma squarify_tiles_witness :
  let rects := squarify sampleItems (Fin 600) (Fin 400) in
  List.length rects = List.length sampleItems
  /\ Forall nonNegative rects
  /\ (totalArea rects =~= Fin 600 * Fin 400)%num.
Proof.
  apply (squarify_tiles sampleItems (Fin 600) (Fin 400)).
  - discriminate.
  - repeat constructor.
  - reflexivity.
  - reflexivity.
Defined.

(** ** Correlation *)

Import Correlation CorrelationSpec.

(** ** Doubles

    What the proofs below need of binary64 arithmetic, from the specification
    of the operations in [FloatAxioms]. *)

Section Doubles.

Local Open Scope float_scope.

Lemma float_mul_comm (x y : float) : x * y = y * x.
Proof.
  apply Prim2SF_inj. rewrite !FloatAxioms.mul_spec. unfold SF64mul.
  destruct (Prim2SF x) as [sx|sx| |sx mx ex], (Prim2SF y) as [sy|sy| |sy my ey];
    cbn [SFmul]; try reflexivity; try (now rewrite xorb_comm).
  now rewrite xorb_comm, Pos.mul_comm, Z.add_comm.
Qed.



Lemma float_zero_inv x : (x =? 0) = true -> exists s, Prim2SF x = S754_zero s.
Proof.
  rewrite FloatAxioms.eqb_spec.
  destruct (Prim2SF x) as [s|s| |s m e]; cbn; try discriminate; eauto.
  - destruct s; discriminate.
  - destruct s; discriminate.
Qed.

Lemma float_finite_inv x :
  is_finite x = true ->
  (exists s, Prim2SF x = S754_zero s)
  \/ (exists s m e, Prim2SF x = S754_finite s m e).
Proof.
  unfold is_finite, is_nan, is_infinity. rewrite !FloatAxioms.eqb_spec, FloatAxioms.abs_spec.
  destruct (Prim2SF x) as [s|s| |s m e]; cbn; try discriminate.
  - intros _. left. now exists s.
  - destruct s; discriminate.
  - intros _. right. now exists s, m, e.
Qed.

(** The product of a zero and a finite double is a zero, and so is its square
    root: the code's test [denominator === 0] then holds. *)
Lemma float_zero_denominator x y :
  (x =? 0) = true -> is_finite y = true ->
  (PrimFloat.sqrt (x * y) =? 0) = true.
Proof.
  intros Hx Hy. destruct (float_zero_inv x Hx) as [sx Ex].
  rewrite FloatAxioms.eqb_spec, FloatAxioms.sqrt_spec, FloatAxioms.mul_spec, Ex.
  destruct (float_finite_inv y Hy) as [[sy Ey] | [sy [my [ey Ey]]]];
    rewrite Ey; reflexivity.
Qed.

(** A zero squared is the positive zero. *)
Lemma float_zero_square x : (x =? 0) = true -> x * x = 0.
Proof.
  intros Hx. destruct (float_zero_inv x Hx) as [s E].
  apply Prim2SF_inj. rewrite FloatAxioms.mul_spec, E. now destruct s.
Qed.

(** The difference of two equal finite doubles is a zero. *)
Lemma float_sub_equal c m :
  is_finite c = true -> (m =? c) = true -> (c - m =? 0) = true.
Proof.
  intros Hc Hm. rewrite FloatAxioms.eqb_spec in Hm.
  destruct (float_finite_inv c Hc) as [[sc Ec] | [sc [mc [ec Ec]]]];
    rewrite Ec in Hm.
  - destruct (Prim2SF m) as [sm|sm| |sm mm em] eqn:Em; cbn in Hm;
      try discriminate; try (destruct sm; discriminate).
    rewrite FloatAxioms.eqb_spec, FloatAxioms.sub_spec, Ec, Em. now destruct sc, sm.
  - destruct (Prim2SF m) as [sm|sm| |sm mm em] eqn:Em; cbn in Hm;
      try discriminate; try (destruct sm; discriminate);
      try (destruct sc; discriminate).
    assert (Hsame : sm = sc /\ mm = mc /\ em = ec).
    { destruct sm, sc; try discriminate;
        destruct (Z.compare em ec) eqn:Hz; try discriminate;
        apply Z.compare_eq in Hz;
        destruct (Pos.compare_cont Eq mm mc) eqn:Hp; try discriminate;
        apply Pos.compare_eq in Hp; auto. }
    destruct Hsame as [-> [-> ->]].
    rewrite FloatAxioms.eqb_spec, FloatAxioms.sub_spec, Ec, Em. unfold SF64sub. cbn [SFsub].
    rewrite Z.sub_diag. reflexivity.
Qed.

End Doubles.

Section CorrelationFacts.

Local Open Scope float_scope.

(** Exchanging the two series exchanges the two sums of squares. *)
Lemma sumLoop_swap aSlice bSlice meanA meanB k :
  forall i numerator denomA denomB,
    sumLoop bSlice aSlice meanB meanA k i (numerator, denomB, denomA)
    = let '(x, y, z) :=
        sumLoop aSlice bSlice meanA meanB k i (numerator, denomA, denomB) in
      (x, z, y).
Proof.
  induction k as [|k IH]; intros i numerator denomA denomB; [reflexivity|].
  cbn [sumLoop]. rewrite <- IH.
  now rewrite (float_mul_comm (nth i bSlice nan - meanB)).
Qed.

Lemma accumulators_swap a b :
  accumulators b a = let '(x, y, z) := accumulators a b in (x, z, y).
Proof.
  unfold accumulators. rewrite (Nat.min_comm (List.length b)).
  apply sumLoop_swap.
Qed.

Lemma calculateCorrelation_accumulators a b :
  calculateCorrelation a b
  = if (Nat.min (List.length a) (List.length b) <? 5)%nat then 0
    else let '(numerator, denomA, denomB) := accumulators a b in
         if PrimFloat.sqrt (denomA * denomB) =? 0 then 0
         else numerator / PrimFloat.sqrt (denomA * denomB).
Proof. reflexivity. Qed.

Lemma calculateCorrelation_comm a b :
  calculateCorrelation a b = calculateCorrelation b a.
Proof.
  rewrite !calculateCorrelation_accumulators.
  rewrite (Nat.min_comm (List.length b)), (accumulators_swap a b).
  destruct (accumulators a b) as [[numerator denomA] denomB].
  now rewrite (float_mul_comm denomB denomA).
Qed.







End CorrelationFacts.

Section CorrelationDegenerate.

Local Open Scope float_scope.

Lemma slice_length (l : list float) (n : nat) :
  (0 < n <= List.length l)%nat ->
  List.length (slice (- Z.of_nat n) None l) = n.
Proof. intros H. rewrite slice_last by lia. rewrite length_skipn. lia. Qed.

(** While every deviation of the first series is a zero, its sum of squares
    stays at 0. *)
Lemma sumLoop_zero_left aSlice bSlice meanA meanB k :
  forall i numerator denomB,
    (forall j, (i <= j < i + k)%nat -> (nth j aSlice nan - meanA =? 0) = true) ->
    exists numerator' denomB',
      sumLoop aSlice bSlice meanA meanB k i (numerator, 0, denomB)
      = (numerator', 0, denomB').
Proof.
  induction k as [|k IH]; intros i numerator denomB Hz; [simpl; eauto|].
  cbn [sumLoop]. rewrite (float_zero_square _ (Hz i ltac:(lia))).
  change (0 + 0) with 0.
  apply IH. intros j Hj. apply Hz. lia.
Qed.

Lemma constantAtMean_sumSquares a b :
  let n := Nat.min (List.length a) (List.length b) in
  (5 <= n)%nat ->
  constantAtMean (slice (- Z.of_nat n) None a) ->
  sumSquaresA a b = 0.
Proof.
  intros n Hn [c [Hfin [Hc Hmean]]].
  unfold sumSquaresA, accumulators. fold n.
  assert (Hlen : List.length (slice (- Z.of_nat n) None a) = n)
    by (apply slice_length; unfold n in *; lia).
  unfold mean in Hmean. rewrite Hlen in Hmean.
  destruct (sumLoop_zero_left (slice (- Z.of_nat n) None a)
              (slice (- Z.of_nat n) None b)
              (fold_left (fun s v => s + v) (slice (- Z.of_nat n) None a) 0 / ofLength n)
              (fold_left (fun s v => s + v) (slice (- Z.of_nat n) None b) 0 / ofLength n)
              n 0%nat 0 0) as [numerator' [denomB' ->]]; [|reflexivity].
  intros j Hj. rewrite (Hc (nth j _ nan)) by (apply nth_In; lia).
  now apply float_sub_equal.
Qed.

Lemma calculateCorrelation_zero_left a b :
  (sumSquaresA a b =? 0) = true -> is_finite (sumSquaresB a b) = true ->
  calculateCorrelation a b = 0.
Proof.
  intros Hz Hfin. rewrite calculateCorrelation_accumulators.
  destruct (Nat.min (List.length a) (List.length b) <? 5)%nat; [reflexivity|].
  unfold sumSquaresA, sumSquaresB in *.
  destruct (accumulators a b) as [[numerator denomA] denomB]. cbn [fst snd] in *.
  now rewrite float_zero_denominator.
Qed.

(** C9.  [calculateCorrelation] returns exactly 0 when the two series share
    fewer than 5 points, when the computed denominator
    [sqrt (denomA * denomB)] is a zero, and in particular when one truncated
    series is constant at a finite value that its computed mean reproduces
    while the sum of squared deviations of the other is finite. *)
Theorem calculateCorrelation_degenerate a b :
  let n := Nat.min (List.length a) (List.length b) in
  (n < 5)%nat
  \/ (PrimFloat.sqrt (sumSquaresA a b * sumSquaresB a b) =? 0) = true
  \/ (constantAtMean (slice (- Z.of_nat n) None a)
      /\ is_finite (sumSquaresB a b) = true)
  \/ (constantAtMean (slice (- Z.of_nat n) None b)
      /\ is_finite (sumSquaresA a b) = true) ->
  calculateCorrelation a b = 0.
Proof.
  intros n H.
  destruct (Nat.ltb_spec n 5) as [Hlt|Hge].
  { rewrite calculateCorrelation_accumulators. fold n.
    now replace (n <? 5)%nat with true by (symmetry; apply Nat.ltb_lt; exact Hlt). }
  destruct H as [Hn | [Hd | [[Hc Hf] | [Hc Hf]]]].
  - lia.
  - rewrite calculateCorrelation_accumulators. fold n.
    replace (n <? 5)%nat with false by (symmetry; apply Nat.ltb_ge; exact Hge).
    unfold sumSquaresA, sumSquaresB in Hd.
    destruct (accumulators a b) as [[numerator denomA] denomB]. cbn [fst snd] in Hd.
    now rewrite Hd.
  - apply calculateCorrelation_zero_left; [|assumption].
    now rewrite (constantAtMean_sumSquares a b Hge Hc).
  - rewrite calculateCorrelation_comm.
    assert (Hswap : sumSquaresA b a = sumSquaresB a b /\ sumSquaresB b a = sumSquaresA a b).
    { unfold sumSquaresA, sumSquaresB. rewrite (accumulators_swap a b).
      now destruct (accumulators a b) as [[x y] z]. }
    destruct Hswap as [HA HB].
    apply calculateCorrelation_zero_left.
    + rewrite (constantAtMean_sumSquares b a); [reflexivity| |].
      * now rewrite Nat.min_comm.
      * now rewrite Nat.min_comm.
    + now rewrite HB.
Qed.

Lemma calculateCorrelation_degenerate_witness :
  calculateCorrelation [1; 2; 3; 4] [4; 3; 2; 1; 0] = 0
  /\ calculateCorrelation [9; 2; 2; 2; 2; 2] [1; 2; 3; 4; 5] = 0.
Proof.
  split.
  - apply (calculateCorrelation_degenerate [1; 2; 3; 4] [4; 3; 2; 1; 0]).
    left. simpl. lia.
  - apply (calculateCorrelation_degenerate [9; 2; 2; 2; 2; 2] [1; 2; 3; 4; 5]).
    right. right. left. split.
    + exists 2. split; [reflexivity|]. split; [|reflexivity].
      intros x Hx. vm_compute in Hx.
      repeat (destruct Hx as [Hx|Hx]); subst; try reflexivity; contradiction.
    + vm_compute. reflexivity.
Defined.

Lemma constant_tenths : constant tenths.
Proof.
  intros x y Hx Hy. vm_compute in Hx, Hy.
  repeat (destruct Hx as [Hx|Hx]); repeat (destruct Hy as [Hy|Hy]);
    subst; try reflexivity; contradiction.
Qed.

Lemma constant_ones : constant ones.
Proof.
  intros x y Hx Hy. vm_compute in Hx, Hy.
  repeat (destruct Hx as [Hx|Hx]); repeat (destruct Hy as [Hy|Hy]);
    subst; try reflexivity; contradiction.
Qed.

(** C9, as stated, fails.  Six values 0.1 are a constant series, of zero
    variance, but their computed mean is 0.09999999999999999: the deviations
    are not zero, and the code returns 1 for the series against itself and a
    non-zero value against [1, 2, 3, 4, 5, 7].  Five values 1 have all their
    deviations zero, but against [1e200, -1e200, 0, 0, 0] the other sum of
    squares overflows and the result is NaN. *)
Lemma calculateCorrelation_degenerate_counterexample :
  constant tenths
  /\ (5 <= Nat.min (List.length tenths) (List.length tenths))%nat
  /\ calculateCorrelation tenths tenths = 1
  /\ (calculateCorrelation tenths [1; 2; 3; 4; 5; 7] =? 0) = false
  /\ constant ones
  /\ is_nan (calculateCorrelation ones spread) = true.
Proof.
  split; [exact constant_tenths|].
  split; [simpl; lia|].
  split; [vm_compute; reflexivity|].
  split; [vm_compute; reflexivity|].
  split; [exact constant_ones | vm_compute; reflexivity].
Qed.

End CorrelationDegenerate.


(* ================================================================== *)
(** * Further properties of the code *)
(* ================================================================== *)

(** ** Candlestick patterns: what a match looks like *)

Import CandlePatterns CandleSpec CandleCatalogue.

Section Shapes.

Local Open Scope string_scope.

Ltac solve_shape d :=
  intros H; unfold d in H;
  repeat match type of H with
         | context [if ?c then _ else _] => destruct c
         end;
  inversion H; subst; repeat split.

Lemma detectDoji_shape c a p : detectDoji c a = Some p -> wellFormed 0 p.
Proof. solve_shape detectDoji. Qed.
Lemma detectHammer_shape c a p : detectHammer c a = Some p -> wellFormed 1 p.
Proof. solve_shape detectHammer. Qed.
Lemma detectShootingStar_shape c a p :
  detectShootingStar c a = Some p -> wellFormed 2 p.
Proof. solve_shape detectShootingStar. Qed.
Lemma detectMarubozu_shape c a p : detectMarubozu c a = Some p -> wellFormed 3 p.
Proof. solve_shape detectMarubozu. Qed.
Lemma detectEngulfing_shape q c a p :
  detectEngulfing q c a = Some p -> wellFormed 4 p.
Proof. solve_shape detectEngulfing. Qed.
Lemma detectPiercing_shape q c p : detectPiercing q c = Some p -> wellFormed 5 p.
Proof. solve_shape detectPiercing. Qed.
Lemma detectDarkCloud_shape q c p : detectDarkCloud q c = Some p -> wellFormed 6 p.
Proof. solve_shape detectDarkCloud. Qed.

Ltac solve_shape3 d :=
  intros H; unfold d in H;
  destruct (_ <? 2)%nat in H; [inversion H|];
  match type of H with
  | bind ?r _ = _ =>
      destruct r as [[|]|]; cbn [bind] in H; inversion H; subst; repeat split
  end.

Lemma detectMorningStar_shape data i a p :
  detectMorningStar data i a = Ok (Some p) -> wellFormed 7 p.
Proof. solve_shape3 detectMorningStar. Qed.
Lemma detectEveningStar_shape data i a p :
  detectEveningStar data i a = Ok (Some p) -> wellFormed 8 p.
Proof. solve_shape3 detectEveningStar. Qed.
Lemma detectThreeWhiteSoldiers_shape data i a p :
  detectThreeWhiteSoldiers data i a = Ok (Some p) -> wellFormed 9 p.
Proof. solve_shape3 detectThreeWhiteSoldiers. Qed.
Lemma detectThreeBlackCrows_shape data i a p :
  detectThreeBlackCrows data i a = Ok (Some p) -> wellFormed 10 p.
Proof. solve_shape3 detectThreeBlackCrows. Qed.

Lemma ranked_nil lo hi : ranked lo hi [].
Proof. split; constructor. Qed.

Lemma ranked_opt k (o : option CandlePattern) :
  (forall p, o = Some p -> wellFormed k p) -> ranked k (S k) (opt_list o).
Proof.
  intros H. destruct o as [p|]; [|apply ranked_nil].
  destruct (H p eq_refl) as [Hk [Hs _]].
  split; [repeat constructor|].
  constructor; [split; [lia | assumption] | constructor].
Qed.

Lemma ranked_ok k (r : result (option CandlePattern)) :
  (forall p, r = Ok (Some p) -> wellFormed k p) -> ranked k (S k) (ok_list r).
Proof.
  intros H. destruct r as [[p|]|]; try apply ranked_nil.
  destruct (H p eq_refl) as [Hk [Hs _]].
  split; [repeat constructor|].
  constructor; [split; [lia | assumption] | constructor].
Qed.

Lemma ranked_app lo mid hi l1 l2 :
  ranked lo mid l1 -> ranked mid hi l2 -> (lo <= mid <= hi)%nat ->
  ranked lo hi (l1 ++ l2).
Proof.
  intros [Hs1 Hf1] [Hs2 Hf2] Hle. split.
  - apply StronglySorted_app_intro; try assumption.
    intros x y Hx Hy. rewrite Forall_forall in Hf1, Hf2.
    destruct (Hf1 x Hx) as [? _]. destruct (Hf2 y Hy) as [? _]. lia.
  - apply Forall_app. split.
    + eapply Forall_impl; [|exact Hf1]. simpl. intros p [? ?]. split; [lia|assumption].
    + eapply Forall_impl; [|exact Hf2]. simpl. intros p [? ?]. split; [lia|assumption].
Qed.

(** The shapes found at one position come in the order of the detectors, at
    most one per detector, each with the type and reliability of its name. *)
Lemma shapesAt_ranked recentData avgBody i :
  ranked 0 11 (shapesAt recentData avgBody i).
Proof.
  unfold shapesAt. destruct (nth_error recentData i) as [candle|]; [|apply ranked_nil].
  apply (ranked_app 0 4 11); [| |lia].
  - apply (ranked_app 0 1 4); [apply ranked_opt, detectDoji_shape| |lia].
    apply (ranked_app 1 2 4); [apply ranked_opt, detectHammer_shape| |lia].
    apply (ranked_app 2 3 4); [apply ranked_opt, detectShootingStar_shape| |lia].
    apply ranked_opt, detectMarubozu_shape.
  - apply (ranked_app 4 7 11); [| |lia].
    + destruct i as [|j]; [apply ranked_nil|].
      destruct (nth_error recentData j) as [prev|]; [|apply ranked_nil].
      apply (ranked_app 4 5 7); [apply ranked_opt, detectEngulfing_shape| |lia].
      apply (ranked_app 5 6 7); [apply ranked_opt, detectPiercing_shape| |lia].
      apply ranked_opt, detectDarkCloud_shape.
    + destruct (2 <=? i)%nat; [|apply ranked_nil].
      apply (ranked_app 7 8 11); [apply ranked_ok, detectMorningStar_shape| |lia].
      apply (ranked_app 8 9 11); [apply ranked_ok, detectEveningStar_shape| |lia].
      apply (ranked_app 9 10 11); [apply ranked_ok, detectThreeWhiteSoldiers_shape| |lia].
      apply ranked_ok, detectThreeBlackCrows_shape.
Qed.

End Shapes.

Lemma In_detected data lookback ps p :
  detectCandlePatterns data lookback = Ok ps -> In p ps ->
  exists i s,
    (i < List.length (window data lookback))%nat
    /\ In s (shapesAt (window data lookback) (averageBody (window data lookback)) i)
    /\ p = setIndex (Z.of_nat (List.length data) - lookback + Z.of_nat i) s.
Proof.
  intros Hrun Hin. rewrite detectCandlePatterns_spec in Hrun. injection Hrun as <-.
  apply (In_slice_last _ 10%nat) in Hin; [|lia].
  apply allMatches_inv in Hin. destruct Hin as [i [Hi Hp]].
  unfold matchesAt in Hp. apply in_map_iff in Hp. destruct Hp as [s [<- Hs]].
  eauto.
Qed.

Lemma kindOf_never_low n t r : kindOf n = Some (t, r) -> r <> rel_low.
Proof.
  unfold kindOf.
  repeat match goal with
         | |- context [if ?c then _ else _] => destruct c
         end; intros H; inversion H; discriminate.
Qed.

(** X1.  The name of a returned pattern fixes its type and reliability, as in
    the catalogue of the fifteen names; no returned pattern has reliability
    [low]. *)
Theorem detectCandlePatterns_kind data lookback ps p :
  detectCandlePatterns data lookback = Ok ps ->
  In p ps ->
  kindOf (name p) = Some (type p, reliability p) /\ reliability p <> rel_low.
Proof.
  intros Hrun Hin.
  destruct (In_detected _ _ _ _ Hrun Hin) as [i [s [_ [Hs ->]]]].
  destruct (shapesAt_ranked (window data lookback)
              (averageBody (window data lookback)) i) as [_ Hf].
  rewrite Forall_forall in Hf. destruct (Hf s Hs) as [_ Hk].
  cbn [setIndex name type reliability]. split; [assumption|].
  eapply kindOf_never_low; eassumption.
Qed.

Lemma detectCandlePatterns_kind_witness :
  kindOf (name (morningStarAt (-45)))
  = Some (type (morningStarAt (-45)), reliability (morningStarAt (-45)))
  /\ reliability (morningStarAt (-45)) <> rel_low.
Proof.
  apply (detectCandlePatterns_kind morningStar3 50 [morningStarAt (-45)]).
  - vm_compute. reflexivity.
  - simpl. left. reflexivity.
Defined.

(** ** Candlestick patterns: no match is reported twice *)

Lemma keyLt_irrefl k : ~ keyLt k k.
Proof. unfold keyLt. lia. Qed.

Lemma StronglySorted_NoDup {A : Type} (R : A -> A -> Prop) (l : list A) :
  (forall x, ~ R x x) -> StronglySorted R l -> NoDup l.
Proof.
  intros Hirr. induction 1 as [|a l Hs IH Hf]; constructor; [|assumption].
  intros Hin. rewrite Forall_forall in Hf. exact (Hirr a (Hf a Hin)).
Qed.

Lemma matchesAt_keys data lookback i :
  StronglySorted keyLt (map scanKey (matchesAt data lookback i))
  /\ Forall (fun k => fst k = Z.of_nat (List.length data) - lookback + Z.of_nat i)
       (map scanKey (matchesAt data lookback i)).
Proof.
  unfold matchesAt.
  destruct (shapesAt_ranked (window data lookback)
              (averageBody (window data lookback)) i) as [Hs _].
  induction Hs as [|s l Hs IH Hf]; [split; constructor|].
  destruct IH as [IHs IHf]. cbn [map]. split.
  - constructor; [assumption|].
    rewrite Forall_forall in *. intros k Hk.
    apply in_map_iff in Hk. destruct Hk as [q [<- Hq]].
    apply in_map_iff in Hq. destruct Hq as [t [<- Ht]].
    right. cbn. split; [reflexivity | now apply Hf].
  - constructor; [reflexivity | assumption].
Qed.

Lemma scan_keys_sorted data lookback n :
  forall i,
    StronglySorted keyLt
      (map scanKey (flat_map (matchesAt data lookback) (seq i n)))
    /\ Forall (fun k => Z.of_nat (List.length data) - lookback + Z.of_nat i <= fst k)
         (map scanKey (flat_map (matchesAt data lookback) (seq i n))).
Proof.
  induction n as [|n IH]; intros i; [split; constructor|].
  cbn [seq flat_map]. rewrite map_app.
  destruct (IH (S i)) as [Hs Hlow].
  destruct (matchesAt_keys data lookback i) as [Hb Hi].
  split.
  - apply StronglySorted_app_intro; try assumption.
    intros x y Hx Hy. rewrite Forall_forall in Hi, Hlow.
    specialize (Hi x Hx). specialize (Hlow y Hy). left. lia.
  - apply Forall_app. split.
    + eapply Forall_impl; [|exact Hi]. simpl. intros; lia.
    + eapply Forall_impl; [|exact Hlow]. simpl. intros; lia.
Qed.

Lemma allMatches_NoDup data lookback :
  NoDup (map scanKey (allMatches data lookback)).
Proof.
  apply (StronglySorted_NoDup keyLt); [apply keyLt_irrefl|].
  unfold allMatches. destruct (List.length data <? 3)%nat; [constructor|].
  apply scan_keys_sorted.
Qed.

Lemma NoDup_app_tail {A : Type} (l1 l2 : list A) : NoDup (l1 ++ l2) -> NoDup l2.
Proof.
  induction l1 as [|a l1 IH]; [auto|]. simpl. intros H. inversion H; auto.
Qed.

(** X2.  No two patterns returned by [detectCandlePatterns] have the same name
    and the same index; more precisely each detector contributes at most one
    pattern per index. *)
Theorem detectCandlePatterns_NoDup data lookback ps :
  detectCandlePatterns data lookback = Ok ps ->
  NoDup (map scanKey ps) /\ NoDup (map (fun p => (name p, index p)) ps).
Proof.
  intros Hrun. rewrite detectCandlePatterns_spec in Hrun. injection Hrun as <-.
  assert (Hkeys : NoDup (map scanKey (slice (-10) None (allMatches data lookback)))).
  { pose proof (allMatches_NoDup data lookback) as H.
    rewrite (slice_last_split (allMatches data lookback) 10 ltac:(lia)) in H.
    rewrite map_app in H. exact (NoDup_app_tail _ _ H). }
  split; [assumption|].
  apply (NoDup_map_inv (fun q : string * Z => (snd q, slotOf (fst q)))).
  rewrite map_map. exact Hkeys.
Qed.

Lemma detectCandlePatterns_NoDup_witness :
  NoDup (map scanKey [morningStarAt (-45)])
  /\ NoDup (map (fun p => (name p, index p)) [morningStarAt (-45)]).
Proof.
  apply (detectCandlePatterns_NoDup morningStar3 50). vm_compute. reflexivity.
Defined.

(** X3.  When the lookback is between 1 and the number of candles, every
    returned index is the position of the candle at which the match ends, and
    lies among the last [lookback] positions of the series. *)
Theorem detectCandlePatterns_index_recent data lookback ps p :
  1 <= lookback <= Z.of_nat (List.length data) ->
  detectCandlePatterns data lookback = Ok ps ->
  In p ps ->
  matchEndsAt data lookback p (index p)
  /\ Z.of_nat (List.length data) - lookback <= index p
     < Z.of_nat (List.length data).
Proof.
  intros Hlb Hrun Hin.
  pose proof (index_offset data lookback ps p Hrun Hin) as H.
  rewrite window_length_in_range in H by assumption.
  replace (index p + (lookback - lookback)) with (index p) in H by lia.
  split; [assumption|].
  destruct H as [i [Hi [Hpos _]]].
  pose proof (window_length_in_range data lookback Hlb).
  unfold windowStart in Hpos. lia.
Qed.

Lemma detectCandlePatterns_index_recent_witness :
  matchEndsAt morningStar3 3 (morningStarAt 2) (index (morningStarAt 2))
  /\ Z.of_nat (List.length morningStar3) - 3 <= index (morningStarAt 2)
     < Z.of_nat (List.length morningStar3).
Proof.
  apply (detectCandlePatterns_index_recent morningStar3 3 [morningStarAt 2]).
  - simpl. lia.
  - vm_compute. reflexivity.
  - simpl. left. reflexivity.
Defined.

(** ** Candlestick patterns: opposite shapes exclude each other *)

Section Exclusive.

Local Open Scope string_scope.

Lemma andR_true a b : a &&& b = Ok true -> a = Ok true /\ b = Ok true.
Proof. destruct a as [[|]|]; simpl; intros H; try discriminate; auto. Qed.

Lemma bearish_not_bullish c : isBearish c = true -> isBullish c = true -> False.
Proof.
  unfold isBearish, isBullish, ltb, gtb.
  destruct (cmp (close c) (open c)) as [[| |]|]; discriminate.
Qed.

Lemma field_true {A : Type} (f : A -> bool) (o : option A) :
  field f o = Ok true -> exists a, o = Some a /\ f a = true.
Proof. destruct o; simpl; intros H; inversion H; eauto. Qed.

Ltac split_chain H :=
  repeat match type of H with
         | _ &&& _ = Ok true =>
             let H' := fresh "Hc" in apply andR_true in H; destruct H as [H H']
         end.

Ltac open_detector3 d H :=
  unfold d in H;
  destruct (_ <? 2)%nat in H; [inversion H|];
  match type of H with
  | bind ?r _ = _ =>
      let E := fresh "E" in
      destruct r as [[|]|] eqn:E; cbn [bind] in H; try discriminate; clear H;
      split_chain E
  end.

Lemma detectMorningStar_first data i a p :
  detectMorningStar data i a = Ok (Some p) ->
  exists first, nth_error data (i - 2) = Some first /\ isBearish first = true.
Proof. intros H. open_detector3 detectMorningStar H. now apply field_true in E. Qed.

Lemma detectEveningStar_first data i a p :
  detectEveningStar data i a = Ok (Some p) ->
  exists first, nth_error data (i - 2) = Some first /\ isBullish first = true.
Proof. intros H. open_detector3 detectEveningStar H. now apply field_true in E. Qed.

Lemma detectThreeWhiteSoldiers_first data i a p :
  detectThreeWhiteSoldiers data i a = Ok (Some p) ->
  exists first, nth_error data (i - 2) = Some first /\ isBullish first = true.
Proof.
  intros H. open_detector3 detectThreeWhiteSoldiers H.
  cbn [every] in E. split_chain E. apply field_true in E.
  destruct E as [c [Hget Hb]]. apply andb_prop in Hb. exists c. tauto.
Qed.

Lemma detectThreeBlackCrows_first data i a p :
  detectThreeBlackCrows data i a = Ok (Some p) ->
  exists first, nth_error data (i - 2) = Some first /\ isBearish first = true.
Proof.
  intros H. open_detector3 detectThreeBlackCrows H.
  cbn [every] in E. split_chain E. apply field_true in E.
  destruct E as [c [Hget Hb]]. apply andb_prop in Hb. exists c. tauto.
Qed.

Lemma detectPiercing_prev prev curr p :
  detectPiercing prev curr = Some p -> isBearish prev = true.
Proof.
  unfold detectPiercing. destruct (isBearish prev); [reflexivity|]. discriminate.
Qed.

Lemma detectDarkCloud_prev prev curr p :
  detectDarkCloud prev curr = Some p -> isBullish prev = true.
Proof.
  unfold detectDarkCloud. destruct (isBullish prev); [reflexivity|]. discriminate.
Qed.

(** Which detector a shape of a given rank comes from. *)
Lemma shapesAt_origin recentData avgBody i s :
  In s (shapesAt recentData avgBody i) ->
  (slotOf (name s) = 7%nat -> detectMorningStar recentData i avgBody = Ok (Some s))
  /\ (slotOf (name s) = 8%nat -> detectEveningStar recentData i avgBody = Ok (Some s))
  /\ (slotOf (name s) = 9%nat ->
      detectThreeWhiteSoldiers recentData i avgBody = Ok (Some s))
  /\ (slotOf (name s) = 10%nat ->
      detectThreeBlackCrows recentData i avgBody = Ok (Some s))
  /\ (slotOf (name s) = 5%nat ->
      exists prev curr, nth_error recentData (i - 1) = Some prev
                        /\ detectPiercing prev curr = Some s)
  /\ (slotOf (name s) = 6%nat ->
      exists prev curr, nth_error recentData (i - 1) = Some prev
                        /\ detectDarkCloud prev curr = Some s).
Proof.
  unfold shapesAt. destruct (nth_error recentData i) as [candle|]; [|simpl; tauto].
  rewrite !in_app_iff. intros H.
  assert (Hcase :
    (exists k, wellFormed k s /\ (k < 4)%nat)
    \/ (exists j prev, i = S j /\ nth_error recentData j = Some prev
          /\ (detectEngulfing prev candle avgBody = Some s
              \/ detectPiercing prev candle = Some s
              \/ detectDarkCloud prev candle = Some s))
    \/ detectMorningStar recentData i avgBody = Ok (Some s)
    \/ detectEveningStar recentData i avgBody = Ok (Some s)
    \/ detectThreeWhiteSoldiers recentData i avgBody = Ok (Some s)
    \/ detectThreeBlackCrows recentData i avgBody = Ok (Some s)).
  { destruct H as [[H|[H|[H|H]]]|[H|H]].
    - left. exists 0%nat. apply In_opt_list in H. split; [eapply detectDoji_shape; eauto|lia].
    - left. exists 1%nat. apply In_opt_list in H. split; [eapply detectHammer_shape; eauto|lia].
    - left. exists 2%nat. apply In_opt_list in H.
      split; [eapply detectShootingStar_shape; eauto|lia].
    - left. exists 3%nat. apply In_opt_list in H.
      split; [eapply detectMarubozu_shape; eauto|lia].
    - right. left. destruct i as [|j]; [destruct H|].
      destruct (nth_error recentData j) as [prev|] eqn:Hp; [|destruct H].
      exists j, prev. repeat split; auto.
      rewrite !in_app_iff in H.
      destruct H as [H|[H|H]]; apply In_opt_list in H; auto.
    - right. right. destruct (2 <=? i)%nat; [|destruct H].
      rewrite !in_app_iff in H.
      destruct H as [H|[H|[H|H]]]; apply In_ok_list in H; auto. }
  destruct Hcase as [[k [[_ [Hk _]] Hlt]] | [[j [prev [-> [Hp Hd]]]] | Hd]].
  - repeat split; intros E; rewrite E in Hk; lia.
  - replace (S j - 1)%nat with j by lia.
    destruct Hd as [Hd|[Hd|Hd]].
    + destruct (detectEngulfing_shape _ _ _ _ Hd) as [_ [Hk _]].
      repeat split; intros E; rewrite E in Hk; discriminate.
    + destruct (detectPiercing_shape _ _ _ Hd) as [_ [Hk _]].
      repeat split; intros E; rewrite E in Hk; try discriminate; eauto.
    + destruct (detectDarkCloud_shape _ _ _ Hd) as [_ [Hk _]].
      repeat split; intros E; rewrite E in Hk; try discriminate; eauto.
  - destruct Hd as [Hd|[Hd|[Hd|Hd]]].
    + destruct (detectMorningStar_shape _ _ _ _ Hd) as [_ [Hk _]].
      repeat split; intros E; rewrite E in Hk; try discriminate; eauto.
    + destruct (detectEveningStar_shape _ _ _ _ Hd) as [_ [Hk _]].
      repeat split; intros E; rewrite E in Hk; try discriminate; eauto.
    + destruct (detectThreeWhiteSoldiers_shape _ _ _ _ Hd) as [_ [Hk _]].
      repeat split; intros E; rewrite E in Hk; try discriminate; eauto.
    + destruct (detectThreeBlackCrows_shape _ _ _ _ Hd) as [_ [Hk _]].
      repeat split; intros E; rewrite E in Hk; try discriminate; eauto.
Qed.

End Exclusive.

(** X4.  At one index [detectCandlePatterns] never returns both a Morning Star
    and an Evening Star, nor both Three White Soldiers and Three Black Crows,
    nor both a Piercing Line and a Dark Cloud Cover. *)
Theorem detectCandlePatterns_exclusive data lookback ps p q :
  detectCandlePatterns data lookback = Ok ps ->
  In p ps -> In q ps ->
  index p = index q ->
  ~ (name p = "Morning Star" /\ name q = "Evening Star")%string
  /\ ~ (name p = "Three White Soldiers" /\ name q = "Three Black Crows")%string
  /\ ~ (name p = "Piercing Line" /\ name q = "Dark Cloud Cover")%string.
Proof.
  intros Hrun Hp Hq Hidx.
  destruct (In_detected _ _ _ _ Hrun Hp) as [i [s [_ [Hs ->]]]].
  destruct (In_detected _ _ _ _ Hrun Hq) as [j [t [_ [Ht ->]]]].
  cbn [setIndex index name] in *.
  assert (j = i) by lia. subst j.
  destruct (shapesAt_origin _ _ _ _ Hs) as [Hm [_ [Hw [_ [Hpi _]]]]].
  destruct (shapesAt_origin _ _ _ _ Ht) as [_ [He [_ [Hc [_ Hdc]]]]].
  repeat split; intros [Es Et].
  - rewrite Es in Hm. rewrite Et in He.
    destruct (detectMorningStar_first _ _ _ _ (Hm eq_refl)) as [c [Hc1 Hb]].
    destruct (detectEveningStar_first _ _ _ _ (He eq_refl)) as [c' [Hc2 Hb']].
    rewrite Hc1 in Hc2. injection Hc2 as <-.
    exact (bearish_not_bullish c Hb Hb').
  - rewrite Es in Hw. rewrite Et in Hc.
    destruct (detectThreeWhiteSoldiers_first _ _ _ _ (Hw eq_refl)) as [c [Hc1 Hb]].
    destruct (detectThreeBlackCrows_first _ _ _ _ (Hc eq_refl)) as [c' [Hc2 Hb']].
    rewrite Hc1 in Hc2. injection Hc2 as <-.
    exact (bearish_not_bullish c Hb' Hb).
  - rewrite Es in Hpi. rewrite Et in Hdc.
    destruct (Hpi eq_refl) as [prev [curr [Hc1 Hd]]].
    destruct (Hdc eq_refl) as [prev' [curr' [Hc2 Hd']]].
    rewrite Hc1 in Hc2. injection Hc2 as <-.
    exact (bearish_not_bullish prev (detectPiercing_prev _ _ _ Hd)
             (detectDarkCloud_prev _ _ _ Hd')).
Qed.

Lemma detectCandlePatterns_exclusive_witness :
  ~ (name (morningStarAt (-45)) = "Morning Star"
     /\ name (morningStarAt (-45)) = "Evening Star")%string
  /\ ~ (name (morningStarAt (-45)) = "Three White Soldiers"
        /\ name (morningStarAt (-45)) = "Three Black Crows")%string
  /\ ~ (name (morningStarAt (-45)) = "Piercing Line"
        /\ name (morningStarAt (-45)) = "Dark Cloud Cover")%string.
Proof.
  apply (detectCandlePatterns_exclusive morningStar3 50 [morningStarAt (-45)]).
  - vm_compute. reflexivity.
  - simpl. left. reflexivity.
  - simpl. left. reflexivity.
  - reflexivity.
Defined.

(** ** Peaks: bounds, plateaus and isolated points *)

Import Divergence DivergenceSpec DivergencePanel.

Lemma findPeaks_short data w :
  (List.length data <= 2 * w)%nat -> findPeaks data w = [].
Proof.
  intros H. unfold findPeaks.
  now replace (List.length data - w - w)%nat with 0%nat by lia.
Qed.

(** X5.  Every peak reported by [findPeaks] lies at least [w] positions from
    both ends of the series and carries the defined value found there; a
    series of at most [2 w] values has no peak. *)
Theorem findPeaks_bounds data w :
  (forall p, In p (findPeaks data w) ->
             (w <= index p < List.length data - w)%nat
             /\ value p = at_ data (index p)
             /\ isNaN (value p) = false)
  /\ ((List.length data <= 2 * w)%nat -> findPeaks data w = []).
Proof.
  split; [|apply findPeaks_short].
  intros p Hp. apply findPeaks_inv in Hp. destruct Hp as [Hi Hp].
  apply peaksAt_inv in Hp. tauto.
Qed.

Lemma findPeaks_bounds_witness :
  ((5 <= index (mkPeak 14 (of_Z 102) high) < List.length samplePrices - 5)%nat
   /\ value (mkPeak 14 (of_Z 102) high)
      = at_ samplePrices (index (mkPeak 14 (of_Z 102) high))
   /\ isNaN (value (mkPeak 14 (of_Z 102) high)) = false)
  /\ findPeaks [of_Z 1; of_Z 3; of_Z 2; of_Z 5] 2 = [].
Proof.
  split.
  - apply (proj1 (findPeaks_bounds samplePrices 5)).
    vm_compute. right. right. left. reflexivity.
  - apply (proj2 (findPeaks_bounds [of_Z 1; of_Z 3; of_Z 2; of_Z 5] 2)).
    simpl. lia.
Defined.

Lemma cmp_Eq_facts a b :
  cmp a b = Some Eq ->
  isNaN a = false /\ isNaN b = false
  /\ (a <? b)%num = false /\ (a >? b)%num = false.
Proof.
  intros H. unfold ltb, gtb. rewrite H.
  destruct a, b; simpl in *; try discriminate; auto.
Qed.

(** X6.  A plateau is not a peak: when another index of the window around
    [i] holds a value equal to [data[i]], [findPeaks] reports [i] neither as
    a high nor as a low. *)
Theorem findPeaks_no_plateau data w i j :
  (w <= i < List.length data - w)%nat ->
  (i - w <= j <= i + w)%nat -> j <> i ->
  cmp (at_ data j) (at_ data i) = Some Eq ->
  ~ reports data w i high /\ ~ reports data w i low.
Proof.
  intros Hi Hj Hne Heq.
  destruct (cmp_Eq_facts _ _ Heq) as [Hnj [Hni [Hlt Hgt]]].
  split; intros H; apply reports_iff in H; try assumption; destruct H as [_ H].
  - apply isHighAt_strict in H; [|lia|assumption].
    specialize (H j Hj Hne Hnj). congruence.
  - apply isLowAt_strict in H; [|lia|assumption].
    specialize (H j Hj Hne Hnj). congruence.
Qed.

Lemma findPeaks_no_plateau_witness :
  ~ reports [of_Z 1; of_Z 3; of_Z 3; of_Z 1] 1 1 high
  /\ ~ reports [of_Z 1; of_Z 3; of_Z 3; of_Z 1] 1 1 low.
Proof.
  apply (findPeaks_no_plateau [of_Z 1; of_Z 3; of_Z 3; of_Z 1] 1 1 2).
  - simpl. lia.
  - lia.
  - lia.
  - reflexivity.
Defined.

(** X7.  An index is reported both as a high and as a low only when every
    other value of its window is undefined. *)
Theorem findPeaks_high_and_low data w i j :
  (w <= i < List.length data - w)%nat ->
  reports data w i high -> reports data w i low ->
  (i - w <= j <= i + w)%nat -> j <> i ->
  isNaN (at_ data j) = true.
Proof.
  intros Hi Hh Hl Hj Hne.
  apply reports_iff in Hh, Hl; try assumption.
  destruct Hh as [Hn Hh]. destruct Hl as [_ Hl].
  apply isHighAt_strict in Hh; [|lia|assumption].
  apply isLowAt_strict in Hl; [|lia|assumption].
  destruct (isNaN (at_ data j)) eqn:E; [reflexivity|].
  specialize (Hh j Hj Hne E). specialize (Hl j Hj Hne E).
  unfold ltb, gtb in *. destruct (cmp (at_ data j) (at_ data i)) as [[| |]|];
    discriminate.
Qed.

Lemma findPeaks_high_and_low_witness :
  isNaN (at_ [NaN; of_Z 7; NaN] 2) = true.
Proof.
  apply (findPeaks_high_and_low [NaN; of_Z 7; NaN] 1 1 2).
  - simpl. lia.
  - vm_compute. left. reflexivity.
  - vm_compute. right. left. reflexivity.
  - lia.
  - lia.
Defined.

(** ** Divergences: where the four points come from *)

Section Origin.

Local Open Scope num_scope.

Lemma bearishStep_origin name lookback maxDistance indHighs ph1 ph2 d :
  In d (bearishStep name lookback maxDistance indHighs ph1 ph2 []) ->
  (Z.of_nat (index ph2) - Z.of_nat (index ph1) <= maxDistance)%Z
  /\ exists ih1 ih2,
       In ih1 indHighs /\ In ih2 indHighs
       /\ near lookback (index ph1) ih1 = true
       /\ near lookback (index ph2) ih2 = true
       /\ d = mkDivergence bearish name (index ph1) (index ph2)
                (value ph1) (value ph2) (value ih1) (value ih2) (strength d).
Proof.
  unfold bearishStep.
  destruct (_ >? _)%Z eqn:Hdist; [simpl; tauto|].
  destruct (value ph2 <=? value ph1); [simpl; tauto|].
  destruct (find _ indHighs) as [ih1|] eqn:F1; [|simpl; tauto].
  destruct (find (near lookback (index ph2)) indHighs) as [ih2|] eqn:F2;
    [|simpl; tauto].
  destruct (value ih2 >=? value ih1); [simpl; tauto|].
  simpl. intros [<-|[]]. split; [lia|].
  apply find_some in F1, F2. exists ih1, ih2. cbn. tauto.
Qed.

Lemma bullishStep_origin name lookback maxDistance indLows pl1 pl2 d :
  In d (bullishStep name lookback maxDistance indLows pl1 pl2 []) ->
  (Z.of_nat (index pl2) - Z.of_nat (index pl1) <= maxDistance)%Z
  /\ exists il1 il2,
       In il1 indLows /\ In il2 indLows
       /\ near lookback (index pl1) il1 = true
       /\ near lookback (index pl2) il2 = true
       /\ d = mkDivergence bullish name (index pl1) (index pl2)
                (value pl1) (value pl2) (value il1) (value il2) (strength d).
Proof.
  unfold bullishStep.
  destruct (_ >? _)%Z eqn:Hdist; [simpl; tauto|].
  destruct (value pl2 >=? value pl1); [simpl; tauto|].
  destruct (find _ indLows) as [il1|] eqn:F1; [|simpl; tauto].
  destruct (find (near lookback (index pl2)) indLows) as [il2|] eqn:F2;
    [|simpl; tauto].
  destruct (value il2 <=? value il1); [simpl; tauto|].
  simpl. intros [<-|[]]. split; [lia|].
  apply find_some in F1, F2. exists il1, il2. cbn. tauto.
Qed.

Lemma peak_reports data lookback t p :
  In p (filter (isType t) (findPeaks data lookback)) ->
  reports data lookback (index p) t
  /\ value p = at_ data (index p)
  /\ (lookback <= index p < List.length data - lookback)%nat.
Proof.
  intros H. apply filter_In in H. destruct H as [Hin Ht].
  pose proof Hin as Hin'. apply findPeaks_inv in Hin'. destruct Hin' as [Hb Hp].
  apply peaksAt_inv in Hp. destruct Hp as [_ [Hv _]].
  unfold reports. destruct p as [i v ty]. cbn in *. subst v.
  unfold isType in Ht. cbn in Ht.
  destruct ty, t; try discriminate; auto.
Qed.

Lemma near_spec lookback center ih :
  near lookback center ih = true ->
  (Z.abs (Z.of_nat (index ih) - Z.of_nat center) <= Z.of_nat lookback + 2)%Z.
Proof. unfold near. intros H. now apply Z.leb_le in H. Qed.

Lemma detectDivergences_origin prices indicatorValues name lookback maxDistance d :
  In d (detectDivergences prices indicatorValues name lookback maxDistance) ->
  indicator d = name
  /\ (Z.of_nat (endIndex d) - Z.of_nat (startIndex d) <= maxDistance)%Z
  /\ (lookback <= startIndex d)%nat
  /\ (endIndex d < List.length prices - lookback)%nat
  /\ madeOf prices indicatorValues lookback
       (match dtype d with bearish => high | bullish => low end) d.
Proof.
  unfold detectDivergences. intros Hd.
  apply pairLoop_inv in Hd; [|intros; apply bullishStep_app].
  destruct Hd as [Hd | [l1 [p1 [p2 [l2 [Heq Hd]]]]]].
  - apply pairLoop_inv in Hd; [|intros; apply bearishStep_app].
    destruct Hd as [[] | [l1 [p1 [p2 [l2 [Heq Hd]]]]]].
    apply bearishStep_origin in Hd.
    destruct Hd as [Hdist [i1 [i2 [Hi1 [Hi2 [Hn1 [Hn2 Hdef]]]]]]].
    assert (Hp1 : In p1 (filter (isType high) (findPeaks prices lookback)))
      by (rewrite Heq; apply in_or_app; right; simpl; auto).
    assert (Hp2 : In p2 (filter (isType high) (findPeaks prices lookback)))
      by (rewrite Heq; apply in_or_app; right; simpl; auto).
    apply peak_reports in Hp1, Hp2, Hi1, Hi2.
    apply near_spec in Hn1, Hn2.
    rewrite Hdef. cbn. repeat split; try tauto; try lia.
    exists (index i1), (index i2). cbn. tauto.
  - apply bullishStep_origin in Hd.
    destruct Hd as [Hdist [i1 [i2 [Hi1 [Hi2 [Hn1 [Hn2 Hdef]]]]]]].
    assert (Hp1 : In p1 (filter (isType low) (findPeaks prices lookback)))
      by (rewrite Heq; apply in_or_app; right; simpl; auto).
    assert (Hp2 : In p2 (filter (isType low) (findPeaks prices lookback)))
      by (rewrite Heq; apply in_or_app; right; simpl; auto).
    apply peak_reports in Hp1, Hp2, Hi1, Hi2.
    apply near_spec in Hn1, Hn2.
    rewrite Hdef. cbn. repeat split; try tauto; try lia.
    exists (index i1), (index i2). cbn. tauto.
Qed.

End Origin.

(** X8.  Every divergence returned by [detectDivergences] is labelled with the
    given indicator name, spans at most [maxDistance] positions between two
    price peaks that lie at least [lookback] positions from both ends of the
    series, and pairs them with two indicator peaks of the same type (highs
    for a bearish divergence, lows for a bullish one), each within
    [lookback + 2] positions of its price peak. *)
Theorem detectDivergences_made_of prices indicatorValues name lookback maxDistance d :
  In d (detectDivergences prices indicatorValues name lookback maxDistance) ->
  indicator d = name
  /\ (Z.of_nat (endIndex d) - Z.of_nat (startIndex d) <= maxDistance)%Z
  /\ (lookback <= startIndex d)%nat
  /\ (endIndex d < List.length prices - lookback)%nat
  /\ madeOf prices indicatorValues lookback
       (match dtype d with bearish => high | bullish => low end) d.
Proof. apply detectDivergences_origin. Qed.

Lemma detectDivergences_made_of_witness :
  indicator sampleDivergence = MACD_name
  /\ (Z.of_nat (endIndex sampleDivergence)
      - Z.of_nat (startIndex sampleDivergence) <= 25)%Z
  /\ (5 <= startIndex sampleDivergence)%nat
  /\ (endIndex sampleDivergence < List.length samplePrices - 5)%nat
  /\ madeOf samplePrices sampleHistogram 5
       (match dtype sampleDivergence with bearish => high | bullish => low end)
       sampleDivergence.
Proof.
  apply (detectDivergences_made_of samplePrices sampleHistogram MACD_name 5 25).
  vm_compute. left. reflexivity.
Defined.

(** ** Divergences: an indicator without a peak *)

Lemma pairLoop_unchanged step :
  (forall p1 p2 acc, step p1 p2 acc = acc) ->
  forall peaks acc, pairLoop step peaks acc = acc.
Proof.
  intros Hstep. induction peaks as [|p1 peaks IH]; intros acc; [reflexivity|].
  destruct peaks as [|p2 rest]; [reflexivity|].
  cbn [pairLoop]. rewrite Hstep. apply IH.
Qed.

Lemma bearishStep_no_peaks name lookback maxDistance ph1 ph2 acc :
  bearishStep name lookback maxDistance [] ph1 ph2 acc = acc.
Proof.
  unfold bearishStep. cbn [find].
  destruct (_ >? _)%Z; [reflexivity|].
  destruct (value ph2 <=? value ph1)%num; reflexivity.
Qed.

Lemma bullishStep_no_peaks name lookback maxDistance pl1 pl2 acc :
  bullishStep name lookback maxDistance [] pl1 pl2 acc = acc.
Proof.
  unfold bullishStep. cbn [find].
  destruct (_ >? _)%Z; [reflexivity|].
  destruct (value pl2 >=? value pl1)%num; reflexivity.
Qed.

Lemma findPeaks_undefined data w :
  (forall j, isNaN (at_ data j) = true) -> findPeaks data w = [].
Proof.
  intros H. rewrite findPeaks_spec.
  induction (seq w (List.length data - w - w)) as [|i l IH]; [reflexivity|].
  cbn [flat_map]. unfold peaksAt at 1. now rewrite H.
Qed.

(** X9.  When the indicator series has no peak (in particular when all its
    values are undefined, or when it has at most [2 * lookback] values),
    [detectDivergences] returns no divergence, whatever the prices. *)
Theorem detectDivergences_no_indicator_peak
  prices indicatorValues name lookback maxDistance :
  findPeaks indicatorValues lookback = []
  \/ (forall j, isNaN (at_ indicatorValues j) = true)
  \/ (List.length indicatorValues <= 2 * lookback)%nat ->
  detectDivergences prices indicatorValues name lookback maxDistance = [].
Proof.
  intros H.
  assert (Hnone : findPeaks indicatorValues lookback = []).
  { destruct H as [H|[H|H]];
      [assumption | now apply findPeaks_undefined | now apply findPeaks_short]. }
  unfold detectDivergences. rewrite Hnone. cbn [filter].
  rewrite (pairLoop_unchanged (bullishStep name lookback maxDistance []))
    by (intros; apply bullishStep_no_peaks).
  apply pairLoop_unchanged. intros; apply bearishStep_no_peaks.
Qed.

Lemma detectDivergences_no_indicator_peak_witness :
  detectDivergences samplePrices (map (fun _ => NaN) samplePrices) RSI_name 5 25
  = [].
Proof.
  apply (detectDivergences_no_indicator_peak samplePrices
           (map (fun _ => NaN) samplePrices) RSI_name 5 25).
  left. vm_compute. reflexivity.
Defined.

(** ** The divergence panel *)

Lemma In_firstn {A : Type} (n : nat) (l : list A) (x : A) :
  In x (firstn n l) -> In x l.
Proof.
  intros H. rewrite <- (firstn_skipn n l). apply in_or_app. now left.
Qed.

Lemma In_DivergenceDetector RSI MACD data d :
  In d (DivergenceDetector RSI MACD data) ->
  exists indicatorValues name,
    In d (detectDivergences (map close data) indicatorValues name 5 25).
Proof.
  unfold DivergenceDetector. destruct (List.length data <? 30)%nat; [intros []|].
  intros H. change 10%Z with (Z.of_nat 10) in H. rewrite slice_first in H.
  apply In_firstn in H.
  apply (Permutation_in _ (sort_perm byRecency _)) in H.
  apply in_app_or in H. destruct H as [H|H]; eauto.
Qed.

(** X10.  Whatever the indicator library computes, every divergence listed by
    the component ends at least 5 candles before the last one (so it is never
    labelled as the current candle), starts at position 5 or later, and spans
    at most 25 candles. *)
Theorem DivergenceDetector_age RSI MACD data d :
  In d (DivergenceDetector RSI MACD data) ->
  (5 <= candlesAgo (List.length data) d)%Z
  /\ (5 <= startIndex d < endIndex d)%nat
  /\ (endIndex d - startIndex d <= 25)%nat.
Proof.
  intros H. destruct (In_DivergenceDetector _ _ _ _ H) as [ind [name Hd]].
  pose proof (detectDivergences_origin _ _ _ _ _ _ Hd) as [_ [Hdist [Hs [He _]]]].
  apply detectDivergences_inv in Hd.
  destruct Hd as [p1 [p2 [i1 [i2 [Hidx [_ [_ [_ [_ Hcase]]]]]]]]].
  rewrite length_map in He. unfold candlesAgo.
  destruct Hcase as [[-> _] | [-> _]]; cbn in *; lia.
Qed.

Lemma DivergenceDetector_age_witness :
  (5 <= candlesAgo (List.length sampleCandles) sampleDivergence)%Z
  /\ (5 <= startIndex sampleDivergence < endIndex sampleDivergence)%nat
  /\ (endIndex sampleDivergence - startIndex sampleDivergence <= 25)%nat.
Proof.
  apply (DivergenceDetector_age sampleRSI sampleMACD sampleCandles).
  vm_compute. right. left. reflexivity.
Defined.

Lemma count_by_type (l : list Divergence) :
  (bullishCount l + bearishCount l = List.length l)%nat.
Proof.
  unfold bullishCount, bearishCount.
  induction l as [|d l IH]; [reflexivity|].
  cbn [filter]. destruct (dtype d); cbn [List.length]; lia.
Qed.

(** X11.  The panel counts every recent divergence once, as bullish or as
    bearish; the recent divergences are those of the list that end at most 19
    candles before the last one, and there are no more of them than listed. *)
Theorem recentDivergences_counts (dataLength : nat) divergences :
  let recent := recentDivergences dataLength divergences in
  (bullishCount recent + bearishCount recent = List.length recent)%nat
  /\ (List.length recent <= List.length divergences)%nat
  /\ Forall (fun d => In d divergences /\ (candlesAgo dataLength d <= 19)%Z) recent
  /\ Forall (fun d => (candlesAgo dataLength d <= 19)%Z -> In d recent) divergences.
Proof.
  intros recent. repeat split.
  - apply count_by_type.
  - apply filter_length_le.
  - apply Forall_forall. intros d Hd. apply filter_In in Hd.
    destruct Hd as [Hin Hge]. split; [assumption|]. unfold candlesAgo. lia.
  - apply Forall_forall. intros d Hd Hage. apply filter_In.
    split; [assumption|]. unfold candlesAgo in Hage. lia.
Qed.

Lemma recentDivergences_counts_witness :
  let recent := recentDivergences 40 [sampleDivergence] in
  (bullishCount recent + bearishCount recent = List.length recent)%nat
  /\ (List.length recent <= List.length [sampleDivergence])%nat
  /\ Forall (fun d => In d [sampleDivergence] /\ (candlesAgo 40 d <= 19)%Z) recent
  /\ Forall (fun d => (candlesAgo 40 d <= 19)%Z -> In d recent) [sampleDivergence].
Proof. apply (recentDivergences_counts 40 [sampleDivergence]). Defined.

(** ** The correlation matrix *)

Import CorrelationMatrix.

Section Matrix.

Local Open Scope float_scope.

Variable returns : string -> option (list float).

Lemma mapR_total {A B : Type} (f : A -> result B) (g : A -> B) (l : list A) :
  (forall a, In a l -> f a = Ok (g a)) -> mapR f l = Ok (map g l).
Proof.
  induction l as [|a l IH]; intros H; [reflexivity|].
  cbn [mapR map]. rewrite (H a) by now left. cbn [bind].
  rewrite IH by (intros; apply H; now right). reflexivity.
Qed.

Lemma loaded_series s :
  In s (loaded returns) -> returns s = Some (seriesOf returns s).
Proof.
  unfold loaded, seriesOf. intros H. apply filter_In in H.
  destruct (returns s); [reflexivity | destruct H; discriminate].
Qed.

Lemma cellCorr_entry r c :
  In r (loaded returns) -> In c (loaded returns) ->
  cellCorr returns r c = Ok (entry returns r c).
Proof.
  intros Hr Hc. unfold cellCorr, entry.
  destruct (r =? c)%string; [reflexivity|].
  now rewrite (loaded_series r Hr), (loaded_series c Hc).
Qed.

Lemma entry_symmetric r c : entry returns r c = entry returns c r.
Proof.
  unfold entry. rewrite (String.eqb_sym c r).
  destruct (r =? c)%string; [reflexivity | apply calculateCorrelation_comm].
Qed.

Lemma entry_diagonal r : entry returns r r = 1.
Proof. unfold entry. now rewrite String.eqb_refl. Qed.

(** X14.  Building the matrix never raises.  It has one row per symbol of
    [CRYPTO_SYMBOLS] that has a series, in that order, and each row has one
    cell per such symbol, in the same order: the matrix is square.  Its
    entries are symmetric (the two cells hold the same double, NaN included)
    and equal to 1 on the diagonal. *)
Theorem matrix_square_symmetric :
  matrix returns
  = Ok (map (fun r =>
               mkRow r (map (fun c => mkCell c (entry returns r c))
                          (loaded returns)))
          (loaded returns))
  /\ (forall r c, entry returns r c = entry returns c r)
  /\ (forall r, entry returns r r = 1).
Proof.
  split; [|auto using entry_symmetric, entry_diagonal].
  unfold matrix. fold (loaded returns).
  apply mapR_total. intros r Hr.
  rewrite (mapR_total _ (fun c => mkCell c (entry returns r c))); [reflexivity|].
  intros c Hc. now rewrite cellCorr_entry.
Qed.

End Matrix.

Lemma matrix_square_symmetric_witness :
  matrix sampleReturns
  = Ok (map (fun r =>
               mkRow r (map (fun c => mkCell c (entry sampleReturns r c))
                          (loaded sampleReturns)))
          (loaded sampleReturns))
  /\ (forall r c, entry sampleReturns r c = entry sampleReturns c r)
  /\ (forall r, entry sampleReturns r r = 1%float).
Proof. apply (matrix_square_symmetric sampleReturns). Defined.

Example loaded_sampleReturns : loaded sampleReturns = ["BTC"; "SOL"]%string.
Proof. reflexivity. Qed.

(** ** Treemap: one rectangle per item *)

Import Treemap TreemapSpec TreemapGeometry.

Lemma layoutLoop_labels items :
  forall i c result,
    map rectLabels (layoutLoop items i c result)
    = map rectLabels result ++ map itemLabels items.
Proof.
  induction items as [|item rest IH]; intros i c result.
  - simpl. now rewrite app_nil_r.
  - cbn [layoutLoop]. destruct (horizontal c); cbv zeta beta iota;
      rewrite IH, map_app, <- app_assoc; reflexivity.
Qed.

(** X15.  For every input, [squarify] returns the empty layout when the item
    list is empty, the container has a non-positive side or the weights do
    not add up to a positive total; otherwise it returns exactly one rectangle
    per item, in the order of the items, each carrying the symbol, change,
    name, price and market cap of its item. *)
Theorem squarify_one_per_item items containerWidth containerHeight :
  let rects := squarify items containerWidth containerHeight in
  if degenerate items containerWidth containerHeight
  then rects = []
  else map rectLabels rects = map itemLabels items
       /\ List.length rects = List.length items.
Proof.
  unfold squarify, degenerate.
  destruct ((List.length items =? 0)%nat || (containerWidth <=? Fin 0)%num
            || (containerHeight <=? Fin 0)%num); [reflexivity|].
  cbn [orb].
  destruct (fold_left _ items (Fin 0) <=? Fin 0)%num; [reflexivity|].
  cbv zeta.
  pose proof (layoutLoop_labels items 0
                (mkCursor (Fin 0) (Fin 0) containerWidth containerHeight
                   (fold_left (fun sum item => (sum + weight item)%num) items (Fin 0))
                   (containerWidth >=? containerHeight)%num) []) as H.
  split; [exact H|].
  apply (f_equal (@List.length _)) in H. cbn [map app] in H.
  now rewrite !length_map in H.
Qed.

(** ** Treemap: the rectangles stay inside and do not overlap *)

Section Geometry.

Local Open Scope num_scope.

Lemma within_weaken x0 y0 x1 y1 x0' y0' x1' y1' r :
  within x0 y0 x1 y1 r ->
  (x0' <= x0)%Q -> (y0' <= y0)%Q -> (x1 <= x1')%Q -> (y1 <= y1')%Q ->
  within x0' y0' x1' y1' r.
Proof.
  intros [rx [ry [rw [rh H]]]] Hx0 Hy0 Hx1 Hy1.
  exists rx, ry, rw, rh. repeat split; try tauto; lra.
Qed.

Lemma layoutLoop_geometry items :
  Forall (fun item => finitePos (weight item)) items ->
  forall i c result x0 y0 rw rh rwt,
    cx c = Fin x0 -> cy c = Fin y0 ->
    remainingWidth c = Fin rw -> remainingHeight c = Fin rh ->
    remainingWeight c = Fin rwt ->
    (0 <= rw)%Q -> (0 <= rh)%Q -> (rwt == weightSum items)%Q ->
    exists new,
      layoutLoop items i c result = result ++ new
      /\ Forall (within x0 y0 (x0 + rw) (y0 + rh)) new
      /\ ForallOrdPairs leftOrAbove new.
Proof.
  induction items as [|item rest IH]; intros Hall.
  { intros. exists []. cbn [layoutLoop]. rewrite app_nil_r.
    repeat split; constructor. }
  inversion Hall as [|? ? Hw Hrest]; subst.
  destruct (finitePos_inv _ Hw) as [wq [Hweight Hwq]].
  pose proof (weightSum_nonneg rest Hrest) as Hsum.
  intros i [cx0 cy0 rW rH rWt hz] result x0 y0 rw rh rwt;
    cbn [cx cy remainingWidth remainingHeight remainingWeight];
    intros -> -> -> -> -> Hrw Hrh Hrwt.
  cbn [weightSum fold_right] in Hrwt. fold (weightSum rest) in Hrwt.
  rewrite Hweight in Hrwt. cbn [toQ] in Hrwt.
  assert (Hpos : (0 < rwt)%Q) by lra.
  assert (Hshare : forall rem, (0 <= rem)%Q ->
                     (0 <= rem * (wq / rwt) <= rem)%Q).
  { intros rem Hrem. rewrite Hrwt. now apply share_bounds. }
  cbn [layoutLoop remainingWeight horizontal remainingWidth remainingHeight cx cy].
  rewrite Hweight, (div_Fin_pos wq rwt Hpos).
  destruct hz;
    cbn [cx cy remainingWidth remainingHeight remainingWeight horizontal
         mul sub add neg].
  - pose proof (Hshare rw Hrw) as Hs.
    destruct (IH Hrest (S i)
                (mkCursor (Fin (x0 + rw * (wq / rwt))) (Fin y0)
                   (Fin (rw + - (rw * (wq / rwt)))) (Fin rh)
                   (Fin (rwt + - wq))
                   (if (i mod 3 =? 2)%nat then negb true else true))
                (result ++ [mkRect (Fin x0) (Fin y0) (Fin (rw * (wq / rwt))) (Fin rh)
                              (symbol item) (change item) (name item)
                              (price item) (marketCap item)])
                (x0 + rw * (wq / rwt))%Q y0 (rw + - (rw * (wq / rwt)))%Q rh
                (rwt + - wq)%Q eq_refl eq_refl eq_refl eq_refl eq_refl)
      as [new [Hrun [Hin Hpairs]]]; [lra | assumption | rewrite Hrwt; ring |].
    rewrite Hrun, <- app_assoc. eexists. split; [reflexivity|]. cbn [app].
    split; [constructor|constructor; [|assumption]].
    + exists x0, y0, (rw * (wq / rwt))%Q, rh. cbn. repeat split; lra.
    + eapply Forall_impl; [|exact Hin]. intros r Hr.
      apply (within_weaken _ _ _ _ _ _ _ _ _ Hr); lra.
    + eapply Forall_impl; [|exact Hin]. intros r [rx [ry [rw' [rh' H]]]].
      left. destruct H as [-> [_ [_ [_ [H _]]]]]. cbn. lra.
  - pose proof (Hshare rh Hrh) as Hs.
    destruct (IH Hrest (S i)
                (mkCursor (Fin x0) (Fin (y0 + rh * (wq / rwt)))
                   (Fin rw) (Fin (rh + - (rh * (wq / rwt))))
                   (Fin (rwt + - wq))
                   (if (i mod 3 =? 2)%nat then negb false else false))
                (result ++ [mkRect (Fin x0) (Fin y0) (Fin rw) (Fin (rh * (wq / rwt)))
                              (symbol item) (change item) (name item)
                              (price item) (marketCap item)])
                x0 (y0 + rh * (wq / rwt))%Q rw (rh + - (rh * (wq / rwt)))%Q
                (rwt + - wq)%Q eq_refl eq_refl eq_refl eq_refl eq_refl)
      as [new [Hrun [Hin Hpairs]]]; [assumption | lra | rewrite Hrwt; ring |].
    rewrite Hrun, <- app_assoc. eexists. split; [reflexivity|]. cbn [app].
    split; [constructor|constructor; [|assumption]].
    + exists x0, y0, rw, (rh * (wq / rwt))%Q. cbn. repeat split; lra.
    + eapply Forall_impl; [|exact Hin]. intros r Hr.
      apply (within_weaken _ _ _ _ _ _ _ _ _ Hr); lra.
    + eapply Forall_impl; [|exact Hin]. intros r [rx [ry [rw' [rh' H]]]].
      right. destruct H as [_ [-> [_ [_ [_ [H _]]]]]]. cbn. lra.
Qed.

End Geometry.

(** X16.  For items of positive weight and a container of positive width and
    height, every rectangle returned by [squarify] has finite coordinates and
    lies inside the container, and any two of them have disjoint interiors:
    the earlier one ends, horizontally or vertically, where the later one
    begins. *)
Theorem squarify_inside_disjoint (items : list Item) (cw ch : Q) :
  Forall (fun item => finitePos (weight item)) items ->
  (0 < cw)%Q -> (0 < ch)%Q ->
  let rects := squarify items (Fin cw) (Fin ch) in
  Forall (within 0 0 cw ch) rects /\ ForallOrdPairs leftOrAbove rects.
Proof.
  intros Hall Hcw Hch. unfold squarify.
  destruct ((List.length items =? 0)%nat || (Fin cw <=? Fin 0)%num
            || (Fin ch <=? Fin 0)%num); [split; constructor|].
  destruct (totalWeight_finite items Hall 0%Q) as [tw [-> Htw]].
  destruct (Fin tw <=? Fin 0)%num; [split; constructor|].
  destruct (layoutLoop_geometry items Hall 0%nat
              (mkCursor (Fin 0) (Fin 0) (Fin cw) (Fin ch) (Fin tw)
                 (Fin cw >=? Fin ch)%num)
              [] 0%Q 0%Q cw ch tw eq_refl eq_refl eq_refl eq_refl eq_refl)
    as [new [Hrun [Hin Hpairs]]]; try lra.
  cbv zeta. rewrite Hrun. cbn [app]. split; [|assumption].
  eapply Forall_impl; [|exact Hin]. intros r Hr.
  apply (within_weaken _ _ _ _ _ _ _ _ _ Hr); lra.
Qed.

Lemma squarify_inside_disjoint_witness :
  let rects := squarify sampleItems (Fin 600) (Fin 400) in
  Forall (within 0 0 600 400) rects /\ ForallOrdPairs leftOrAbove rects.
Proof.
  apply (squarify_inside_disjoint sampleItems 600 400).
  - repeat constructor.
  - reflexivity.
  - reflexivity.
Defined.

(** ** Colour scales *)

Import Colours.

Section ColourScales.

Local Open Scope num_scope.

Lemma geb_Fin_dec a b :
  (Fin a >=? Fin b) = if Qlt_le_dec a b then false else true.
Proof.
  unfold geb. cbn [cmp]. destruct (Qlt_le_dec a b) as [H|H].
  - destruct (a ?= b)%Q eqn:E; try reflexivity.
    + apply Qeq_alt in E. lra.
    + apply Qgt_alt in E. lra.
  - destruct (a ?= b)%Q eqn:E; try reflexivity.
    apply Qlt_alt in E. lra.
Qed.

Ltac threshold :=
  match goal with
  | |- context [Qlt_le_dec ?a ?b] => destruct (Qlt_le_dec a b)
  end.

Lemma Qabs_cases q : (Qabs q == q /\ 0 <= q)%Q \/ (Qabs q == - q /\ q <= 0)%Q.
Proof.
  destruct (Qlt_le_dec q 0) as [H|H].
  - right. split; [apply Qabs_neg|]; lra.
  - left. split; [apply Qabs_pos|]; lra.
Qed.

(** X18.  In the correlation matrix, a defined coefficient is written in
    white exactly when its background is one of the four saturated colours,
    except that -0.5 itself is written in white on the faint red background.
    An undefined coefficient gets the strongest red background and the
    default text colour. *)
Theorem correlation_cell_colours (corr : num) :
  (isNaN corr = false ->
   (getCorrelationTextColor corr = "text-white"%string
    <-> strongCorrelation (getCorrelationColor corr) = true
        \/ corr =~= Fin (- (5 # 10))))
  /\ getCorrelationColor NaN = "bg-red-500"%string
  /\ getCorrelationTextColor NaN = "text-[var(--text-primary)]"%string.
Proof.
  split; [|split; reflexivity].
  intros Hdef. destruct corr as [| |q|]; try discriminate.
  - cbn. split; auto.
  - unfold getCorrelationTextColor, getCorrelationColor. cbn [abs].
    rewrite !geb_Fin_dec. cbn [num_eq].
    destruct (Qabs_cases q) as [[Ha Hs]|[Ha Hs]];
      repeat threshold; try lra;
      (split; [intros H; try discriminate H; try (left; reflexivity); right; lra
              | intros [H|H]; try discriminate H; try reflexivity; lra]).
  - cbn. split; auto.
Qed.

Lemma correlation_cell_colours_witness :
  (getCorrelationTextColor (Fin (- (5 # 10))) = "text-white"%string
   <-> strongCorrelation (getCorrelationColor (Fin (- (5 # 10)))) = true
       \/ Fin (- (5 # 10)) =~= Fin (- (5 # 10)))
  /\ getCorrelationColor NaN = "bg-red-500"%string
  /\ getCorrelationTextColor NaN = "text-[var(--text-primary)]"%string.
Proof.
  destruct (correlation_cell_colours (Fin (- (5 # 10)))) as [H1 H2].
  split; [apply H1; reflexivity | exact H2].
Defined.

(** X19.  In the heat map, a tile is green exactly when its change is at
    least 0 (an undefined change is drawn in the strongest red); for a defined
    change the label is white exactly when the background is one of the six
    saturated colours, except that -2 itself is written in white on the
    second-faintest red. *)
Theorem heat_tile_colours (change : num) :
  (greenHeat (getHeatColor change) = true <-> (change >=? Fin 0) = true)
  /\ (isNaN change = false ->
      (getTextColor change = "text-white"%string
       <-> strongHeat (getHeatColor change) = true \/ change =~= Fin (- 2))).
Proof.
  destruct change as [| |q|].
  - split; [cbn; split; discriminate | discriminate].
  - split; [cbn; split; discriminate | intros _; cbn; split; auto].
  - unfold getTextColor, getHeatColor. cbn [abs]. rewrite !geb_Fin_dec.
    cbn [num_eq]. split.
    + repeat threshold; try lra; split; intros H; try discriminate H; reflexivity.
    + intros _.
      destruct (Qabs_cases q) as [[Ha Hs]|[Ha Hs]];
        repeat threshold; try lra;
        (split; [intros H; try discriminate H; try (left; reflexivity); right; lra
                | intros [H|H]; try discriminate H; try reflexivity; lra]).
  - split; [cbn; split; reflexivity | intros _; cbn; split; auto].
Qed.

Lemma heat_tile_colours_witness :
  (greenHeat (getHeatColor (Fin (- 2))) = true <-> (Fin (- 2) >=? Fin 0) = true)
  /\ (getTextColor (Fin (- 2)) = "text-white"%string
      <-> strongHeat (getHeatColor (Fin (- 2))) = true
          \/ Fin (- 2) =~= Fin (- 2)).
Proof.
  destruct (heat_tile_colours (Fin (- 2))) as [H1 H2].
  split; [exact H1 | apply H2; reflexivity].
Defined.

End ColourScales.
